(** * isupipe: the three ad-hoc caches of the livestreaming backend

    A shallow embedding of the Go handlers that sit on the credential cache
    ([cache], bcryptHandler.go), the profile cache ([userCache],
    user handler) and the moderation-word cache ([ngWordsCache],
    livecomment_handler.go), with the properties the specification states
    about them.

    Go handlers become computations in a small state-and-error monad over a
    [World] that holds the three package-level maps, the committed
    database, the icon files, a clock and a trace of the effects performed
    so far.  A transaction is a private copy of the database that only
    [Commit] publishes. *)

From Stdlib Require Import ZArith Lia Sorted.
From stdpp Require Import base option list gmap strings pretty.

Local Open Scope string_scope.
Local Open Scope Z_scope.

(** ** Errors *)

(** Go [error] values the handlers see.  [HTTPError] is [*echo.HTTPError];
    [ErrNotExist] is the one [os.IsNotExist] recognises; [Panic] stands for
    a run-time panic (nil-pointer dereference, failed type assertion), which
    unwinds the handler like an early return. *)
Inductive error :=
| ErrNoRows
| ErrMismatchedHashAndPassword
| ErrOther (msg : string)
| ErrNotExist
| HTTPError (code : Z) (msg : string)
| Panic.

#[global] Instance error_eq_dec : EqDecision error.
Proof. solve_decision. Defined.

(** [err.Error()] *)
Definition Error (e : error) : string :=
  match e with
  | ErrNoRows => "sql: no rows in result set"
  | ErrMismatchedHashAndPassword =>
      "crypto/bcrypt: hashedPassword is not the hash of the given password"
  | ErrOther msg => msg
  | HTTPError _ msg => msg
  | ErrNotExist => "no such file or directory"
  | Panic => "invalid memory address or nil pointer dereference"
  end.

(** [errors.Is(err, target)]: none of the errors above wraps another. *)
Definition errors_Is (err target : error) : bool := bool_decide (err = target).

(** ** Rows and responses *)

Record Theme := mkTheme { Theme_ID : Z; Theme_DarkMode : bool }.

Record User := mkUser {
  User_ID : Z;
  User_Name : string;
  User_DisplayName : string;
  User_Description : string;
  User_Theme : Theme;
  User_IconHash : string
}.

Record UserModel := mkUserModel {
  um_ID : Z;
  um_Name : string;
  um_DisplayName : string;
  um_Description : string;
  um_HashedPassword : string;
  um_IconHash : option string
}.

Record ThemeModel := mkThemeModel {
  tm_ID : Z;
  tm_UserID : Z;
  tm_DarkMode : bool
}.

Record NGWord := mkNGWord {
  ng_ID : Z;
  ng_UserID : Z;
  ng_LivestreamID : Z;
  ng_Word : string;
  ng_CreatedAt : Z
}.

Record LivecommentModel := mkLivecommentModel {
  lcm_ID : Z;
  lcm_UserID : Z;
  lcm_LivestreamID : Z;
  lcm_Comment : string;
  lcm_Tip : Z;
  lcm_CreatedAt : Z
}.

(** [LivestreamModel] is declared outside src/; the handlers read its [ID]
    and [UserID] fields only. *)
Record LivestreamModel := mkLivestreamModel {
  lsm_ID : Z;
  lsm_UserID : Z
}.

(** The [Livestream] response type is declared outside src/ as well: the
    handlers only carry it, so it stays abstract. *)
Class Declared := { Livestream : Type }.

Record Livecomment `{Declared} := mkLivecomment {
  lc_ID : Z;
  lc_User : User;
  lc_Livestream : Livestream;
  lc_Comment : string;
  lc_Tip : Z;
  lc_CreatedAt : Z
}.

(** [cachedUser]: an assembled profile with the instant it was fetched
    (nanoseconds on the process clock). *)
Record cachedUser := mkCachedUser {
  user : User;
  fetchedAt : Z
}.

(** What a handler writes with [c.JSON] or [c.NoContent]. *)
Inductive Response `{Declared} :=
| NoContent (code : Z)
| JSON_NGWords (code : Z) (ws : list NGWord)
| JSON_Livecomment (code : Z) (lc : Livecomment)
| JSON_WordID (code : Z) (word_id : Z).

Definition StatusOK : Z := 200.
Definition StatusCreated : Z := 201.
Definition StatusBadRequest : Z := 400.
Definition StatusUnauthorized : Z := 401.
Definition StatusForbidden : Z := 403.
Definition StatusNotFound : Z := 404.
Definition StatusInternalServerError : Z := 500.

(** ** The database *)

Record DB := mkDB {
  users : list UserModel;
  themes : list ThemeModel;
  ng_words : list NGWord;
  livecomments : list LivecommentModel;
  ng_words_auto_increment : Z;
  livecomments_auto_increment : Z
}.

(** The statements the handlers send to the database. *)
Inductive Stmt :=
| BeginTxx
| Commit
| SelectUserByID (id : Z)
| SelectThemeByUserID (user_id : Z)
| SelectNGWords (livestream_id : Z)
| InsertNGWord (w : NGWord)
| InsertLivecomment (m : LivecommentModel)
| DeleteLivecommentsLike (livestream_id : Z) (word : string)
| LastInsertId.

(** ** Icon files *)

Inductive Path :=
| IconFile (user_id : Z)      (* fmt.Sprintf("%s/%d", iconDir, id) *)
| fallbackImage.              (* "../img/NoImage.jpg" *)

Inductive FileState :=
| Absent
| File (content : string)
| StatFails (msg : string)     (* os.Stat fails, and not with "does not exist" *)
| Unreadable (msg : string).   (* os.Stat succeeds, os.ReadFile fails *)

(** ** Effects *)

Inductive Event :=
| EvCredLoad (key : string)
| EvCredStore (key : string) (v : bool)
| EvCompareHashAndPassword (hash password : string)
| EvUserLoad (id : Z)
| EvUserStore (id : Z) (v : cachedUser)
| EvNgLoad (key : Z)
| EvNgStore (key : Z) (ws : list NGWord)
| EvNgDelete (key : Z)
| EvSQL (s : Stmt)
| EvGetLivestream (id : Z)
| EvStat (p : Path)
| EvReadFile (p : Path)
| EvSleep (d : Z).

(** The process: the three package-level [Map]s, [dbConn], the icon
    directory, the clock (nanoseconds) and the effects so far. *)
Record World := mkWorld {
  cache : gmap string bool;
  userCache : gmap Z cachedUser;
  ngWordsCache : gmap Z (list NGWord);
  dbConn : DB;
  files : Path -> FileState;
  clock : Z;
  trace : list Event
}.

Definition set_cache (f : gmap string bool -> gmap string bool) (w : World) : World :=
  mkWorld (f (cache w)) (userCache w) (ngWordsCache w) (dbConn w) (files w) (clock w) (trace w).
Definition set_userCache (f : gmap Z cachedUser -> gmap Z cachedUser) (w : World) : World :=
  mkWorld (cache w) (f (userCache w)) (ngWordsCache w) (dbConn w) (files w) (clock w) (trace w).
Definition set_ngWordsCache (f : gmap Z (list NGWord) -> gmap Z (list NGWord)) (w : World) : World :=
  mkWorld (cache w) (userCache w) (f (ngWordsCache w)) (dbConn w) (files w) (clock w) (trace w).
Definition set_dbConn (d : DB) (w : World) : World :=
  mkWorld (cache w) (userCache w) (ngWordsCache w) d (files w) (clock w) (trace w).
Definition set_clock (t : Z) (w : World) : World :=
  mkWorld (cache w) (userCache w) (ngWordsCache w) (dbConn w) (files w) t (trace w).
Definition log (e : Event) (w : World) : World :=
  mkWorld (cache w) (userCache w) (ngWordsCache w) (dbConn w) (files w) (clock w) (trace w ++ [e]).

(** ** The handler monad: state, early return with an [error] *)

Definition M (A : Type) : Type := World -> (error + A) * World.

Definition ret {A} (a : A) : M A := fun w => (inr a, w).
Definition fail {A} (e : error) : M A := fun w => (inl e, w).
Definition bind {A B} (m : M A) (k : A -> M B) : M B :=
  fun w => match m w with
           | (inr a, w') => k a w'
           | (inl e, w') => (inl e, w')
           end.

Notation "'let*' x ':=' c1 'in' c2" := (bind c1 (fun x => c2))
  (at level 10, x name, c1 at level 100, c2 at level 200).

(** [x, err := f(); if err != nil { return h(err) }] *)
Definition orReturn {A} (m : M A) (h : error -> error) : M A :=
  fun w => match m w with
           | (inl e, w') => (inl (h e), w')
           | r => r
           end.

(** [x, err := f()] with the error kept as a value. *)
Definition try {A} (m : M A) : M (error + A) :=
  fun w => let '(r, w') := m w in (inr r, w').

Definition emit (e : Event) : M unit := fun w => (inr tt, log e w).
Definition get : M World := fun w => (inr w, w).

(** [echo.NewHTTPError(code, msg)] returned from a handler. *)
Definition NewHTTPError {A} (code : Z) (msg : string) : M A := fail (HTTPError code msg).

(** [time.Now()] in nanoseconds, and [time.Sleep]. *)
Definition Now : M Z := fun w => (inr (clock w), w).
Definition Millisecond : Z := 1000000.
Definition Second : Z := 1000 * Millisecond.
Definition Sleep (d : Z) : M unit :=
  fun w => (inr tt, set_clock (clock w + d) (log (EvSleep d) w)).
(** [t.Unix()] *)
Definition Unix (t : Z) : Z := t / Second.

(** ** The associative store

    Modelled from the spec: the generic [Map[K, V]] behind the three caches
    is declared outside src/.  The spec (4.1, ConcurrentKeyedStore) gives
    [Load(key) -> (value, found)], [Store(key, value)] and [Delete(key)],
    deleting an absent key being a no-op.  [Load] returns an [option]: [None]
    is Go's [(zero, false)]. *)
Definition Map_Load {K V} `{Countable K} (m : gmap K V) (k : K) : option V := m !! k.
Definition Map_Store {K V} `{Countable K} (k : K) (v : V) (m : gmap K V) : gmap K V := <[k:=v]> m.
Definition Map_Delete {K V} `{Countable K} (k : K) (m : gmap K V) : gmap K V := delete k m.

Definition cache_Load (k : string) : M (option bool) :=
  fun w => (inr (Map_Load (cache w) k), log (EvCredLoad k) w).
Definition cache_Store (k : string) (v : bool) : M unit :=
  fun w => (inr tt, set_cache (Map_Store k v) (log (EvCredStore k v) w)).

Definition userCache_Load (id : Z) : M (option cachedUser) :=
  fun w => (inr (Map_Load (userCache w) id), log (EvUserLoad id) w).
Definition userCache_Store (id : Z) (v : cachedUser) : M unit :=
  fun w => (inr tt, set_userCache (Map_Store id v) (log (EvUserStore id v) w)).

Definition ngWordsCache_Load (k : Z) : M (option (list NGWord)) :=
  fun w => (inr (Map_Load (ngWordsCache w) k), log (EvNgLoad k) w).
Definition ngWordsCache_Store (k : Z) (ws : list NGWord) : M unit :=
  fun w => (inr tt, set_ngWordsCache (Map_Store k ws) (log (EvNgStore k ws) w)).
Definition ngWordsCache_Delete (k : Z) : M unit :=
  fun w => (inr tt, set_ngWordsCache (Map_Delete k) (log (EvNgDelete k) w)).

(** ** Requests *)

Record PostBcryptCompairHandler := mkPostBcryptCompair {
  Password : string;
  HashedPassword : string
}.

Record PostLivecommentRequest := mkPostLivecommentRequest {
  Comment : string;
  Tip : Z
}.

Record ModerateRequest := mkModerateRequest {
  mr_NGWord : string
}.

(** What [session.Get(defaultSessionIDKey, c)] yields: the values stored
    under [defaultSessionExpiresKey] and [defaultUserIDKey], when present
    and [int64]. *)
Record Session := mkSession {
  Values_EXPIRES : option Z;
  Values_USERID : option Z
}.

(** What a handler reads off [echo.Context]: the session, the
    [livestream_id] path parameter through [strconv.Atoi] ([None] when it
    is not an integer) and the JSON body through [Decode] into a pointer
    ([inl] on a decoding error, [inr None] for the literal [null]). *)
Record Context (Body : Type) := mkContext {
  session_Get : error + Session;
  Param_livestream_id : option Z;
  Decode : error + option Body
}.
Arguments session_Get {Body} _.
Arguments Param_livestream_id {Body} _.
Arguments Decode {Body} _.

(** ** Collaborators

    What the handlers call and src/ does not define: the password hash
    comparison, the SHA-256 fingerprint, the database driver's failures,
    MySQL's [LIKE], and the two livestream helpers of the repository. *)
Class Collaborators `{Declared} := {
  (** [bcrypt.CompareHashAndPassword(hash, password)]: [None] is [nil]. *)
  CompareHashAndPassword : string -> string -> option error;
  (** [fmt.Sprintf("%x", sha256.Sum256(image))] *)
  sha256_hex : string -> string;
  (** The error, if any, with which the driver answers a statement. *)
  driver_fault : Stmt -> option error;
  (** [comment LIKE CONCAT('%', word, '%')] under the table's collation. *)
  sql_like_contains : string -> string -> bool;
  (** [getLivestream(ctx, tx, id)]: a read of the transaction's view. *)
  getLivestream_query : DB -> Z -> error + LivestreamModel;
  (** [fillLivestreamResponse(ctx, tx, model)] *)
  fillLivestreamResponse : DB -> LivestreamModel -> M Livestream
}.

Section Handlers.
Context `{Collaborators}.

Definition bcrypt_CompareHashAndPassword (hash password : string) : M (option error) :=
  fun w => (inr (CompareHashAndPassword hash password),
            log (EvCompareHashAndPassword hash password) w).

(** ** bcryptHandler.go *)

(** [c.Bind(req)]: the request body bound to [req], or the binder's error. *)
Definition Bind {A} (body : error + A) : M A :=
  match body with
  | inl e => fail e
  | inr req => ret req
  end.

(** The handler that caches the outcome (the revision of bcryptHandler.go
    that declares [var cache Map[string, bool]]). *)
Definition bcryptCompairHandler (c : error + PostBcryptCompairHandler) : M Response :=
  let* req := Bind c in
  let* r := cache_Load (HashedPassword req +:+ ":" +:+ Password req) in
  match r with
  | Some equal =>
      if equal then ret (NoContent 200)
      else NewHTTPError StatusUnauthorized "invalid username or password"
  | None =>
      let* err := bcrypt_CompareHashAndPassword (HashedPassword req) (Password req) in
      match err with
      | Some e =>
          if bool_decide (e = ErrMismatchedHashAndPassword) then
            let* _ := cache_Store (HashedPassword req +:+ "-" +:+ Password req) false in
            NewHTTPError StatusUnauthorized "invalid username or password"
          else fail e
      | None =>
          let* _ := cache_Store (HashedPassword req +:+ "-" +:+ Password req) true in
          ret (NoContent 200)
      end
  end.

(** ** Database statements

    A statement goes to the driver: it is recorded, and answered with the
    driver's error when it has one. *)
Definition exec (s : Stmt) : M unit :=
  let* _ := emit (EvSQL s) in
  match driver_fault s with
  | Some e => fail e
  | None => ret tt
  end.

(** [tx.GetContext(ctx, &model, "SELECT * FROM users WHERE id = ?", id)] *)
Definition GetContext_users (tx : DB) (id : Z) : M UserModel :=
  let* _ := exec (SelectUserByID id) in
  match List.find (fun u => um_ID u =? id) (users tx) with
  | Some u => ret u
  | None => fail ErrNoRows
  end.

(** [tx.GetContext(ctx, &themeModel, "SELECT * FROM themes WHERE user_id = ?", id)] *)
Definition GetContext_themes (tx : DB) (user_id : Z) : M ThemeModel :=
  let* _ := exec (SelectThemeByUserID user_id) in
  match List.find (fun t => tm_UserID t =? user_id) (themes tx) with
  | Some t => ret t
  | None => fail ErrNoRows
  end.

(** [ORDER BY created_at DESC]: insertion into a list already in that order. *)
Fixpoint insert_desc (x : NGWord) (l : list NGWord) : list NGWord :=
  match l with
  | [] => [x]
  | y :: l' =>
      if ng_CreatedAt y <=? ng_CreatedAt x then x :: y :: l'
      else y :: insert_desc x l'
  end.

Definition order_by_created_at_desc (l : list NGWord) : list NGWord :=
  foldr insert_desc [] l.

(** The rows of ["SELECT * FROM ng_words WHERE livestream_id = ? ORDER BY
    created_at DESC"]. *)
Definition ng_words_of (tx : DB) (livestream_id : Z) : list NGWord :=
  order_by_created_at_desc
    (List.filter (fun n => ng_LivestreamID n =? livestream_id) (ng_words tx)).

(** [tx.SelectContext(ctx, &ngWords, "SELECT * FROM ng_words WHERE ...", id)]:
    sqlx appends the rows to the destination and reports the driver's error. *)
Definition SelectContext_ng_words (tx : DB) (livestream_id : Z) : M (list NGWord) :=
  let* _ := exec (SelectNGWords livestream_id) in
  ret (ng_words_of tx livestream_id).

(** [getLivestream(ctx, tx, id)] *)
Definition getLivestream (tx : DB) (id : Z) : M LivestreamModel :=
  let* _ := emit (EvGetLivestream id) in
  match getLivestream_query tx id with
  | inl e => fail e
  | inr m => ret m
  end.

(** [dbConn.BeginTxx(ctx, nil)]: the transaction starts from the committed
    database. *)
Definition dbConn_BeginTxx : M DB :=
  let* _ := exec BeginTxx in
  let* w := get in
  ret (dbConn w).

(** [tx.Commit()] publishes the transaction. *)
Definition tx_Commit (tx : DB) : M unit :=
  let* _ := exec Commit in
  fun w => (inr tt, set_dbConn tx w).

(** ** Icon files *)

Definition os_Stat (p : Path) : M unit :=
  let* _ := emit (EvStat p) in
  let* w := get in
  match files w p with
  | Absent => fail ErrNotExist
  | StatFails msg => fail (ErrOther msg)
  | File _ | Unreadable _ => ret tt
  end.

Definition os_IsNotExist (e : error) : bool := bool_decide (e = ErrNotExist).

Definition os_ReadFile (p : Path) : M string :=
  let* _ := emit (EvReadFile p) in
  let* w := get in
  match files w p with
  | File content => ret content
  | Absent => fail ErrNotExist
  | StatFails msg | Unreadable msg => fail (ErrOther msg)
  end.

(** ** The user handler: sessions and the profile cache *)

Definition verifyUserSession {B} (c : Context B) : M unit :=
  match session_Get c with
  | inl _ => NewHTTPError StatusUnauthorized "failed to get session"
  | inr sess =>
      match Values_EXPIRES sess with
      | None => NewHTTPError StatusForbidden "failed to get EXPIRES value from session"
      | Some sessionExpires =>
          match Values_USERID sess with
          | None => NewHTTPError StatusUnauthorized "failed to get USERID value from session"
          | Some _ =>
              let* now := Now in
              if Unix now >? sessionExpires then
                NewHTTPError StatusUnauthorized "session has expired"
              else ret tt
          end
      end
  end.

(** [sess.Values[defaultUserIDKey].(int64)] *)
Definition session_userID {B} (c : Context B) : M Z :=
  match session_Get c with
  | inr sess =>
      match Values_USERID sess with
      | Some id => ret id
      | None => fail Panic
      end
  | inl _ => fail Panic
  end.

(** [t.Add(d)] and [t.After(u)] on instants in nanoseconds. *)
Definition Time_Add (t d : Z) : Z := t + d.
Definition Time_After (t u : Z) : bool := u <? t.

Definition fillUserResponse (tx : DB) (userModel : UserModel) : M User :=
  let* themeModel := GetContext_themes tx (um_ID userModel) in
  let* iconHash :=
    match um_IconHash userModel with
    | Some h => ret h
    | None =>
        let* st := try (os_Stat (IconFile (um_ID userModel))) in
        let* image :=
          match st with
          | inl err =>
              if os_IsNotExist err then
                (* image, err = os.ReadFile(fallbackImage): err is dropped *)
                let* r := try (os_ReadFile fallbackImage) in
                ret (match r with inr b => b | inl _ => "" end)
              else fail err
          | inr _ => os_ReadFile (IconFile (um_ID userModel))
          end in
        ret (sha256_hex image)
    end in
  ret {| User_ID := um_ID userModel;
         User_Name := um_Name userModel;
         User_DisplayName := um_DisplayName userModel;
         User_Description := um_Description userModel;
         User_Theme := {| Theme_ID := tm_ID themeModel;
                          Theme_DarkMode := tm_DarkMode themeModel |};
         User_IconHash := iconHash |}.

Definition getUserResponse (tx : DB) (id : Z) : M User :=
  let* fetched := userCache_Load id in
  let* now := Now in
  let rebuild : M User :=
    let* model :=
      orReturn (GetContext_users tx id)
               (fun err => if errors_Is err ErrNoRows then ErrNoRows else err) in
    let* user := fillUserResponse tx model in
    (* fetched.fetchedAt = now; fetched.user = user *)
    let* _ := userCache_Store id {| user := user; fetchedAt := now |} in
    ret user in
  match fetched with
  | Some fetched =>
      if Time_After (Time_Add (fetchedAt fetched) (1 * Second + 300 * Millisecond)) now
      then ret (user fetched)
      else rebuild
  | None => rebuild
  end.

(** ** livecomment_handler.go *)

(** [strings.Contains(s, substr)]: [substr] starts at some position of [s],
    byte for byte. *)
Fixpoint strings_Contains (s substr : string) : bool :=
  String.prefix substr s ||
  match s with
  | EmptyString => false
  | String _ s' => strings_Contains s' substr
  end.

(** The committed database, for the handlers that set [tx := dbConn]. *)
Definition DbConn : M DB := fun w => (inr (dbConn w), w).

(** [strconv.Atoi(c.Param("livestream_id"))] with its error branch. *)
Definition livestream_id_param {B} (c : Context B) : M Z :=
  match Param_livestream_id c with
  | Some n => ret n
  | None => NewHTTPError StatusBadRequest "livestream_id in path must be integer"
  end.

Definition getNgwords (c : Context unit) : M Response :=
  let* _ := verifyUserSession c in
  let* userID := session_userID c in
  let* livestreamID := livestream_id_param c in
  let* conn := DbConn in
  let* liveStream := try (getLivestream conn livestreamID) in
  match liveStream with
  | inl _ => ret (JSON_NGWords StatusOK [])
  | inr liveStream =>
      if negb (lsm_UserID liveStream =? userID) then ret (JSON_NGWords StatusOK [])
      else
        let* tx := DbConn in
        let* found := ngWordsCache_Load livestreamID in
        match found with
        | Some ngWords => ret (JSON_NGWords StatusOK ngWords)
        | None =>
            let* r := try (SelectContext_ng_words tx livestreamID) in
            match r with
            | inl err =>
                if errors_Is err ErrNoRows then ret (JSON_NGWords StatusOK [])
                else NewHTTPError StatusInternalServerError
                                  ("failed to get NG words: " +:+ Error err)
            | inr ngWords =>
                let* _ := ngWordsCache_Store livestreamID ngWords in
                ret (JSON_NGWords StatusOK ngWords)
            end
        end
  end.

(** The transaction after ["INSERT INTO livecomments (user_id,
    livestream_id, comment, tip, created_at) VALUES (...)"], with the id the
    table gave the row. *)
Definition insert_livecomment (tx : DB) (m : LivecommentModel) : DB * Z :=
  let id := livecomments_auto_increment tx in
  let row := {| lcm_ID := id;
                lcm_UserID := lcm_UserID m;
                lcm_LivestreamID := lcm_LivestreamID m;
                lcm_Comment := lcm_Comment m;
                lcm_Tip := lcm_Tip m;
                lcm_CreatedAt := lcm_CreatedAt m |} in
  ({| users := users tx;
      themes := themes tx;
      ng_words := ng_words tx;
      livecomments := livecomments tx ++ [row];
      ng_words_auto_increment := ng_words_auto_increment tx;
      livecomments_auto_increment := id + 1 |}, id).

(** [tx.NamedExecContext(ctx, "INSERT INTO livecomments ...", livecommentModel)]:
    the result carries the new id for [LastInsertId]. *)
Definition NamedExecContext_insert_livecomment (tx : DB) (m : LivecommentModel) : M (DB * Z) :=
  let* _ := exec (InsertLivecomment m) in
  ret (insert_livecomment tx m).

(** The transaction after ["INSERT INTO ng_words(user_id, livestream_id,
    word, created_at) VALUES (...)"], with the id of the new row. *)
Definition insert_ng_word (tx : DB) (n : NGWord) : DB * Z :=
  let id := ng_words_auto_increment tx in
  let row := {| ng_ID := id;
                ng_UserID := ng_UserID n;
                ng_LivestreamID := ng_LivestreamID n;
                ng_Word := ng_Word n;
                ng_CreatedAt := ng_CreatedAt n |} in
  ({| users := users tx;
      themes := themes tx;
      ng_words := ng_words tx ++ [row];
      livecomments := livecomments tx;
      ng_words_auto_increment := id + 1;
      livecomments_auto_increment := livecomments_auto_increment tx |}, id).

(** [tx.NamedExecContext(ctx, "INSERT INTO ng_words ...", &NGWord{...})] *)
Definition NamedExecContext_insert_ng_word (tx : DB) (n : NGWord) : M (DB * Z) :=
  let* _ := exec (InsertNGWord n) in
  ret (insert_ng_word tx n).

(** [rs.LastInsertId()] *)
Definition rs_LastInsertId (id : Z) : M Z :=
  let* _ := exec LastInsertId in
  ret id.

(** The rows that ["DELETE FROM livecomments WHERE livestream_id = ? AND
    comment like CONCAT('%', ?, '%')"] removes. *)
Definition hits_ng_word (livestream_id : Z) (word : string) (m : LivecommentModel) : bool :=
  (lcm_LivestreamID m =? livestream_id) && sql_like_contains (lcm_Comment m) word.

Definition delete_livecomments (tx : DB) (livestream_id : Z) (word : string) : DB :=
  {| users := users tx;
     themes := themes tx;
     ng_words := ng_words tx;
     livecomments :=
       List.filter (fun m => negb (hits_ng_word livestream_id word m)) (livecomments tx);
     ng_words_auto_increment := ng_words_auto_increment tx;
     livecomments_auto_increment := livecomments_auto_increment tx |}.

Definition ExecContext_delete_livecomments (tx : DB) (livestream_id : Z) (word : string) : M DB :=
  let* _ := exec (DeleteLivecommentsLike livestream_id word) in
  ret (delete_livecomments tx livestream_id word).

Definition fillLivecommentResponse (tx : DB) (livecommentModel : LivecommentModel)
    (cachedLivestreamModel : option LivestreamModel) : M Livecomment :=
  let* commentOwner := getUserResponse tx (lcm_UserID livecommentModel) in
  let* livestreamModel :=
    match cachedLivestreamModel with
    | Some m => ret m
    | None => getLivestream tx (lcm_LivestreamID livecommentModel)
    end in
  let* livestream := fillLivestreamResponse tx livestreamModel in
  ret {| lc_ID := lcm_ID livecommentModel;
         lc_User := commentOwner;
         lc_Livestream := livestream;
         lc_Comment := lcm_Comment livecommentModel;
         lc_Tip := lcm_Tip livecommentModel;
         lc_CreatedAt := lcm_CreatedAt livecommentModel |}.

Definition spam_message : string := "このコメントがスパム判定されました".

(** The loop of the spam check: [for _, ngword := range ngwords]. *)
Fixpoint spam_check (comment : string) (ngwords : list NGWord) : M unit :=
  match ngwords with
  | [] => ret tt
  | ngword :: rest =>
      if strings_Contains comment (ng_Word ngword) then
        NewHTTPError StatusBadRequest spam_message
      else spam_check comment rest
  end.

Definition postLivecommentHandler (c : Context PostLivecommentRequest) : M Response :=
  let* req :=
    match Decode c with
    | inl _ => NewHTTPError StatusBadRequest "failed to decode the request body as json"
    | inr req => ret req
    end in
  (* if req.Tip == 0 { } reads through the pointer *)
  let* req := match req with Some req => ret req | None => fail Panic end in
  let* _ := verifyUserSession c in
  let* livestreamID := livestream_id_param c in
  let* userID := session_userID c in
  let* tx :=
    orReturn dbConn_BeginTxx
      (fun err => HTTPError StatusInternalServerError
                            ("failed to begin transaction: " +:+ Error err)) in
  let* livestreamModel :=
    orReturn (getLivestream tx livestreamID)
      (fun err => if errors_Is err ErrNoRows
                  then HTTPError StatusNotFound "livestream not found"
                  else HTTPError StatusInternalServerError
                                 ("failed to get livestream: " +:+ Error err)) in
  (* spam check *)
  let* found := ngWordsCache_Load (lsm_UserID livestreamModel) in
  let* ngwords :=
    match found with
    | Some ngwords => ret ngwords
    | None =>
        let* r := try (SelectContext_ng_words tx (lsm_ID livestreamModel)) in
        let* ngwords :=
          match r with
          | inl err =>
              if negb (errors_Is err ErrNoRows) then
                NewHTTPError StatusInternalServerError
                             ("failed to get NG words: " +:+ Error err)
              else ret []
          | inr ngwords => ret ngwords
          end in
        let* _ := ngWordsCache_Store (lsm_ID livestreamModel) ngwords in
        ret ngwords
    end in
  let* _ := spam_check (Comment req) ngwords in
  let* now := Now in
  let livecommentModel :=
    {| lcm_ID := 0;
       lcm_UserID := userID;
       lcm_LivestreamID := livestreamID;
       lcm_Comment := Comment req;
       lcm_Tip := Tip req;
       lcm_CreatedAt := Unix now |} in
  let* rs :=
    orReturn (NamedExecContext_insert_livecomment tx livecommentModel)
      (fun err => HTTPError StatusInternalServerError
                            ("failed to insert livecomment: " +:+ Error err)) in
  let tx := fst rs in
  let* livecommentID :=
    orReturn (rs_LastInsertId (snd rs))
      (fun err => HTTPError StatusInternalServerError
                            ("failed to get last inserted livecomment id: " +:+ Error err)) in
  let livecommentModel :=
    {| lcm_ID := livecommentID;
       lcm_UserID := userID;
       lcm_LivestreamID := livestreamID;
       lcm_Comment := Comment req;
       lcm_Tip := Tip req;
       lcm_CreatedAt := Unix now |} in
  let* livecomment :=
    orReturn (fillLivecommentResponse tx livecommentModel None)
      (fun err => HTTPError StatusInternalServerError
                            ("failed to fill livecomment: " +:+ Error err)) in
  let* _ :=
    orReturn (tx_Commit tx)
      (fun err => HTTPError StatusInternalServerError
                            ("failed to commit: " +:+ Error err)) in
  ret (JSON_Livecomment StatusCreated livecomment).

Definition moderateHandler (c : Context ModerateRequest) : M Response :=
  let* _ := verifyUserSession c in
  let* livestreamID := livestream_id_param c in
  let* userID := session_userID c in
  let* req :=
    match Decode c with
    | inl _ => NewHTTPError StatusBadRequest "failed to decode the request body as json"
    | inr req => ret req
    end in
  let* tx :=
    orReturn dbConn_BeginTxx
      (fun err => HTTPError StatusInternalServerError
                            ("failed to begin transaction: " +:+ Error err)) in
  (* is this the streamer's own livestream? *)
  let* livestreamModel :=
    orReturn (getLivestream tx livestreamID)
      (fun err => HTTPError StatusInternalServerError
                            ("failed to get livestreams: " +:+ Error err)) in
  if negb (lsm_UserID livestreamModel =? userID) then
    NewHTTPError StatusBadRequest
                 "A streamer can't moderate livestreams that other streamers own"
  else
    (* Word: req.NGWord reads through the pointer *)
    let* req := match req with Some req => ret req | None => fail Panic end in
    let* now := Now in
    let* rs :=
      orReturn (NamedExecContext_insert_ng_word tx
                  {| ng_ID := 0;
                     ng_UserID := userID;
                     ng_LivestreamID := livestreamID;
                     ng_Word := mr_NGWord req;
                     ng_CreatedAt := Unix now |})
        (fun err => HTTPError StatusInternalServerError
                              ("failed to insert new NG word: " +:+ Error err)) in
    let tx := fst rs in
    let* wordID :=
      orReturn (rs_LastInsertId (snd rs))
        (fun err => HTTPError StatusInternalServerError
                              ("failed to get last inserted NG word id: " +:+ Error err)) in
    let* tx :=
      orReturn (ExecContext_delete_livecomments tx livestreamID (mr_NGWord req))
        (fun err => HTTPError StatusInternalServerError
                              ("failed to delete old livecomments that hit spams: "
                               +:+ Error err)) in
    let* _ :=
      orReturn (tx_Commit tx)
        (fun err => HTTPError StatusInternalServerError
                              ("failed to commit: " +:+ Error err)) in
    let* _ := Sleep (500 * Millisecond) in
    let* _ := ngWordsCache_Delete livestreamID in
    ret (JSON_WordID StatusCreated wordID).

End Handlers.

(** ** Parts of the handlers, named for the proofs

    Each is the text of the handler it comes from; the lemmas
    [getUserResponse_miss] and [postLivecommentHandler_prelude] tie them to
    the handlers. *)

Section Parts.
Context `{Collaborators}.

(** The rebuild branch of [getUserResponse], started at instant [now]. *)
Definition rebuild (tx : DB) (id now : Z) : M User :=
  let* model :=
    orReturn (GetContext_users tx id)
             (fun err => if errors_Is err ErrNoRows then ErrNoRows else err) in
  let* user := fillUserResponse tx model in
  let* _ := userCache_Store id {| user := user; fetchedAt := now |} in
  ret user.

(** The lookup of the word list in [postLivecommentHandler]. *)
Definition consult (tx : DB) (livestreamModel : LivestreamModel) : M (list NGWord) :=
  let* found := ngWordsCache_Load (lsm_UserID livestreamModel) in
  match found with
  | Some ngwords => ret ngwords
  | None =>
      let* r := try (SelectContext_ng_words tx (lsm_ID livestreamModel)) in
      let* ngwords :=
        match r with
        | inl err =>
            if negb (errors_Is err ErrNoRows) then
              NewHTTPError StatusInternalServerError
                           ("failed to get NG words: " +:+ Error err)
            else ret []
        | inr ngwords => ret ngwords
        end in
      let* _ := ngWordsCache_Store (lsm_ID livestreamModel) ngwords in
      ret ngwords
  end.

(** The part of [postLivecommentHandler] after the spam check. *)
Definition accept (tx : DB) (req : PostLivecommentRequest) (userID livestreamID : Z)
  : M Response :=
  let* now := Now in
  let livecommentModel :=
    {| lcm_ID := 0;
       lcm_UserID := userID;
       lcm_LivestreamID := livestreamID;
       lcm_Comment := Comment req;
       lcm_Tip := Tip req;
       lcm_CreatedAt := Unix now |} in
  let* rs :=
    orReturn (NamedExecContext_insert_livecomment tx livecommentModel)
      (fun err => HTTPError StatusInternalServerError
                            ("failed to insert livecomment: " +:+ Error err)) in
  let tx := fst rs in
  let* livecommentID :=
    orReturn (rs_LastInsertId (snd rs))
      (fun err => HTTPError StatusInternalServerError
                            ("failed to get last inserted livecomment id: " +:+ Error err)) in
  let livecommentModel :=
    {| lcm_ID := livecommentID;
       lcm_UserID := userID;
       lcm_LivestreamID := livestreamID;
       lcm_Comment := Comment req;
       lcm_Tip := Tip req;
       lcm_CreatedAt := Unix now |} in
  let* livecomment :=
    orReturn (fillLivecommentResponse tx livecommentModel None)
      (fun err => HTTPError StatusInternalServerError
                            ("failed to fill livecomment: " +:+ Error err)) in
  let* _ :=
    orReturn (tx_Commit tx)
      (fun err => HTTPError StatusInternalServerError
                            ("failed to commit: " +:+ Error err)) in
  ret (JSON_Livecomment StatusCreated livecomment).

(** A world that differs from [w] by what was added to the trace. *)
Definition only_logs (w w' : World) : Prop :=
  cache w' = cache w /\ userCache w' = userCache w
  /\ ngWordsCache w' = ngWordsCache w /\ dbConn w' = dbConn w
  /\ files w' = files w /\ clock w' = clock w
  /\ exists evs, trace w' = (trace w ++ evs)%list.

(** The two ways the source of truth fails a rebuild started in [w]: the
    canonical-row query fails, or the assembly of the profile does. *)
Definition source_fails (tx : DB) (id : Z) (w : World) (e : error) (w' : World) : Prop :=
  GetContext_users tx id w = (inl e, w')
  \/ exists model w1,
       GetContext_users tx id w = (inr model, w1)
       /\ fillUserResponse tx model w1 = (inl e, w').

(** The list [ws] is the one the handler checks the comment against: the
    entry it finds in the cache or, when it finds none, the rows it reads
    (none when the driver reports [sql.ErrNoRows]). *)
Definition consulted (tx : DB) (livestreamModel : LivestreamModel) (w : World)
    (ws : list NGWord) : Prop :=
  ngWordsCache w !! lsm_UserID livestreamModel = Some ws
  \/ (ngWordsCache w !! lsm_UserID livestreamModel = None
      /\ driver_fault (SelectNGWords (lsm_ID livestreamModel)) = None
      /\ ws = ng_words_of tx (lsm_ID livestreamModel))
  \/ (ngWordsCache w !! lsm_UserID livestreamModel = None
      /\ driver_fault (SelectNGWords (lsm_ID livestreamModel)) = Some ErrNoRows
      /\ ws = []).

(** The comment has one of the words of [ws] inside it. *)
Definition has_banned_word (comment : string) (ws : list NGWord) : Prop :=
  exists n pre post, In n ws /\ comment = pre +:+ ng_Word n +:+ post.

End Parts.

(** ** More of the handlers *)

(** What [getMeHandler] writes with [c.JSON]. *)
Inductive UserResponse :=
| JSON_User (code : Z) (u : User).

Section MoreHandlers.
Context `{Collaborators}.

(** The first revision of bcryptHandler.go, which has no cache. *)
Definition bcryptCompairHandler_uncached (c : error + PostBcryptCompairHandler) : M Response :=
  let* req := Bind c in
  let* err := bcrypt_CompareHashAndPassword (HashedPassword req) (Password req) in
  match err with
  | Some e =>
      if bool_decide (e = ErrMismatchedHashAndPassword) then
        NewHTTPError StatusUnauthorized "invalid username or password"
      else fail e
  | None => ret (NoContent 200)
  end.

(** The server answering requests one after the other: each request gets
    its outcome, and an error ends that request only. *)
Fixpoint serve {Req R} (handler : Req -> M R) (reqs : list Req) : M (list (error + R)) :=
  match reqs with
  | [] => ret []
  | req :: rest =>
      let* outcome := try (handler req) in
      let* outcomes := serve handler rest in
      ret (outcome :: outcomes)
  end.

Definition getMeHandler {B} (c : Context B) : M UserResponse :=
  let* _ := verifyUserSession c in
  let* userID := session_userID c in
  let* tx :=
    orReturn dbConn_BeginTxx
      (fun err => HTTPError StatusInternalServerError
                            ("failed to begin transaction: " +:+ Error err)) in
  let* r := try (getUserResponse tx userID) in
  match r with
  | inl err =>
      if errors_Is err ErrNoRows then
        NewHTTPError StatusNotFound "not found user that has the userid in session"
      else
        NewHTTPError StatusInternalServerError ("failed to fill user: " +:+ Error err)
  | inr user =>
      let* _ :=
        orReturn (tx_Commit tx)
          (fun err => HTTPError StatusInternalServerError
                                ("failed to commit: " +:+ Error err)) in
      ret (JSON_User StatusOK user)
  end.

End MoreHandlers.

(** *** Listing the comments of a stream *)

(** The statements of [getLivecommentsHandler], of the handlers that look
    a user up by name, of [postIconHandler] and of
    [reportLivecommentHandler].  The trace keeps no record of them; the
    driver may fail them. *)
Inductive Query :=
| SelectLivecomments (livestream_id : Z) (limit : option Z)
| SelectUserByName (name : string)
| InsertIcon (user_id : Z)
| UpdateIconHash (icon_hash : string) (user_id : Z)
| SelectLivecommentByID (id : Z)
| InsertLivecommentReport (user_id livestream_id livecomment_id created_at : Z).

Class QueryDriver := { query_fault : Query -> option error }.

(** What [getLivecommentsHandler] writes with [c.JSON]. *)
Inductive LivecommentsResponse `{Declared} :=
| JSON_Livecomments (code : Z) (livecomments : list Livecomment).

(** [ORDER BY created_at DESC] on any table. *)
Fixpoint insert_newest {A} (created_at : A -> Z) (x : A) (l : list A) : list A :=
  match l with
  | [] => [x]
  | y :: l' =>
      if created_at y <=? created_at x then x :: y :: l'
      else y :: insert_newest created_at x l'
  end.

Definition newest_first {A} (created_at : A -> Z) (l : list A) : list A :=
  foldr (insert_newest created_at) [] l.

(** The rows of ["SELECT * FROM livecomments WHERE livestream_id = ? ORDER
    BY created_at DESC"], cut to the first [n] by [" LIMIT n"]. *)
Definition livecomments_of (tx : DB) (livestream_id : Z) (limit : option Z)
  : list LivecommentModel :=
  let rows :=
    newest_first lcm_CreatedAt
      (List.filter (fun m => lcm_LivestreamID m =? livestream_id) (livecomments tx)) in
  match limit with
  | None => rows
  | Some n => firstn (Z.to_nat n) rows
  end.

Section Listing.
Context `{Collaborators} `{QueryDriver}.

(** [tx.SelectContext(ctx, &livecommentModels, query, livestreamID)].  MySQL
    refuses a negative [LIMIT] as a syntax error. *)
Definition SelectContext_livecomments (tx : DB) (livestream_id : Z) (limit : option Z)
  : M (list LivecommentModel) :=
  match query_fault (SelectLivecomments livestream_id limit) with
  | Some e => fail e
  | None =>
      match limit with
      | Some n =>
          if n <? 0 then fail (ErrOther "Error 1064: You have an error in your SQL syntax")
          else ret (livecomments_of tx livestream_id limit)
      | None => ret (livecomments_of tx livestream_id limit)
      end
  end.

(** The loop [for i := range livecommentModels] with its early return. *)
Fixpoint fill_livecomments (tx : DB) (livecommentModels : list LivecommentModel)
    (livestreamModel : LivestreamModel) : M (list Livecomment) :=
  match livecommentModels with
  | [] => ret []
  | m :: rest =>
      let* livecomment :=
        orReturn (fillLivecommentResponse tx m (Some livestreamModel))
          (fun err => HTTPError StatusInternalServerError
                                ("failed to fil livecomments: " +:+ Error err)) in
      let* livecomments := fill_livecomments tx rest livestreamModel in
      ret (livecomment :: livecomments)
  end.

(** [QueryParam_limit] is [c.QueryParam("limit")] through [strconv.Atoi]:
    [None] for the empty string, [Some None] when it is not an integer. *)
Definition getLivecommentsHandler (c : Context unit) (QueryParam_limit : option (option Z))
  : M LivecommentsResponse :=
  let* _ := verifyUserSession c in
  let* livestreamID := livestream_id_param c in
  let* tx := DbConn in
  let* limit :=
    match QueryParam_limit with
    | None => ret None
    | Some None => NewHTTPError StatusBadRequest "limit query parameter must be integer"
    | Some (Some limit) => ret (Some limit)
    end in
  let* r := try (SelectContext_livecomments tx livestreamID limit) in
  match r with
  | inl err =>
      if errors_Is err ErrNoRows then ret (JSON_Livecomments StatusOK [])
      else NewHTTPError StatusInternalServerError
                        ("failed to get livecomments: " +:+ Error err)
  | inr livecommentModels =>
      let* livestreamModel :=
        orReturn (getLivestream tx livestreamID)
          (fun err => HTTPError StatusInternalServerError
                                ("failed to get livestream: " +:+ Error err)) in
      let* livecomments := fill_livecomments tx livecommentModels livestreamModel in
      ret (JSON_Livecomments StatusOK livecomments)
  end.

End Listing.

(** *** Looking a user up by name *)

(** What [getIconHandler] answers with: [c.NoContent(304)], or [c.File] on
    a path, after the Content-Type header it has set, if any. *)
Inductive IconResponse :=
| NotModified
| ServeFile (content_type : option string) (file : Path).

(** [fmt.Sprintf(`"%s"`, s)] *)
Definition quoted (s : string) : string :=
  String (Ascii.ascii_of_nat 34) (s +:+ String (Ascii.ascii_of_nat 34) EmptyString).

Section UserLookup.
Context `{Collaborators} `{QueryDriver}.

(** [tx.GetContext(ctx, &user, "SELECT * FROM users WHERE name = ?",
    username)]; [getUserHandler] selects the id alone, the one field it
    reads. *)
Definition GetContext_users_by_name (tx : DB) (username : string) : M UserModel :=
  match query_fault (SelectUserByName username) with
  | Some e => fail e
  | None =>
      match List.find (fun u => String.eqb (um_Name u) username) (users tx) with
      | Some u => ret u
      | None => fail ErrNoRows
      end
  end.

(** [Param_username] is [c.Param("username")], [If_None_Match] the header
    of that name ([""] when the request has none). *)
Definition getIconHandler (Param_username If_None_Match : string) : M IconResponse :=
  let* tx :=
    orReturn dbConn_BeginTxx
      (fun err => HTTPError StatusInternalServerError
                            ("failed to begin transaction: " +:+ Error err)) in
  let* r := try (GetContext_users_by_name tx Param_username) in
  match r with
  | inl err =>
      if errors_Is err ErrNoRows then
        NewHTTPError StatusNotFound "not found user that has the given username"
      else NewHTTPError StatusInternalServerError ("failed to get user: " +:+ Error err)
  | inr user =>
      if match um_IconHash user with
         | Some h => String.eqb (quoted h) If_None_Match
         | None => false
         end
      then ret NotModified
      else
        let* st := try (os_Stat (IconFile (um_ID user))) in
        match st with
        | inl err =>
            if os_IsNotExist err then ret (ServeFile None fallbackImage)
            else NewHTTPError StatusInternalServerError
                              ("failed to get user icon: " +:+ Error err)
        | inr _ => ret (ServeFile (Some "image/jpeg") (IconFile (um_ID user)))
        end
  end.

Definition getUserHandler {B} (c : Context B) (Param_username : string) : M UserResponse :=
  let* _ := verifyUserSession c in
  let* tx :=
    orReturn dbConn_BeginTxx
      (fun err => HTTPError StatusInternalServerError
                            ("failed to begin transaction: " +:+ Error err)) in
  let* r := try (GetContext_users_by_name tx Param_username) in
  match r with
  | inl err =>
      if errors_Is err ErrNoRows then
        NewHTTPError StatusNotFound "not found user that has the given username"
      else NewHTTPError StatusInternalServerError ("failed to get user: " +:+ Error err)
  | inr userModel =>
      let* user :=
        orReturn (getUserResponse tx (um_ID userModel))
          (fun err => HTTPError StatusInternalServerError
                                ("failed to fill user: " +:+ Error err)) in
      let* _ :=
        orReturn (tx_Commit tx)
          (fun err => HTTPError StatusInternalServerError
                                ("failed to commit: " +:+ Error err)) in
      ret (JSON_User StatusOK user)
  end.

End UserLookup.

(** *** Logging in *)

Record LoginRequest := mkLoginRequest {
  lr_Username : string;
  lr_Password : string
}.

(** What [loginHandler] answers with: [c.NoContent(code)], and the session
    it has saved with the response.  Of the values of the session, the two
    that [verifyUserSession] and the handlers read are kept. *)
Inductive LoginResponse :=
| LoggedIn (code : Z) (saved : Session).

Definition Hour : Z := 3600 * Second.

(** The bcrypt service as [loginHandler] sees it: [http.Post] on
    [bcryptAPI/compair], which fails or gives a status code with a body
    that [io.ReadAll] reads or fails to read; and [sess.Save], which may
    fail. *)
Class BcryptAPI := {
  http_Post_compair : PostBcryptCompairHandler -> M (Z * (error + string));
  sess_Save_fault : option error
}.

Section Login.
Context `{Collaborators} `{QueryDriver} `{BcryptAPI}.

(** [json.Marshal] of the two strings does not fail. *)
Definition loginHandler (c : Context LoginRequest) : M LoginResponse :=
  let* req :=
    match Decode c with
    | inl _ =>
        NewHTTPError StatusBadRequest "failed to decode the request body as json"
    | inr None => ret {| lr_Username := ""; lr_Password := "" |}
    | inr (Some req) => ret req
    end in
  let* tx :=
    orReturn dbConn_BeginTxx
      (fun err => HTTPError StatusInternalServerError
                            ("failed to begin transaction: " +:+ Error err)) in
  let* r := try (GetContext_users_by_name tx (lr_Username req)) in
  match r with
  | inl err =>
      if errors_Is err ErrNoRows then
        NewHTTPError StatusUnauthorized "invalid username or password"
      else NewHTTPError StatusInternalServerError ("failed to get user: " +:+ Error err)
  | inr userModel =>
      let* _ :=
        orReturn (tx_Commit tx)
          (fun err => HTTPError StatusInternalServerError
                                ("failed to commit: " +:+ Error err)) in
      let* bres :=
        orReturn (http_Post_compair {| Password := lr_Password req;
                                       HashedPassword := um_HashedPassword userModel |})
          (fun err => HTTPError StatusInternalServerError
                                ("failed to post to bcrypt api: " +:+ Error err)) in
      let* bresBody :=
        match snd bres with
        | inl err =>
            NewHTTPError StatusInternalServerError
                         ("failed to read response body: " +:+ Error err)
        | inr body => ret body
        end in
      if negb (fst bres =? StatusOK) then NewHTTPError (fst bres) bresBody
      else
        let* now := Now in
        let sessionEndAt := Time_Add now (1 * Hour) in
        match session_Get c with
        | inl _ => NewHTTPError StatusUnauthorized "failed to get session"
        | inr _ =>
            let sess := {| Values_EXPIRES := Some (Unix sessionEndAt);
                           Values_USERID := Some (um_ID userModel) |} in
            match sess_Save_fault with
            | Some err =>
                NewHTTPError StatusInternalServerError
                             ("failed to save session: " +:+ Error err)
            | None => ret (LoggedIn StatusOK sess)
            end
        end
  end.

End Login.





(** A hash as bcrypt writes it has neither of the two separators of the
    credential cache in it. *)
Fixpoint separator_free (h : string) : bool :=
  match h with
  | EmptyString => true
  | String a h' =>
      negb (String.eqb (String a EmptyString) "-")
      && negb (String.eqb (String a EmptyString) ":")
      && separator_free h'
  end.

(** *** Uploading an icon *)

(** The table [icons], which [postIconHandler] alone writes: it is handed
    to the handler and handed back when the transaction commits. *)
Record IconRow := mkIconRow { icon_ID : Z; icon_UserID : Z }.

Record Icons := mkIcons {
  icon_rows : list IconRow;
  icons_auto_increment : Z
}.

Record PostIconRequest := mkPostIconRequest { Image : string }.

(** What [postIconHandler] writes with [c.JSON]. *)
Inductive PostIconResponse :=
| JSON_IconID (code : Z) (id : Z).

(** When [os.WriteFile] fails: its error, and what it leaves of the file. *)
Class FileDriver := { WriteFile_fault : Path -> string -> option (error * FileState) }.

Definition Path_eqb (p q : Path) : bool :=
  match p, q with
  | IconFile a, IconFile b => a =? b
  | fallbackImage, fallbackImage => true
  | _, _ => false
  end.

Definition set_file (p : Path) (st : FileState) (w : World) : World :=
  mkWorld (cache w) (userCache w) (ngWordsCache w) (dbConn w)
          (fun q => if Path_eqb q p then st else files w q) (clock w) (trace w).

(** ["UPDATE users SET icon_hash = ? WHERE id = ?"] *)
Definition update_icon_hash (tx : DB) (icon_hash : string) (user_id : Z) : DB :=
  {| users :=
       List.map (fun u =>
                   if um_ID u =? user_id then
                     {| um_ID := um_ID u;
                        um_Name := um_Name u;
                        um_DisplayName := um_DisplayName u;
                        um_Description := um_Description u;
                        um_HashedPassword := um_HashedPassword u;
                        um_IconHash := Some icon_hash |}
                   else u) (users tx);
     themes := themes tx;
     ng_words := ng_words tx;
     livecomments := livecomments tx;
     ng_words_auto_increment := ng_words_auto_increment tx;
     livecomments_auto_increment := livecomments_auto_increment tx |}.

(** ["INSERT INTO icons (user_id) VALUES (?)"]: the table with the new
    row, and the id of the row. *)
Definition insert_icon (icons : Icons) (user_id : Z) : Icons * Z :=
  let id := icons_auto_increment icons in
  ({| icon_rows := icon_rows icons ++ [{| icon_ID := id; icon_UserID := user_id |}];
      icons_auto_increment := id + 1 |}, id).

Section Upload.
Context `{Collaborators} `{QueryDriver} `{FileDriver}.

Definition query (q : Query) : M unit :=
  match query_fault q with
  | Some e => fail e
  | None => ret tt
  end.

Definition os_WriteFile (p : Path) (data : string) : M unit :=
  fun w => match WriteFile_fault p data with
           | Some (e, st) => (inl e, set_file p st w)
           | None => (inr tt, set_file p (File data) w)
           end.

Definition postIconHandler (c : Context PostIconRequest) (icons : Icons)
  : M (PostIconResponse * Icons) :=
  let* _ := verifyUserSession c in
  let* userID := session_userID c in
  let* req :=
    match Decode c with
    | inl _ => NewHTTPError StatusBadRequest "failed to decode the request body as json"
    | inr req => ret req
    end in
  let* tx :=
    orReturn dbConn_BeginTxx
      (fun err => HTTPError StatusInternalServerError
                            ("failed to begin transaction: " +:+ Error err)) in
  let* _ :=
    orReturn (query (InsertIcon userID))
      (fun err => HTTPError StatusInternalServerError
                            ("failed to insert icon: " +:+ Error err)) in
  let rs := insert_icon icons userID in
  (* req.Image reads through the pointer *)
  let* req := match req with Some req => ret req | None => fail Panic end in
  let* _ :=
    orReturn (os_WriteFile (IconFile userID) (Image req))
      (fun err => HTTPError StatusInternalServerError
                            ("failed to write image file: " +:+ Error err)) in
  let iconHash := sha256_hex (Image req) in
  let* _ :=
    orReturn (query (UpdateIconHash iconHash userID))
      (fun err => HTTPError StatusInternalServerError
                            ("failed to update icon hash: " +:+ Error err)) in
  let tx := update_icon_hash tx iconHash userID in
  let* iconID :=
    orReturn (rs_LastInsertId (snd rs))
      (fun err => HTTPError StatusInternalServerError
                            ("failed to get last inserted icon id: " +:+ Error err)) in
  let* _ :=
    orReturn (tx_Commit tx)
      (fun err => HTTPError StatusInternalServerError
                            ("failed to commit: " +:+ Error err)) in
  ret (JSON_IconID StatusCreated iconID, fst rs).

End Upload.

(** *** Reporting a comment *)

Record LivecommentReportModel := mkLivecommentReportModel {
  rpm_ID : Z;
  rpm_UserID : Z;
  rpm_LivestreamID : Z;
  rpm_LivecommentID : Z;
  rpm_CreatedAt : Z
}.

Record LivecommentReport `{Declared} := mkLivecommentReport {
  rp_ID : Z;
  rp_Reporter : User;
  rp_Livecomment : Livecomment;
  rp_CreatedAt : Z
}.

(** The table [livecomment_reports], which [reportLivecommentHandler]
    alone writes: it is handed to the handler and handed back when the
    transaction commits. *)
Record Reports := mkReports {
  report_rows : list LivecommentReportModel;
  reports_auto_increment : Z
}.

(** What [reportLivecommentHandler] writes with [c.JSON]. *)
Inductive ReportResponse `{Declared} :=
| JSON_Report (code : Z) (report : LivecommentReport).

(** ["INSERT INTO livecomment_reports(user_id, livestream_id,
    livecomment_id, created_at) VALUES (...)"]: the table with the new
    row, and the id of the row. *)
Definition insert_report (reports : Reports) (r : LivecommentReportModel) : Reports * Z :=
  let id := reports_auto_increment reports in
  ({| report_rows :=
        report_rows reports
        ++ [{| rpm_ID := id;
               rpm_UserID := rpm_UserID r;
               rpm_LivestreamID := rpm_LivestreamID r;
               rpm_LivecommentID := rpm_LivecommentID r;
               rpm_CreatedAt := rpm_CreatedAt r |}];
      reports_auto_increment := id + 1 |}, id).

Section Report.
Context `{Collaborators} `{QueryDriver}.

(** [tx.GetContext(ctx, &livecommentModel, "SELECT * FROM livecomments
    WHERE id = ?", id)] *)
Definition GetContext_livecomments (tx : DB) (id : Z) : M LivecommentModel :=
  match query_fault (SelectLivecommentByID id) with
  | Some e => fail e
  | None =>
      match List.find (fun m => lcm_ID m =? id) (livecomments tx) with
      | Some m => ret m
      | None => fail ErrNoRows
      end
  end.

Definition fillLivecommentReportResponse (tx : DB) (reportModel : LivecommentReportModel)
  : M LivecommentReport :=
  let* reporter := getUserResponse tx (rpm_UserID reportModel) in
  let* livecommentModel :=
    orReturn (GetContext_livecomments tx (rpm_LivecommentID reportModel))
      (fun err => ErrOther ("no such comment " +:+ pretty (rpm_LivecommentID reportModel)
                            +:+ ": " +:+ Error err)) in
  let* livecomment := fillLivecommentResponse tx livecommentModel None in
  ret {| rp_ID := rpm_ID reportModel;
         rp_Reporter := reporter;
         rp_Livecomment := livecomment;
         rp_CreatedAt := rpm_CreatedAt reportModel |}.

(** [Param_livecomment_id] is [c.Param("livecomment_id")] through
    [strconv.Atoi]. *)
Definition reportLivecommentHandler (c : Context unit) (Param_livecomment_id : option Z)
    (reports : Reports) : M (ReportResponse * Reports) :=
  let* _ := verifyUserSession c in
  let* livestreamID := livestream_id_param c in
  let* livecommentID :=
    match Param_livecomment_id with
    | Some n => ret n
    | None => NewHTTPError StatusBadRequest "livecomment_id in path must be integer"
    end in
  let* userID := session_userID c in
  let* tx :=
    orReturn dbConn_BeginTxx
      (fun err => HTTPError StatusInternalServerError
                            ("failed to begin transaction: " +:+ Error err)) in
  let* _ :=
    orReturn (getLivestream tx livestreamID)
      (fun err => if errors_Is err ErrNoRows
                  then HTTPError StatusNotFound "livestream not found"
                  else HTTPError StatusInternalServerError
                                 ("failed to get livestream: " +:+ Error err)) in
  let* livecommentModel :=
    orReturn (GetContext_livecomments tx livecommentID)
      (fun err => if errors_Is err ErrNoRows
                  then HTTPError StatusNotFound "livecomment not found"
                  else HTTPError StatusInternalServerError
                                 ("failed to get livecomment: " +:+ Error err)) in
  let* now := Now in
  let reportModel :=
    {| rpm_ID := 0;
       rpm_UserID := userID;
       rpm_LivestreamID := livestreamID;
       rpm_LivecommentID := livecommentID;
       rpm_CreatedAt := Unix now |} in
  let* _ :=
    orReturn (query (InsertLivecommentReport userID livestreamID livecommentID (Unix now)))
      (fun err => HTTPError StatusInternalServerError
                            ("failed to insert livecomment report: " +:+ Error err)) in
  let rs := insert_report reports reportModel in
  let* reportID :=
    orReturn (rs_LastInsertId (snd rs))
      (fun err => HTTPError StatusInternalServerError
                            ("failed to get last inserted livecomment report id: "
                             +:+ Error err)) in
  let reportModel :=
    {| rpm_ID := reportID;
       rpm_UserID := userID;
       rpm_LivestreamID := livestreamID;
       rpm_LivecommentID := livecommentID;
       rpm_CreatedAt := Unix now |} in
  let* report :=
    orReturn (fillLivecommentReportResponse tx reportModel)
      (fun err => HTTPError StatusInternalServerError
                            ("failed to fill livecomment report: " +:+ Error err)) in
  let* _ :=
    orReturn (tx_Commit tx)
      (fun err => HTTPError StatusInternalServerError
                            ("failed to commit: " +:+ Error err)) in
  ret (JSON_Report StatusCreated report, fst rs).

End Report.

(** ** logger.go: the response writer of the access log *)

Module AccessLog.

(** What [writer] passes on to the [http.ResponseWriter] it wraps. *)
Inductive Call :=
| CallWriteHeader (status : Z)
| CallWrite (body : string)
| CallFlush.

(** [writer]: the wrapped writer, seen as the calls it has received, with
    the status and the size kept for the log line. *)
Record writer := mkWriter {
  ResponseWriter : list Call;
  resStatus : Z;
  resSize : Z
}.

(** The calls a handler makes on the writer. *)
Inductive Op :=
| OpWriteHeader (status : Z)
| OpWrite (body : string)
| OpFlush.

Section Writer.

(** What [Write] of the wrapped writer returns for a body, given the calls
    it has received, and whether the wrapped writer is an [http.Flusher]. *)
Variable ResponseWriter_Write : list Call -> string -> Z * option error.
Variable is_Flusher : bool.

Definition newWriter (w : list Call) : writer :=
  {| ResponseWriter := w; resStatus := 0; resSize := 0 |}.

Definition WriteHeader (status : Z) (w : writer) : writer :=
  if resStatus w =? 0 then
    {| ResponseWriter := ResponseWriter w ++ [CallWriteHeader status];
       resStatus := status;
       resSize := resSize w |}
  else w.

Definition Write (body : string) (w : writer) : (Z * option error) * writer :=
  let w := if resStatus w =? 0 then WriteHeader StatusOK w else w in
  let r := ResponseWriter_Write (ResponseWriter w) body in
  (r, {| ResponseWriter := ResponseWriter w ++ [CallWrite body];
         resStatus := resStatus w;
         resSize := fst r |}).

Definition Flush (w : writer) : writer :=
  if is_Flusher then
    let w := if resStatus w =? 0 then WriteHeader StatusOK w else w in
    {| ResponseWriter := ResponseWriter w ++ [CallFlush];
       resStatus := resStatus w;
       resSize := resSize w |}
  else w.

Definition step (op : Op) (w : writer) : writer :=
  match op with
  | OpWriteHeader status => WriteHeader status w
  | OpWrite body => snd (Write body w)
  | OpFlush => Flush w
  end.

(** The calls of a handler, one after the other. *)
Definition run (ops : list Op) (w : writer) : writer := fold_left (fun w op => step op w) ops w.

(** The status codes passed on to the wrapped writer. *)
Definition header_calls (w : writer) : list Z :=
  omap (fun c => match c with CallWriteHeader s => Some s | _ => None end) (ResponseWriter w).

(** The body of the last [Write] among the calls, if any. *)
Definition last_write (ops : list Op) : option string :=
  last (omap (fun op => match op with OpWrite b => Some b | _ => None end) ops).

End Writer.

End AccessLog.

(** ** The icon dump: icons of the database written to the directory *)

Module DumpIcons.

Record Icon := mkIcon { ID : Z; UserID : Z; Image : string }.

(** The directory [icon/]: the bytes of the file [icon/<user_id>], for the
    user ids that have one. *)
Definition Dir : Type := gmap Z string.

Section Dump.

(** When [os.WriteFile] fails: its error, and what it leaves of the
    directory. *)
Variable WriteFile_fault : Z -> string -> Dir -> option (error * Dir).

(** [os.WriteFile(fmt.Sprintf("icon/%d", user_id), data, 0644)] *)
Definition os_WriteFile (user_id : Z) (data : string) (d : Dir) : option error * Dir :=
  match WriteFile_fault user_id data d with
  | Some (e, d') => (Some e, d')
  | None => (None, <[user_id := data]> d)
  end.

Definition dumpImage (icon : Icon) (d : Dir) : option error * Dir :=
  let img := Image icon in
  os_WriteFile (UserID icon) img d.

(** The loop of [main] over the rows of [icons]: [log.Fatalf] ends the
    process at the first error. *)
Fixpoint dump (icons : list Icon) (d : Dir) : option error * Dir :=
  match icons with
  | [] => (None, d)
  | icon :: rest =>
      match dumpImage icon d with
      | (Some e, d') => (Some e, d')
      | (None, d') => dump rest d'
      end
  end.

(** The last row of [user_id] among the rows. *)
Definition last_icon_of (user_id : Z) (icons : list Icon) : option Icon :=
  last (List.filter (fun icon => UserID icon =? user_id) icons).

End Dump.

End DumpIcons.

(** ** Notions the further properties are stated with *)

Section MoreParts.
Context `{Declared}.

(** The number of hash comparisons a trace records. *)
Definition comparisons (t : list Event) : nat :=
  length (List.filter (fun e => match e with
                                | EvCompareHashAndPassword _ _ => true
                                | _ => false
                                end) t).

(** Every key of the map was written by the handler for a hash that has no
    separator in it. *)
Definition stored_keys_only (m : gmap string bool) : Prop :=
  forall k, is_Some (m !! k) ->
            exists h p, separator_free h = true /\ k = h +:+ "-" +:+ p.

(** Every entry sits under the id of the user it describes. *)
Definition userCache_keyed (w : World) : Prop :=
  forall k c, userCache w !! k = Some c -> User_ID (user c) = k.

(** A computation that, whatever its outcome, adds to the trace only. *)
Definition always_logs {A} (m : M A) : Prop :=
  forall w, only_logs w (snd (m w)).

(** A computation that adds to the trace only whenever it fails. *)
Definition logs_when_failing {A} (m : M A) : Prop :=
  forall w e, fst (m w) = inl e -> only_logs w (snd (m w)).

End MoreParts.

(** ** A concrete platform for the examples

    Stream 42 belongs to user 7; user 8 is a viewer.  The one banned word of
    stream 42 is "spam".  The collaborators never fail. *)

Definition demo_declared : Declared := {| Livestream := LivestreamModel |}.

Definition demo_collaborators : @Collaborators demo_declared :=
  {| CompareHashAndPassword hash password :=
       if String.eqb hash ("$2a$04$" +:+ password) then None
       else Some ErrMismatchedHashAndPassword;
     sha256_hex image := "sha256:" +:+ image;
     driver_fault _ := None;
     sql_like_contains comment word := strings_Contains comment word;
     getLivestream_query _ id :=
       if id =? 42 then inr {| lsm_ID := 42; lsm_UserID := 7 |} else inl ErrNoRows;
     fillLivestreamResponse _ m := ret (m : @Livestream demo_declared) |}.

(** The same collaborators behind a driver that fails as [fault] says. *)
Definition demo_collaborators_with (fault : Stmt -> option error)
  : @Collaborators demo_declared :=
  {| CompareHashAndPassword hash password :=
       if String.eqb hash ("$2a$04$" +:+ password) then None
       else Some ErrMismatchedHashAndPassword;
     sha256_hex image := "sha256:" +:+ image;
     driver_fault := fault;
     sql_like_contains comment word := strings_Contains comment word;
     getLivestream_query _ id :=
       if id =? 42 then inr {| lsm_ID := 42; lsm_UserID := 7 |} else inl ErrNoRows;
     fillLivestreamResponse _ m := ret (m : @Livestream demo_declared) |}.

Definition demo_query_driver : QueryDriver := {| query_fault _ := None |}.

Definition demo_spam : NGWord :=
  {| ng_ID := 1; ng_UserID := 7; ng_LivestreamID := 42; ng_Word := "spam"; ng_CreatedAt := 100 |}.

Definition demo_db : DB :=
  {| users :=
       [ {| um_ID := 7; um_Name := "streamer"; um_DisplayName := "Streamer";
            um_Description := ""; um_HashedPassword := "$2a$04$secret";
            um_IconHash := Some "aa" |};
         {| um_ID := 8; um_Name := "viewer"; um_DisplayName := "Viewer";
            um_Description := ""; um_HashedPassword := "$2a$04$hunter2";
            um_IconHash := Some "bb" |} ];
     themes :=
       [ {| tm_ID := 1; tm_UserID := 7; tm_DarkMode := true |};
         {| tm_ID := 2; tm_UserID := 8; tm_DarkMode := false |} ];
     ng_words := [demo_spam];
     livecomments :=
       [ {| lcm_ID := 1; lcm_UserID := 8; lcm_LivestreamID := 42;
            lcm_Comment := "hello"; lcm_Tip := 0; lcm_CreatedAt := 90 |};
         {| lcm_ID := 2; lcm_UserID := 8; lcm_LivestreamID := 42;
            lcm_Comment := "buy eggs"; lcm_Tip := 0; lcm_CreatedAt := 95 |} ];
     ng_words_auto_increment := 2;
     livecomments_auto_increment := 3 |}.

(** The process at second 1000, with empty caches and no icon on disk. *)
Definition demo_world : World :=
  {| cache := ∅;
     userCache := ∅;
     ngWordsCache := ∅;
     dbConn := demo_db;
     files := fun _ => Absent;
     clock := 1000 * Second;
     trace := [] |}.

(** The same process holding a profile of user 99, fetched at second 0,
    whose row is gone from the database. *)
Definition demo_ghost : User :=
  {| User_ID := 99; User_Name := "ghost"; User_DisplayName := "Ghost";
     User_Description := ""; User_Theme := {| Theme_ID := 9; Theme_DarkMode := false |};
     User_IconHash := "cc" |}.

Definition demo_stale_world : World :=
  set_userCache (Map_Store 99 {| user := demo_ghost; fetchedAt := 0 |}) demo_world.

(** The same process once the owner has listed the words of stream 42. *)
Definition demo_warm_world : World :=
  set_ngWordsCache (Map_Store 42 [demo_spam]) demo_world.

(** The same process holding, under key 7, the empty word list of a stream
    7 that has no banned word. *)
Definition demo_other_world : World :=
  set_ngWordsCache (Map_Store 7 []) demo_world.

Definition demo_session (user_id : Z) : error + Session :=
  inr {| Values_EXPIRES := Some 4600; Values_USERID := Some user_id |}.

(** A request of [user_id] on stream [livestream_id] with JSON body [body]. *)
Definition demo_request {B} (user_id livestream_id : Z) (body : B) : Context B :=
  {| session_Get := demo_session user_id;
     Param_livestream_id := Some livestream_id;
     Decode := inr (Some body) |}.

Definition demo_login (password : string) : error + PostBcryptCompairHandler :=
  inr {| Password := password; HashedPassword := "$2a$04$secret" |}.

(** The database once the theme rows are gone. *)
Definition demo_db_no_theme : DB :=
  {| users := users demo_db;
     themes := [];
     ng_words := ng_words demo_db;
     livecomments := livecomments demo_db;
     ng_words_auto_increment := ng_words_auto_increment demo_db;
     livecomments_auto_increment := livecomments_auto_increment demo_db |}.

(** The database once every row of users and themes is gone. *)
Definition demo_db_no_user : DB :=
  {| users := [];
     themes := [];
     ng_words := ng_words demo_db;
     livecomments := livecomments demo_db;
     ng_words_auto_increment := ng_words_auto_increment demo_db;
     livecomments_auto_increment := livecomments_auto_increment demo_db |}.

(** The profile of user 8 in [demo_db]. *)
Definition demo_viewer : User :=
  {| User_ID := 8; User_Name := "viewer"; User_DisplayName := "Viewer";
     User_Description := "";
     User_Theme := {| Theme_ID := 2; Theme_DarkMode := false |};
     User_IconHash := "bb" |}.

(** A row of user 7 that has no icon hash stored. *)
Definition demo_row_no_hash : UserModel :=
  {| um_ID := 7; um_Name := "streamer"; um_DisplayName := "Streamer";
     um_Description := ""; um_HashedPassword := "$2a$04$secret";
     um_IconHash := None |}.

(** The empty string as a banned word of stream 42, and the process
    holding it under the key the comment post looks up. *)
Definition demo_empty_word : NGWord :=
  {| ng_ID := 2; ng_UserID := 7; ng_LivestreamID := 42; ng_Word := ""; ng_CreatedAt := 200 |}.

Definition demo_empty_word_world : World :=
  set_ngWordsCache (Map_Store 7 [demo_empty_word; demo_spam]) demo_world.

(** The process when the row of user 7 stores no icon hash and the icon
    of user 7 is on disk. *)
Definition demo_db_no_hash : DB :=
  {| users := [demo_row_no_hash];
     themes := themes demo_db;
     ng_words := ng_words demo_db;
     livecomments := livecomments demo_db;
     ng_words_auto_increment := ng_words_auto_increment demo_db;
     livecomments_auto_increment := livecomments_auto_increment demo_db |}.

Definition demo_icon_world : World :=
  {| cache := ∅;
     userCache := ∅;
     ngWordsCache := ∅;
     dbConn := demo_db_no_hash;
     files := fun p => match p with
                       | IconFile 7 => File "JFIF"
                       | _ => Absent
                       end;
     clock := 1000 * Second;
     trace := [] |}.

(** The bcrypt service of the example: [bcryptCompairHandler] behind the
    framework, which answers an [HTTPError] with its code and message and
    any other error with 500. *)
Definition demo_bcrypt_api : BcryptAPI :=
  {| http_Post_compair req := fun w =>
       match @bcryptCompairHandler demo_declared demo_collaborators (inr req) w with
       | (inr _, w') => (inr (200, inr ""), w')
       | (inl (HTTPError code msg), w') => (inr (code, inr msg), w')
       | (inl e, w') => (inr (500, inr (Error e)), w')
       end;
     sess_Save_fault := None |}.

(** A login request with no session cookie yet. *)
Definition demo_login_request (username password : string) : Context LoginRequest :=
  {| session_Get := inr {| Values_EXPIRES := None; Values_USERID := None |};
     Param_livestream_id := None;
     Decode := inr (Some {| lr_Username := username; lr_Password := password |}) |}.

(** Uploads of the example: the disk takes every write; user 8 uploads
    "JFIF" while the process holds the profile of user 8 it assembled at
    second 1000. *)
Definition demo_file_driver : FileDriver := {| WriteFile_fault _ _ := None |}.

Definition demo_icons : Icons := {| icon_rows := []; icons_auto_increment := 1 |}.

Definition demo_upload : Context PostIconRequest := demo_request 8 42 {| Image := "JFIF" |}.


(** The platform with a second stream, 43, which belongs to user 8. *)
Definition demo_collaborators_two_streams : @Collaborators demo_declared :=
  {| CompareHashAndPassword hash password :=
       if String.eqb hash ("$2a$04$" +:+ password) then None
       else Some ErrMismatchedHashAndPassword;
     sha256_hex image := "sha256:" +:+ image;
     driver_fault _ := None;
     sql_like_contains comment word := strings_Contains comment word;
     getLivestream_query _ id :=
       if id =? 42 then inr {| lsm_ID := 42; lsm_UserID := 7 |}
       else if id =? 43 then inr {| lsm_ID := 43; lsm_UserID := 8 |}
       else inl ErrNoRows;
     fillLivestreamResponse _ m := ret (m : @Livestream demo_declared) |}.

Definition demo_reports : Reports := {| report_rows := []; reports_auto_increment := 1 |}.

(** Drivers that fail one statement. *)
Definition demo_commit_fails (s : Stmt) : option error :=
  match s with
  | Commit => Some (ErrOther "driver: bad connection")
  | _ => None
  end.

Definition demo_select_words_fails (e : error) (s : Stmt) : option error :=
  match s with
  | SelectNGWords _ => Some e
  | _ => None
  end.

(** ** The specification's words, for comparison *)

(** An entry is fresh while [now - fetchedAt < TTL], TTL = 1.3 s. *)
Definition TTL : Z := 1300 * Millisecond.

Definition fresh_entry (w : World) (id : Z) (c : cachedUser) : Prop :=
  userCache w !! id = Some c /\ clock w - fetchedAt c < TTL.

(** The profile of [id] in the source of truth, as the spec words it: the
    canonical row joined with its theme, and the icon fingerprint, which is
    the stored one or, when none is set, that of the stored image bytes or
    of the fallback image. *)
Definition profile_of_source `{Collaborators}
    (tx : DB) (fs : Path -> FileState) (id : Z) : option User :=
  match List.find (fun u => um_ID u =? id) (users tx) with
  | None => None
  | Some row =>
      match List.find (fun t => tm_UserID t =? um_ID row) (themes tx) with
      | None => None
      | Some theme =>
          let fingerprint :=
            match um_IconHash row with
            | Some h => Some h
            | None =>
                match fs (IconFile (um_ID row)) with
                | File image => Some (sha256_hex image)
                | Absent =>
                    Some (sha256_hex match fs fallbackImage with
                                     | File image => image
                                     | _ => ""
                                     end)
                | _ => None
                end
            end in
          match fingerprint with
          | None => None
          | Some h =>
              Some {| User_ID := um_ID row;
                      User_Name := um_Name row;
                      User_DisplayName := um_DisplayName row;
                      User_Description := um_Description row;
                      User_Theme := {| Theme_ID := tm_ID theme;
                                       Theme_DarkMode := tm_DarkMode theme |};
                      User_IconHash := h |}
          end
      end
  end.

(** Most recent first: the creation times never increase along the list. *)
Definition newer_first (a b : NGWord) : Prop := ng_CreatedAt b <= ng_CreatedAt a.

(** The request carries a session of [userID] that has not expired. *)
Definition session_of {B} (c : Context B) (w : World) (userID : Z) : Prop :=
  exists expires,
    session_Get c = inr {| Values_EXPIRES := Some expires; Values_USERID := Some userID |}
    /\ Unix (clock w) <= expires.

(** * Properties *)

Section Properties.
Context `{Collaborators}.

(** ** Running the monad *)

Lemma bind_ok {A B} (m : M A) (k : A -> M B) w a w' :
  m w = (inr a, w') -> bind m k w = k a w'.
Proof. intros E. unfold bind. now rewrite E. Qed.

Lemma bind_err {A B} (m : M A) (k : A -> M B) w e w' :
  m w = (inl e, w') -> bind m k w = (inl e, w').
Proof. intros E. unfold bind. now rewrite E. Qed.

Lemma orReturn_ok {A} (m : M A) h w a w' :
  m w = (inr a, w') -> orReturn m h w = (inr a, w').
Proof. intros E. unfold orReturn. now rewrite E. Qed.

Lemma orReturn_err {A} (m : M A) h w e w' :
  m w = (inl e, w') -> orReturn m h w = (inl (h e), w').
Proof. intros E. unfold orReturn. now rewrite E. Qed.

Lemma exec_ok s w :
  driver_fault s = None -> exec s w = (inr tt, log (EvSQL s) w).
Proof. intros E. unfold exec, bind, emit. cbn. now rewrite E. Qed.

Lemma exec_err s e w :
  driver_fault s = Some e -> exec s w = (inl e, log (EvSQL s) w).
Proof. intros E. unfold exec, bind, emit. cbn. now rewrite E. Qed.

(** ** The associative store *)

Lemma Map_Load_Store {K V} `{Countable K} (k : K) (v : V) (m : gmap K V) :
  Map_Load (Map_Store k v m) k = Some v.
Proof. apply lookup_insert_eq. Qed.


Lemma Map_Load_Delete {K V} `{Countable K} (k : K) (v : V) (m : gmap K V) :
  Map_Load (Map_Delete k (Map_Store k v m)) k = None.
Proof. apply lookup_delete_eq. Qed.

Lemma Map_Delete_absent {K V} `{Countable K} (k : K) (m : gmap K V) :
  Map_Load m k = None -> Map_Delete k m = m.
Proof. apply delete_id. Qed.

(** ** The credential cache *)

(** The key under which an outcome is stored is never the key that is looked
    up for the same pair: they differ at the byte after the hash. *)
Lemma store_key_ne_load_key (h p : string) :
  h +:+ "-" +:+ p <> h +:+ ":" +:+ p.
Proof.
  induction h as [|a h IH]; cbn; intros E.
  - discriminate E.
  - injection E as E. now apply IH.
Qed.

(** Whatever the handler stores for a pair, the lookup it makes for that
    pair sees the cache as it was before. *)
Lemma record_invisible_to_check (h p : string) (b : bool) (m : gmap string bool) :
  Map_Load (Map_Store (h +:+ "-" +:+ p) b m) (h +:+ ":" +:+ p)
  = Map_Load m (h +:+ ":" +:+ p).
Proof.
  unfold Map_Load, Map_Store.
  apply lookup_insert_ne, store_key_ne_load_key.
Qed.

Lemma bcryptCompairHandler_lookup_unchanged (h p : string) (w : World) :
  let req := inr {| Password := p; HashedPassword := h |} in
  cache (snd (bcryptCompairHandler req w)) !! (h +:+ ":" +:+ p)
  = cache w !! (h +:+ ":" +:+ p).
Proof.
  cbn. unfold bcryptCompairHandler, bind, Bind, ret, cache_Load, Map_Load; cbn.
  destruct (cache w !! (h +:+ ":" +:+ p)) as [[|]|] eqn:E; cbn; try exact E.
  unfold bcrypt_CompareHashAndPassword; cbn.
  destruct (CompareHashAndPassword h p) as [e|]; cbn.
  - case_bool_decide; cbn; [|exact E].
    rewrite <- E. apply (record_invisible_to_check h p false).
  - rewrite <- E. apply (record_invisible_to_check h p true).
Qed.

(** ** Computations that only add to the trace *)

Lemma only_logs_refl w : only_logs w w.
Proof.
  repeat split. exists []. now rewrite app_nil_r.
Qed.

Lemma only_logs_log e w : only_logs w (log e w).
Proof. repeat split. now exists [e]. Qed.

Lemma only_logs_trans w1 w2 w3 :
  only_logs w1 w2 -> only_logs w2 w3 -> only_logs w1 w3.
Proof.
  intros (A1 & A2 & A3 & A4 & A5 & A6 & e1 & A7) (B1 & B2 & B3 & B4 & B5 & B6 & e2 & B7).
  repeat split; try congruence.
  exists (e1 ++ e2)%list. rewrite B7, A7. now rewrite app_assoc.
Qed.

Lemma exec_only_logs s w r w' : exec s w = (r, w') -> w' = log (EvSQL s) w.
Proof.
  unfold exec, bind, emit; cbn.
  destruct (driver_fault s); cbn; now intros [= _ <-].
Qed.

Lemma GetContext_users_logs tx id w r w' :
  GetContext_users tx id w = (r, w') -> w' = log (EvSQL (SelectUserByID id)) w.
Proof.
  unfold GetContext_users, bind.
  destruct (exec _ w) as [[e|[]] w1] eqn:E; apply exec_only_logs in E; subst w1.
  - now intros [= _ <-].
  - destruct (List.find _ _); cbn; now intros [= _ <-].
Qed.

Lemma GetContext_themes_logs tx id w r w' :
  GetContext_themes tx id w = (r, w') -> w' = log (EvSQL (SelectThemeByUserID id)) w.
Proof.
  unfold GetContext_themes, bind.
  destruct (exec _ w) as [[e|[]] w1] eqn:E; apply exec_only_logs in E; subst w1.
  - now intros [= _ <-].
  - destruct (List.find _ _); cbn; now intros [= _ <-].
Qed.

Lemma os_Stat_logs p w r w' : os_Stat p w = (r, w') -> w' = log (EvStat p) w.
Proof.
  unfold os_Stat, bind, emit, get; cbn.
  destruct (files w p); cbn; now intros [= _ <-].
Qed.

Lemma os_ReadFile_logs p w r w' : os_ReadFile p w = (r, w') -> w' = log (EvReadFile p) w.
Proof.
  unfold os_ReadFile, bind, emit, get; cbn.
  destruct (files w p); cbn; now intros [= _ <-].
Qed.

Lemma fillUserResponse_only_logs tx model w r w' :
  fillUserResponse tx model w = (r, w') -> only_logs w w'.
Proof.
  unfold fillUserResponse. unfold bind at 1.
  destruct (GetContext_themes _ _ w) as [[e|theme] w1] eqn:E1;
    apply GetContext_themes_logs in E1; subst w1.
  { intros [= _ <-]. apply only_logs_log. }
  unfold bind at 1.
  destruct (um_IconHash model) as [h|].
  { cbn. intros [= _ <-]. apply only_logs_log. }
  unfold bind at 1. unfold bind at 1. unfold try at 1.
  destruct (os_Stat _ _) as [st w2] eqn:E2. apply os_Stat_logs in E2. subst w2.
  destruct st as [err|[]].
  - destruct (os_IsNotExist err).
    + unfold bind at 1. unfold try.
      destruct (os_ReadFile _ _) as [rd w3] eqn:E3. apply os_ReadFile_logs in E3. subst w3.
      cbn. intros [= _ <-].
      repeat split. now exists [EvSQL (SelectThemeByUserID (um_ID model));
                                EvStat (IconFile (um_ID model));
                                EvReadFile fallbackImage];
        cbn; rewrite <- !app_assoc.
    + cbn. intros [= _ <-]. repeat split.
      now exists [EvSQL (SelectThemeByUserID (um_ID model)); EvStat (IconFile (um_ID model))];
        cbn; rewrite <- !app_assoc.
  - destruct (os_ReadFile _ _) as [rd w3] eqn:E3. apply os_ReadFile_logs in E3. subst w3.
    destruct rd; cbn; intros [= _ <-]; repeat split;
      now exists [EvSQL (SelectThemeByUserID (um_ID model));
                  EvStat (IconFile (um_ID model));
                  EvReadFile (IconFile (um_ID model))];
        cbn; rewrite <- !app_assoc.
Qed.

(** ** The profile cache *)

Lemma fresh_test (f now : Z) :
  Time_After (Time_Add f (1 * Second + 300 * Millisecond)) now = true
  <-> now - f < TTL.
Proof.
  unfold Time_After, Time_Add, TTL, Second, Millisecond.
  rewrite Z.ltb_lt. lia.
Qed.

Lemma getUserResponse_hit tx id w c :
  fresh_entry w id c ->
  getUserResponse tx id w = (inr (user c), log (EvUserLoad id) w).
Proof.
  intros [E F]. apply fresh_test in F.
  unfold getUserResponse, bind, userCache_Load, Map_Load, Now; cbn.
  rewrite E. cbn in F |- *. now rewrite F.
Qed.

Lemma getUserResponse_miss tx id w :
  (forall c, ~ fresh_entry w id c) ->
  getUserResponse tx id w = rebuild tx id (clock w) (log (EvUserLoad id) w).
Proof.
  intros N.
  unfold getUserResponse, userCache_Load, Map_Load, Now.
  unfold bind at 1 2; cbn.
  destruct (userCache w !! id) as [c|] eqn:E; [|reflexivity].
  destruct (Time_After _ _) eqn:F; [|reflexivity].
  exfalso. apply (N c). split; [exact E|]. now apply fresh_test.
Qed.

(** Whether an entry for [id] is fresh is decided by the lookup and the
    clock. *)
Lemma fresh_or_not w id :
  (exists c, fresh_entry w id c) \/ (forall c, ~ fresh_entry w id c).
Proof.
  unfold fresh_entry.
  destruct (userCache w !! id) as [c|] eqn:E.
  - destruct (Z_lt_dec (clock w - fetchedAt c) TTL).
    + left. now exists c.
    + right. intros c' [E' F]. congruence.
  - right. intros c' [E' _]. discriminate.
Qed.

Lemma errors_Is_NoRows_id (e : error) :
  (if errors_Is e ErrNoRows then ErrNoRows else e) = e.
Proof. unfold errors_Is. now case_bool_decide. Qed.

(** A failure of the canonical-row query is the failure of the rebuild. *)
Lemma rebuild_row_error tx id now w e w' :
  GetContext_users tx id w = (inl e, w') ->
  rebuild tx id now w = (inl e, w').
Proof.
  intros E. unfold rebuild.
  erewrite bind_err; [reflexivity|].
  erewrite orReturn_err by exact E. now rewrite errors_Is_NoRows_id.
Qed.

(** A failure of the assembly is the failure of the rebuild. *)
Lemma rebuild_fill_error tx id now w model w1 e w' :
  GetContext_users tx id w = (inr model, w1) ->
  fillUserResponse tx model w1 = (inl e, w') ->
  rebuild tx id now w = (inl e, w').
Proof.
  intros E F. unfold rebuild.
  erewrite bind_ok by (erewrite orReturn_ok by exact E; reflexivity).
  now erewrite bind_err by exact F.
Qed.

Lemma rebuild_ok tx id now w model w1 u w2 :
  GetContext_users tx id w = (inr model, w1) ->
  fillUserResponse tx model w1 = (inr u, w2) ->
  rebuild tx id now w
  = (inr u, set_userCache (Map_Store id {| user := u; fetchedAt := now |})
                          (log (EvUserStore id {| user := u; fetchedAt := now |}) w2)).
Proof.
  intros E F. unfold rebuild.
  erewrite bind_ok by (erewrite orReturn_ok by exact E; reflexivity).
  erewrite bind_ok by exact F.
  reflexivity.
Qed.

Lemma GetContext_users_found tx id w row w' :
  GetContext_users tx id w = (inr row, w') ->
  List.find (fun u => um_ID u =? id) (users tx) = Some row.
Proof.
  unfold GetContext_users, bind.
  destruct (exec _ w) as [[e|[]] w1]; [discriminate|].
  destruct (List.find _ _); cbn; [now intros [= -> _]|discriminate].
Qed.

Lemma found_user_id id l row :
  List.find (fun u => um_ID u =? id) l = Some row -> um_ID row = id.
Proof. intros E. apply find_some in E as [_ E]. now apply Z.eqb_eq in E. Qed.

Lemma IsNotExist_ErrNotExist : os_IsNotExist ErrNotExist = true.
Proof. reflexivity. Qed.

Lemma IsNotExist_ErrOther msg : os_IsNotExist (ErrOther msg) = false.
Proof. reflexivity. Qed.

(** A profile that [fillUserResponse] assembles is the profile of the
    source. *)
Lemma fillUserResponse_sound tx id row w u w' :
  List.find (fun u => um_ID u =? id) (users tx) = Some row ->
  fillUserResponse tx row w = (inr u, w') ->
  profile_of_source tx (files w) id = Some u.
Proof.
  intros Hrow. unfold profile_of_source. rewrite Hrow.
  unfold fillUserResponse. unfold bind at 1.
  unfold GetContext_themes at 1. unfold bind at 1.
  destruct (exec _ w) as [[e|[]] w1] eqn:E1; [discriminate|].
  apply exec_only_logs in E1. subst w1.
  destruct (List.find _ (themes tx)) as [theme|]; cbn; [|discriminate].
  unfold bind at 1.
  destruct (um_IconHash row) as [h|]; cbn.
  { now intros [= <- _]. }
  unfold bind at 1. unfold bind at 1. unfold try at 1.
  unfold os_Stat at 1, bind at 1, emit, get; cbn.
  destruct (files w (IconFile (um_ID row))) eqn:F; cbn.
  - rewrite IsNotExist_ErrNotExist.
    unfold os_ReadFile, try, bind, emit, get; cbn.
    destruct (files w fallbackImage); cbn; now intros [= <- _].
  - unfold os_ReadFile, bind, emit, get; cbn. rewrite F. cbn. now intros [= <- _].
  - rewrite IsNotExist_ErrOther. discriminate.
  - unfold os_ReadFile, bind, emit, get; cbn. rewrite F. cbn. discriminate.
Qed.

(** Whenever the source holds a profile and the driver answers, the assembly
    produces it. *)
Lemma fillUserResponse_complete tx id row w u :
  List.find (fun u => um_ID u =? id) (users tx) = Some row ->
  driver_fault (SelectThemeByUserID (um_ID row)) = None ->
  profile_of_source tx (files w) id = Some u ->
  exists w', fillUserResponse tx row w = (inr u, w').
Proof.
  intros Hrow Hd. unfold profile_of_source. rewrite Hrow.
  unfold fillUserResponse. unfold bind at 1.
  unfold GetContext_themes at 1. unfold bind at 1.
  rewrite (exec_ok _ _ Hd).
  destruct (List.find _ (themes tx)) as [theme|]; cbn; [|discriminate].
  unfold bind at 1.
  destruct (um_IconHash row) as [h|]; cbn.
  { intros [= <-]. eauto. }
  unfold bind at 1. unfold bind at 1. unfold try at 1.
  unfold os_Stat at 1, bind at 1, emit, get; cbn.
  destruct (files w (IconFile (um_ID row))) eqn:F; cbn; try discriminate.
  - rewrite IsNotExist_ErrNotExist.
    unfold os_ReadFile, try, bind, emit, get; cbn.
    destruct (files w fallbackImage); cbn; intros [= <-]; eauto.
  - unfold os_ReadFile, bind, emit, get; cbn. rewrite F. cbn. intros [= <-]. eauto.
Qed.

Lemma rebuild_complete tx id now w u :
  driver_fault (SelectUserByID id) = None ->
  driver_fault (SelectThemeByUserID id) = None ->
  profile_of_source tx (files w) id = Some u ->
  exists w1,
    only_logs w w1
    /\ rebuild tx id now w
       = (inr u, set_userCache (Map_Store id {| user := u; fetchedAt := now |})
                               (log (EvUserStore id {| user := u; fetchedAt := now |}) w1)).
Proof.
  intros D1 D2 P.
  destruct (List.find (fun u => um_ID u =? id) (users tx)) as [row|] eqn:Hrow;
    [|unfold profile_of_source in P; now rewrite Hrow in P].
  assert (G : GetContext_users tx id w = (inr row, log (EvSQL (SelectUserByID id)) w)).
  { unfold GetContext_users. erewrite bind_ok by now apply exec_ok. now rewrite Hrow. }
  pose proof (found_user_id _ _ _ Hrow) as Hid.
  destruct (fillUserResponse_complete tx id row (log (EvSQL (SelectUserByID id)) w) u)
    as [w1 F]; [exact Hrow|now rewrite Hid|exact P|].
  exists w1. split.
  - eapply only_logs_trans; [apply only_logs_log|].
    eapply fillUserResponse_only_logs, F.
  - eapply rebuild_ok; eauto.
Qed.

(** The source is consulted: the canonical-row query follows the lookup. *)
Lemma rebuild_consults_source tx id now w :
  exists rest,
    trace (snd (rebuild tx id now w))
    = (trace w ++ EvSQL (SelectUserByID id) :: rest)%list.
Proof.
  unfold rebuild. unfold bind at 1. unfold orReturn.
  destruct (GetContext_users tx id w) as [[e|row] w1] eqn:G;
    pose proof (GetContext_users_logs _ _ _ _ _ G) as ->.
  { exists []. reflexivity. }
  unfold bind at 1.
  destruct (fillUserResponse tx row _) as [[e|u] w2] eqn:F;
    apply fillUserResponse_only_logs in F as (_ & _ & _ & _ & _ & _ & evs & T).
  - exists evs. cbn in *. now rewrite T, <- app_assoc.
  - exists (evs ++ [EvUserStore id {| user := u; fetchedAt := now |}])%list.
    cbn in *. rewrite T, <- !app_assoc. reflexivity.
Qed.

(** C4.  [getUserResponse] answers from the cache, leaving the source
    alone, exactly when an entry for the user exists whose age
    [now - fetchedAt] is below 1.3 s, and then returns the cached profile
    unchanged; otherwise it queries the source, and the profile it assembles
    from the source replaces the entry, stamped with the current instant. *)
Theorem getUserResponse_fresh_or_rebuilt (tx : DB) (id : Z) (w : World) :
  (forall c, userCache w !! id = Some c -> clock w - fetchedAt c < 1300 * Millisecond ->
     getUserResponse tx id w = (inr (user c), log (EvUserLoad id) w))
  /\ ((exists c, userCache w !! id = Some c /\ clock w - fetchedAt c < 1300 * Millisecond)
      <-> trace (snd (getUserResponse tx id w)) = (trace w ++ [EvUserLoad id])%list)
  /\ ((forall c, userCache w !! id = Some c -> 1300 * Millisecond <= clock w - fetchedAt c) ->
      (exists rest, trace (snd (getUserResponse tx id w))
                    = (trace w ++ EvUserLoad id :: EvSQL (SelectUserByID id) :: rest)%list)
      /\ (forall u, fst (getUserResponse tx id w) = inr u ->
             profile_of_source tx (files w) id = Some u
             /\ userCache (snd (getUserResponse tx id w))
                = <[id := {| user := u; fetchedAt := clock w |}]> (userCache w))
      /\ (forall u, driver_fault (SelectUserByID id) = None ->
             driver_fault (SelectThemeByUserID id) = None ->
             profile_of_source tx (files w) id = Some u ->
             fst (getUserResponse tx id w) = inr u)).
Proof.
  assert (Hmiss : (forall c, ~ fresh_entry w id c) ->
            exists rest, trace (snd (getUserResponse tx id w))
                    = (trace w ++ EvUserLoad id :: EvSQL (SelectUserByID id) :: rest)%list).
  { intros N. rewrite (getUserResponse_miss _ _ _ N).
    destruct (rebuild_consults_source tx id (clock w) (log (EvUserLoad id) w)) as [rest R].
    exists rest. rewrite R. cbn. now rewrite <- app_assoc. }
  split; [|split].
  - intros c E F. now apply getUserResponse_hit.
  - split.
    + intros (c & E & F). now rewrite (getUserResponse_hit tx id w c).
    + intros T. destruct (fresh_or_not w id) as [(c & E & F)|N]; [now exists c|].
      destruct (Hmiss N) as [rest R]. rewrite R in T.
      apply app_inv_head in T. discriminate.
  - intros S.
    assert (N : forall c, ~ fresh_entry w id c).
    { intros c [E F]. specialize (S c E). unfold TTL in F. lia. }
    split; [now apply Hmiss|].
    rewrite (getUserResponse_miss _ _ _ N). split.
    + intros u.
      destruct (GetContext_users tx id (log (EvUserLoad id) w)) as [[e|row] w1] eqn:G.
      { now rewrite (rebuild_row_error _ _ _ _ _ _ G). }
      destruct (fillUserResponse tx row w1) as [[e|u'] w2] eqn:F.
      { now rewrite (rebuild_fill_error _ _ _ _ _ _ _ _ G F). }
      rewrite (rebuild_ok _ _ _ _ _ _ _ _ G F). cbn. intros [= ->].
      pose proof (GetContext_users_logs _ _ _ _ _ G) as ->.
      apply GetContext_users_found in G.
      pose proof (fillUserResponse_only_logs _ _ _ _ _ F) as (_ & C & _).
      split; [exact (fillUserResponse_sound _ _ _ _ _ _ G F)|].
      unfold Map_Store. now rewrite C.
    + intros u D1 D2 P.
      destruct (rebuild_complete tx id (clock w) (log (EvUserLoad id) w) u D1 D2 P)
        as (w1 & _ & R).
      now rewrite R.
Qed.

Lemma rebuild_failure tx id now w e w' :
  source_fails tx id w e w' ->
  rebuild tx id now w = (inl e, w') /\ only_logs w w'.
Proof.
  intros [G|(model & w1 & G & F)].
  - split; [now apply rebuild_row_error|].
    apply GetContext_users_logs in G as ->. apply only_logs_log.
  - split; [eapply rebuild_fill_error; eassumption|].
    apply GetContext_users_logs in G as ->.
    eapply only_logs_trans; [apply only_logs_log|].
    eapply fillUserResponse_only_logs, F.
Qed.

Lemma no_such_user tx id w :
  driver_fault (SelectUserByID id) = None ->
  List.find (fun u => um_ID u =? id) (users tx) = None ->
  GetContext_users tx id w = (inl ErrNoRows, log (EvSQL (SelectUserByID id)) w).
Proof.
  intros D F. unfold GetContext_users.
  erewrite bind_ok by now apply exec_ok. now rewrite F.
Qed.

Lemma stale_is_not_fresh w id :
  (forall c, userCache w !! id = Some c -> 1300 * Millisecond <= clock w - fetchedAt c) ->
  forall c, ~ fresh_entry w id c.
Proof. intros S c [E F]. specialize (S c E). unfold TTL in F. lia. Qed.

(** C6.  With no fresh entry for the user, a failure of the canonical-row
    query (the missing user among them) or of the assembly is what
    [getUserResponse] returns, error and all, and the profile cache is left
    as it was: nothing having been stored, every later call asks the source
    again. *)
Theorem getUserResponse_failure_is_not_cached
    (tx : DB) (id : Z) (w : World) (e : error) (w' : World) :
  (forall c, userCache w !! id = Some c -> 1300 * Millisecond <= clock w - fetchedAt c) ->
  source_fails tx id (log (EvUserLoad id) w) e w' ->
  getUserResponse tx id w = (inl e, w')
  /\ userCache w' = userCache w
  /\ forall tx2 w2, userCache w2 = userCache w' -> clock w' <= clock w2 ->
       exists rest, trace (snd (getUserResponse tx2 id w2))
                    = (trace w2 ++ EvUserLoad id :: EvSQL (SelectUserByID id) :: rest)%list.
Proof.
  intros S Hf. pose proof (stale_is_not_fresh _ _ S) as N.
  apply (rebuild_failure _ _ (clock w)) in Hf as [R L].
  destruct L as (_ & C & _ & _ & _ & K & _). cbn in C, K.
  split; [|split].
  - now rewrite getUserResponse_miss.
  - exact C.
  - intros tx2 w2 C2 K2.
    assert (N2 : forall c, ~ fresh_entry w2 id c).
    { intros c [E F]. rewrite C2, C in E. specialize (S c E). unfold TTL in F. lia. }
    rewrite (getUserResponse_miss _ _ _ N2).
    destruct (rebuild_consults_source tx2 id (clock w2) (log (EvUserLoad id) w2)) as [rest T].
    exists rest. rewrite T. cbn. now rewrite <- app_assoc.
Qed.

(** C9.  When the entry of the user has gone stale and the rebuild from the
    source fails, [getUserResponse] returns the error, not the stale
    profile, and the stale entry stays in the cache as it was. *)
Theorem stale_entry_is_not_served_on_failure
    (tx : DB) (id : Z) (w : World) (c : cachedUser) (e : error) (w' : World) :
  userCache w !! id = Some c ->
  1300 * Millisecond <= clock w - fetchedAt c ->
  source_fails tx id (log (EvUserLoad id) w) e w' ->
  getUserResponse tx id w = (inl e, w')
  /\ userCache w' = userCache w
  /\ userCache w' !! id = Some c.
Proof.
  intros E S Hf.
  assert (N : forall c', ~ fresh_entry w id c').
  { intros c' [E' F]. rewrite E in E'. injection E' as <-. unfold TTL in F. lia. }
  apply (rebuild_failure _ _ (clock w)) in Hf as [R L].
  destruct L as (_ & C & _). cbn in C.
  split; [|split].
  - now rewrite getUserResponse_miss.
  - exact C.
  - now rewrite C.
Qed.


(** ** Sessions *)

Lemma verifyUserSession_ok {B} (c : Context B) w userID :
  session_of c w userID -> verifyUserSession c w = (inr tt, w).
Proof.
  intros (expires & E & L). unfold verifyUserSession. rewrite E. cbn.
  unfold bind, Now. cbn.
  destruct (Unix (clock w) >? expires) eqn:G; [|reflexivity].
  apply Z.gtb_lt in G. lia.
Qed.

Lemma session_userID_ok {B} (c : Context B) w userID :
  session_of c w userID -> session_userID c w = (inr userID, w).
Proof. intros (expires & E & _). unfold session_userID. now rewrite E. Qed.

Lemma livestream_id_param_ok {B} (c : Context B) w L :
  Param_livestream_id c = Some L -> livestream_id_param c w = (inr L, w).
Proof. intros E. unfold livestream_id_param. now rewrite E. Qed.

(** ** The word list of a stream *)

Lemma insert_desc_perm x l : Permutation (x :: l) (insert_desc x l).
Proof.
  induction l as [|y l IH]; cbn; [reflexivity|].
  destruct (ng_CreatedAt y <=? ng_CreatedAt x); [reflexivity|].
  rewrite <- IH. apply perm_swap.
Qed.

Lemma insert_desc_sorted x l :
  StronglySorted newer_first l -> StronglySorted newer_first (insert_desc x l).
Proof.
  induction 1 as [|y l S IH F]; cbn.
  - repeat constructor.
  - destruct (ng_CreatedAt y <=? ng_CreatedAt x) eqn:E.
    + apply Z.leb_le in E. constructor; [now constructor|].
      constructor; [exact E|].
      eapply Forall_impl; [exact F|]. unfold newer_first. intros z Hz. lia.
    + apply Z.leb_gt in E. constructor; [exact IH|].
      rewrite <- insert_desc_perm. constructor; [|exact F].
      unfold newer_first. lia.
Qed.

Lemma order_by_created_at_desc_perm l : Permutation l (order_by_created_at_desc l).
Proof.
  induction l as [|x l IH]; cbn; [reflexivity|].
  rewrite <- insert_desc_perm. now constructor.
Qed.

Lemma order_by_created_at_desc_sorted l :
  StronglySorted newer_first (order_by_created_at_desc l).
Proof.
  induction l as [|x l IH]; cbn; [constructor|]. now apply insert_desc_sorted.
Qed.

(** The query returns the rows of the stream, all of them and no other, the
    most recent first. *)
Lemma ng_words_of_spec tx L :
  Permutation (List.filter (fun n => ng_LivestreamID n =? L) (ng_words tx)) (ng_words_of tx L)
  /\ StronglySorted newer_first (ng_words_of tx L)
  /\ forall n, In n (ng_words_of tx L) <-> In n (ng_words tx) /\ ng_LivestreamID n = L.
Proof.
  split; [apply order_by_created_at_desc_perm|].
  split; [apply order_by_created_at_desc_sorted|].
  intros n. unfold ng_words_of.
  rewrite <- !list_elem_of_In.
  rewrite <- (order_by_created_at_desc_perm _).
  rewrite !list_elem_of_In, filter_In, Z.eqb_eq. reflexivity.
Qed.

Lemma SelectContext_ng_words_ok tx L w :
  driver_fault (SelectNGWords L) = None ->
  SelectContext_ng_words tx L w = (inr (ng_words_of tx L), log (EvSQL (SelectNGWords L)) w).
Proof.
  intros D. unfold SelectContext_ng_words. now erewrite bind_ok by now apply exec_ok.
Qed.

Lemma getLivestream_ok tx L w m :
  getLivestream_query tx L = inr m ->
  getLivestream tx L w = (inr m, log (EvGetLivestream L) w).
Proof. intros E. unfold getLivestream, bind, emit. cbn. now rewrite E. Qed.

Lemma getLivestream_err tx L w e :
  getLivestream_query tx L = inl e ->
  getLivestream tx L w = (inl e, log (EvGetLivestream L) w).
Proof. intros E. unfold getLivestream, bind, emit. cbn. now rewrite E. Qed.

(** ** Listing the banned words of a stream *)

(** [getNgwords] up to the ownership test. *)
Lemma getNgwords_prelude (c : Context unit) w userID L :
  session_of c w userID ->
  Param_livestream_id c = Some L ->
  getNgwords c w =
  match getLivestream_query (dbConn w) L with
  | inl _ => (inr (JSON_NGWords StatusOK []), log (EvGetLivestream L) w)
  | inr liveStream =>
      if negb (lsm_UserID liveStream =? userID)
      then (inr (JSON_NGWords StatusOK []), log (EvGetLivestream L) w)
      else
        match ngWordsCache w !! L with
        | Some ngWords =>
            (inr (JSON_NGWords StatusOK ngWords), log (EvNgLoad L) (log (EvGetLivestream L) w))
        | None =>
            bind (try (SelectContext_ng_words (dbConn w) L))
                 (fun r =>
                    match r with
                    | inl err =>
                        if errors_Is err ErrNoRows then ret (JSON_NGWords StatusOK [])
                        else NewHTTPError StatusInternalServerError
                                          ("failed to get NG words: " +:+ Error err)
                    | inr ngWords =>
                        let* _ := ngWordsCache_Store L ngWords in
                        ret (JSON_NGWords StatusOK ngWords)
                    end)
                 (log (EvNgLoad L) (log (EvGetLivestream L) w))
        end
  end.
Proof.
  intros S P. unfold getNgwords.
  erewrite bind_ok by (eapply verifyUserSession_ok, S).
  erewrite bind_ok by (eapply session_userID_ok, S).
  erewrite bind_ok by (eapply livestream_id_param_ok, P).
  unfold bind at 1. unfold DbConn at 1.
  unfold bind at 1. unfold try at 1.
  destruct (getLivestream_query (dbConn w) L) as [e|liveStream] eqn:G.
  - now rewrite (getLivestream_err _ _ _ _ G).
  - rewrite (getLivestream_ok _ _ _ _ G).
    destruct (negb _); [reflexivity|].
    unfold bind at 1. unfold DbConn at 1.
    unfold bind at 1. unfold ngWordsCache_Load at 1, Map_Load. cbn.
    destruct (ngWordsCache w !! L); reflexivity.
Qed.

Lemma no_new_events (l evs : list Event) : l = (l ++ evs)%list -> evs = [].
Proof.
  intros E. rewrite <- (app_nil_r l) in E at 1. now apply app_inv_head in E.
Qed.

Lemma getNgwords_hit (c : Context unit) w userID L liveStream ngWords :
  session_of c w userID ->
  Param_livestream_id c = Some L ->
  getLivestream_query (dbConn w) L = inr liveStream ->
  lsm_UserID liveStream = userID ->
  ngWordsCache w !! L = Some ngWords ->
  getNgwords c w
  = (inr (JSON_NGWords StatusOK ngWords), log (EvNgLoad L) (log (EvGetLivestream L) w)).
Proof.
  intros S P G O E.
  rewrite (getNgwords_prelude c w userID L S P), G.
  replace (lsm_UserID liveStream =? userID) with true by (symmetry; now apply Z.eqb_eq).
  cbn [negb]. now rewrite E.
Qed.

Lemma getNgwords_miss (c : Context unit) w userID L liveStream :
  session_of c w userID ->
  Param_livestream_id c = Some L ->
  getLivestream_query (dbConn w) L = inr liveStream ->
  lsm_UserID liveStream = userID ->
  ngWordsCache w !! L = None ->
  driver_fault (SelectNGWords L) = None ->
  getNgwords c w
  = (inr (JSON_NGWords StatusOK (ng_words_of (dbConn w) L)),
     set_ngWordsCache (Map_Store L (ng_words_of (dbConn w) L))
       (log (EvNgStore L (ng_words_of (dbConn w) L))
          (log (EvSQL (SelectNGWords L))
             (log (EvNgLoad L) (log (EvGetLivestream L) w))))).
Proof.
  intros S P G O E D.
  rewrite (getNgwords_prelude c w userID L S P), G.
  replace (lsm_UserID liveStream =? userID) with true by (symmetry; now apply Z.eqb_eq).
  cbn [negb]. rewrite E.
  erewrite bind_ok
    by (unfold try; rewrite (SelectContext_ng_words_ok _ _ _ D); reflexivity).
  reflexivity.
Qed.

(** C7.  For the owner of the stream, [getNgwords] returns the cached entry
    of the stream when there is one, and touches nothing; when there is
    none it stores under the stream id the rows of the stream as the
    database returns them, all of them and most recent first, and returns
    that list; an empty list is stored like any other. *)
Theorem getNgwords_cached_or_fetched
    (c : Context unit) (w : World) (userID L : Z) (liveStream : LivestreamModel) :
  session_of c w userID ->
  Param_livestream_id c = Some L ->
  getLivestream_query (dbConn w) L = inr liveStream ->
  lsm_UserID liveStream = userID ->
  (forall ngWords, ngWordsCache w !! L = Some ngWords ->
     getNgwords c w
     = (inr (JSON_NGWords StatusOK ngWords), log (EvNgLoad L) (log (EvGetLivestream L) w)))
  /\ (ngWordsCache w !! L = None -> driver_fault (SelectNGWords L) = None ->
      fst (getNgwords c w) = inr (JSON_NGWords StatusOK (ng_words_of (dbConn w) L))
      /\ ngWordsCache (snd (getNgwords c w))
         = <[L := ng_words_of (dbConn w) L]> (ngWordsCache w)
      /\ (ng_words_of (dbConn w) L = [] ->
          ngWordsCache (snd (getNgwords c w)) !! L = Some []))
  /\ Permutation (List.filter (fun n => ng_LivestreamID n =? L) (ng_words (dbConn w)))
                 (ng_words_of (dbConn w) L)
  /\ StronglySorted newer_first (ng_words_of (dbConn w) L).
Proof.
  intros S P G O.
  split; [|split; [|split]].
  - intros ngWords E. now apply (getNgwords_hit c w userID L liveStream).
  - intros E D. rewrite (getNgwords_miss c w userID L liveStream S P G O E D).
    cbn. unfold Map_Store. repeat split.
    intros ->. apply lookup_insert_eq.
  - apply ng_words_of_spec.
  - apply ng_words_of_spec.
Qed.

(** C8.  When the livestream cannot be fetched or belongs to somebody else,
    [getNgwords] answers 200 with the empty list and its only effect is the
    livestream lookup: the word cache is neither read nor written.  And
    whatever the request, the word cache is read only for a session whose
    user owns the stream. *)
Theorem getNgwords_only_for_the_owner (c : Context unit) (w : World) :
  (forall userID L,
     session_of c w userID ->
     Param_livestream_id c = Some L ->
     ((exists e, getLivestream_query (dbConn w) L = inl e)
      \/ exists liveStream, getLivestream_query (dbConn w) L = inr liveStream
                            /\ lsm_UserID liveStream <> userID) ->
     getNgwords c w = (inr (JSON_NGWords StatusOK []), log (EvGetLivestream L) w)
     /\ ngWordsCache (snd (getNgwords c w)) = ngWordsCache w
     /\ trace (snd (getNgwords c w)) = (trace w ++ [EvGetLivestream L])%list)
  /\ (forall evs k,
        trace (snd (getNgwords c w)) = (trace w ++ evs)%list ->
        In (EvNgLoad k) evs ->
        exists userID liveStream,
          session_of c w userID /\ Param_livestream_id c = Some k
          /\ getLivestream_query (dbConn w) k = inr liveStream
          /\ lsm_UserID liveStream = userID).
Proof.
  split.
  - intros userID L S P N.
    rewrite (getNgwords_prelude c w userID L S P).
    destruct N as [[e G]|(liveStream & G & N)]; rewrite G; [now repeat split|].
    replace (lsm_UserID liveStream =? userID) with false
      by (symmetry; now apply Z.eqb_neq).
    now repeat split.
  - intros evs k T I.
    assert (Q : trace (snd (getNgwords c w)) = trace w -> False).
    { intros Q. rewrite Q in T. apply no_new_events in T. now subst evs. }
    destruct (session_Get c) as [e|[[expires|] [userID|]]] eqn:E;
      try (exfalso; apply Q; unfold getNgwords, bind, verifyUserSession;
           rewrite E; reflexivity).
    destruct (Unix (clock w) >? expires) eqn:X.
    { exfalso; apply Q; unfold getNgwords, bind, verifyUserSession, Now.
      rewrite E. cbn. now rewrite X. }
    assert (S : session_of c w userID).
    { exists expires. split; [exact E|]. rewrite Z.gtb_ltb in X.
      now apply Z.ltb_ge in X. }
    destruct (Param_livestream_id c) as [L|] eqn:P.
    2:{ exfalso; apply Q. unfold getNgwords.
        erewrite bind_ok by (eapply verifyUserSession_ok, S).
        erewrite bind_ok by (eapply session_userID_ok, S).
        unfold bind, livestream_id_param. now rewrite P. }
    rewrite (getNgwords_prelude c w userID L S P) in T.
    destruct (getLivestream_query (dbConn w) L) as [e|liveStream] eqn:G.
    { cbn in T. apply app_inv_head in T. subst evs.
      destruct I as [I|[]]; discriminate I. }
    destruct (lsm_UserID liveStream =? userID) eqn:O; cbn [negb] in T.
    2:{ cbn in T. apply app_inv_head in T. subst evs.
        destruct I as [I|[]]; discriminate I. }
    apply Z.eqb_eq in O.
    assert (K : k = L).
    { destruct (ngWordsCache w !! L).
      - cbn in T. rewrite <- app_assoc in T. apply app_inv_head in T. subst evs.
        destruct I as [I|[I|[]]]; [discriminate I|now injection I].
      - unfold bind, try in T.
        destruct (SelectContext_ng_words (dbConn w) L _) as [[err|ngWords] w1] eqn:Q1;
          unfold SelectContext_ng_words, bind in Q1;
          destruct (exec _ _) as [[e1|[]] w2] eqn:Q2; apply exec_only_logs in Q2;
          subst w2; cbn in Q1; injection Q1 as ? <-; try discriminate.
        + destruct (errors_Is err ErrNoRows); cbn in T;
            rewrite <- !app_assoc in T; apply app_inv_head in T; subst evs;
            destruct I as [I|[I|[I|[]]]]; try discriminate I; now injection I.
        + cbn in T. rewrite <- !app_assoc in T. apply app_inv_head in T. subst evs.
          destruct I as [I|[I|[I|[I|[]]]]]; try discriminate I; now injection I. }
    subst k. now exists userID, liveStream.
Qed.

(** ** Moderation *)

Lemma dbConn_BeginTxx_ok w :
  driver_fault BeginTxx = None ->
  dbConn_BeginTxx w = (inr (dbConn w), log (EvSQL BeginTxx) w).
Proof.
  intros D. unfold dbConn_BeginTxx. now erewrite bind_ok by now apply exec_ok.
Qed.

Lemma tx_Commit_ok tx w :
  driver_fault Commit = None ->
  tx_Commit tx w = (inr tt, set_dbConn tx (log (EvSQL Commit) w)).
Proof.
  intros D. unfold tx_Commit. now erewrite bind_ok by now apply exec_ok.
Qed.

(** [moderateHandler] up to the ownership test. *)
Lemma moderateHandler_prelude (c : Context ModerateRequest) w userID L body liveStream :
  session_of c w userID ->
  Param_livestream_id c = Some L ->
  Decode c = inr body ->
  driver_fault BeginTxx = None ->
  getLivestream_query (dbConn w) L = inr liveStream ->
  moderateHandler c w =
  (if negb (lsm_UserID liveStream =? userID) then
     NewHTTPError StatusBadRequest
                  "A streamer can't moderate livestreams that other streamers own"
   else
     let tx := dbConn w in
     let* req := match body with Some req => ret req | None => fail Panic end in
     let* now := Now in
     let* rs :=
       orReturn (NamedExecContext_insert_ng_word tx
                   {| ng_ID := 0;
                      ng_UserID := userID;
                      ng_LivestreamID := L;
                      ng_Word := mr_NGWord req;
                      ng_CreatedAt := Unix now |})
         (fun err => HTTPError StatusInternalServerError
                               ("failed to insert new NG word: " +:+ Error err)) in
     let tx := fst rs in
     let* wordID :=
       orReturn (rs_LastInsertId (snd rs))
         (fun err => HTTPError StatusInternalServerError
                               ("failed to get last inserted NG word id: " +:+ Error err)) in
     let* tx :=
       orReturn (ExecContext_delete_livecomments tx L (mr_NGWord req))
         (fun err => HTTPError StatusInternalServerError
                               ("failed to delete old livecomments that hit spams: "
                                +:+ Error err)) in
     let* _ :=
       orReturn (tx_Commit tx)
         (fun err => HTTPError StatusInternalServerError
                               ("failed to commit: " +:+ Error err)) in
     let* _ := Sleep (500 * Millisecond) in
     let* _ := ngWordsCache_Delete L in
     ret (JSON_WordID StatusCreated wordID))
    (log (EvGetLivestream L) (log (EvSQL BeginTxx) w)).
Proof.
  intros S P B D G. unfold moderateHandler.
  erewrite bind_ok by (eapply verifyUserSession_ok, S).
  erewrite bind_ok by (eapply livestream_id_param_ok, P).
  erewrite bind_ok by (eapply session_userID_ok, S).
  rewrite B.
  erewrite bind_ok by reflexivity.
  erewrite bind_ok by (erewrite orReturn_ok by (eapply dbConn_BeginTxx_ok, D); reflexivity).
  erewrite bind_ok
    by (erewrite orReturn_ok by (eapply getLivestream_ok, G); reflexivity).
  reflexivity.
Qed.

(** C10.  A moderation request of a user who does not own the livestream is
    answered with the 400 error, and nothing but the opening of the
    transaction and the livestream lookup has happened: no banned word is
    written, no comment deleted, no cache entry removed, no delay taken. *)
Theorem moderateHandler_not_owner
    (c : Context ModerateRequest) (w : World) (userID L : Z)
    (body : option ModerateRequest) (liveStream : LivestreamModel) :
  session_of c w userID ->
  Param_livestream_id c = Some L ->
  Decode c = inr body ->
  driver_fault BeginTxx = None ->
  getLivestream_query (dbConn w) L = inr liveStream ->
  lsm_UserID liveStream <> userID ->
  moderateHandler c w
  = (inl (HTTPError 400 "A streamer can't moderate livestreams that other streamers own"),
     log (EvGetLivestream L) (log (EvSQL BeginTxx) w))
  /\ dbConn (snd (moderateHandler c w)) = dbConn w
  /\ ngWordsCache (snd (moderateHandler c w)) = ngWordsCache w
  /\ clock (snd (moderateHandler c w)) = clock w
  /\ trace (snd (moderateHandler c w))
     = (trace w ++ [EvSQL BeginTxx; EvGetLivestream L])%list.
Proof.
  intros S P B D G N.
  rewrite (moderateHandler_prelude c w userID L body liveStream S P B D G).
  replace (lsm_UserID liveStream =? userID) with false
    by (symmetry; now apply Z.eqb_neq).
  cbn. rewrite <- app_assoc. now repeat split.
Qed.


(** ** Posting a comment *)

Lemma prefix_iff (p s : string) :
  String.prefix p s = true <-> exists post, s = p +:+ post.
Proof.
  revert s. induction p as [|a p IH]; intros s.
  - split; [intros _; now exists s|now destruct s].
  - destruct s as [|b s]; cbn.
    + split; [discriminate|intros [post E]; discriminate E].
    + destruct (Ascii.ascii_dec a b) as [->|N].
      * rewrite IH. split; intros [post E]; exists post.
        -- now rewrite E.
        -- now injection E.
      * split; [discriminate|]. intros [post E]. injection E as E1 E2. congruence.
Qed.

(** [strings.Contains] is exact containment: the bytes of [substr] occur in
    [s], one after the other, with nothing changed. *)
Lemma strings_Contains_iff (s substr : string) :
  strings_Contains s substr = true <-> exists pre post, s = pre +:+ substr +:+ post.
Proof.
  assert (U : forall s, strings_Contains s substr
                        = String.prefix substr s
                          || match s with
                             | EmptyString => false
                             | String _ s' => strings_Contains s' substr
                             end) by (now intros []).
  induction s as [|a s IH]; rewrite U, orb_true_iff, prefix_iff.
  - split.
    + intros [[post E]|F]; [|discriminate]. now exists "", post.
    + intros (pre & post & E). left. destruct pre; [now exists post|discriminate E].
  - rewrite IH. split.
    + intros [[post E]|(pre & post & E)].
      * now exists "", post.
      * exists (String a pre), post. cbn. now rewrite E.
    + intros (pre & post & E). destruct pre as [|b pre].
      * left. now exists post.
      * right. injection E as _ E. now exists pre, post.
Qed.

Lemma spam_check_rejects comment ws w :
  has_banned_word comment ws ->
  spam_check comment ws w = (inl (HTTPError StatusBadRequest spam_message), w).
Proof.
  intros (n & pre & post & I & E).
  induction ws as [|x ws IH]; [destruct I|]. cbn.
  destruct (strings_Contains comment (ng_Word x)) eqn:C; [reflexivity|].
  destruct I as [->|I]; [|now apply IH].
  assert (T : strings_Contains comment (ng_Word n) = true)
    by (apply strings_Contains_iff; eauto).
  congruence.
Qed.



Lemma postLivecommentHandler_prelude
    (c : Context PostLivecommentRequest) w userID L req liveStream :
  Decode c = inr (Some req) ->
  session_of c w userID ->
  Param_livestream_id c = Some L ->
  driver_fault BeginTxx = None ->
  getLivestream_query (dbConn w) L = inr liveStream ->
  postLivecommentHandler c w
  = (let* ngwords := consult (dbConn w) liveStream in
     let* _ := spam_check (Comment req) ngwords in
     accept (dbConn w) req userID L)
      (log (EvGetLivestream L) (log (EvSQL BeginTxx) w)).
Proof.
  intros B S P D G. unfold postLivecommentHandler. rewrite B.
  erewrite bind_ok by reflexivity.
  erewrite bind_ok by reflexivity.
  erewrite bind_ok by (eapply verifyUserSession_ok, S).
  erewrite bind_ok by (eapply livestream_id_param_ok, P).
  erewrite bind_ok by (eapply session_userID_ok, S).
  erewrite bind_ok by (erewrite orReturn_ok by (eapply dbConn_BeginTxx_ok, D); reflexivity).
  erewrite bind_ok
    by (erewrite orReturn_ok by (eapply getLivestream_ok, G); reflexivity).
  reflexivity.
Qed.

Lemma bind_orReturn_cases {A B} (m : M A) h (k : A -> M B) w
    (P : (error + B) * World -> Prop) :
  (forall e w', m w = (inl e, w') -> P (inl (h e), w')) ->
  (forall a w', m w = (inr a, w') -> P (k a w')) ->
  P (bind (orReturn m h) k w).
Proof.
  intros He Ha. unfold bind, orReturn.
  destruct (m w) as [[e|a] w']; [now apply He|now apply Ha].
Qed.

Lemma consult_ok tx livestreamModel w ws :
  consulted tx livestreamModel w ws ->
  exists w', consult tx livestreamModel w = (inr ws, w')
             /\ dbConn w' = dbConn w /\ clock w' = clock w.
Proof.
  unfold consult, bind at 1, ngWordsCache_Load, Map_Load. cbn.
  intros [E|[(E & D & ->)|(E & D & ->)]]; rewrite E.
  - eexists. repeat split; reflexivity.
  - erewrite bind_ok
      by (unfold try; rewrite (SelectContext_ng_words_ok _ _ _ D); reflexivity).
    eexists. repeat split; reflexivity.
  - erewrite bind_ok
      by (unfold try, SelectContext_ng_words;
          erewrite bind_err by (apply exec_err, D); reflexivity).
    eexists. repeat split; reflexivity.
Qed.

(** On a miss the list is looked up under the owner's user id and stored
    under the stream id. *)
Lemma consult_keys tx livestreamModel w :
  ngWordsCache w !! lsm_UserID livestreamModel = None ->
  driver_fault (SelectNGWords (lsm_ID livestreamModel)) = None ->
  trace (snd (consult tx livestreamModel w))
  = (trace w ++ [ EvNgLoad (lsm_UserID livestreamModel);
                  EvSQL (SelectNGWords (lsm_ID livestreamModel));
                  EvNgStore (lsm_ID livestreamModel)
                            (ng_words_of tx (lsm_ID livestreamModel)) ])%list
  /\ ngWordsCache (snd (consult tx livestreamModel w))
     = <[lsm_ID livestreamModel := ng_words_of tx (lsm_ID livestreamModel)]>
         (ngWordsCache w).
Proof.
  intros E D.
  unfold consult, bind at 1, ngWordsCache_Load, Map_Load. cbn. rewrite E.
  erewrite bind_ok
    by (unfold try; rewrite (SelectContext_ng_words_ok _ _ _ D); reflexivity).
  cbn. rewrite <- !app_assoc. now split.
Qed.

Lemma fillLivecommentResponse_fields tx m cached w lc w' :
  fillLivecommentResponse tx m cached w = (inr lc, w') ->
  lc_ID lc = lcm_ID m /\ lc_Comment lc = lcm_Comment m /\ lc_Tip lc = lcm_Tip m.
Proof.
  unfold fillLivecommentResponse, bind.
  destruct (getUserResponse _ _ _) as [[e|owner] w1]; [discriminate|].
  destruct cached as [lsm|].
  - cbn. destruct (fillLivestreamResponse _ _ _) as [[e|ls] w3]; [discriminate|].
    cbn. now intros [= <- _].
  - destruct (getLivestream _ _ _) as [[e|lsm] w2]; [discriminate|].
    destruct (fillLivestreamResponse _ _ _) as [[e|ls] w3]; [discriminate|].
    cbn. now intros [= <- _].
Qed.




End Properties.

(** * logger.go: the response writer of the access log *)

Section AccessLogProperties.
Import AccessLog.
Variable ResponseWriter_Write : list Call -> string -> Z * option error.
Variable is_Flusher : bool.

Local Abbreviation Write := (AccessLog.Write ResponseWriter_Write).
Local Abbreviation Flush := (AccessLog.Flush is_Flusher).
Local Abbreviation step := (AccessLog.step ResponseWriter_Write is_Flusher).
Local Abbreviation run := (AccessLog.run ResponseWriter_Write is_Flusher).

Lemma header_calls_app cs s z r :
  header_calls {| ResponseWriter := cs ++ [CallWriteHeader s]; resStatus := z; resSize := r |}
  = (header_calls {| ResponseWriter := cs; resStatus := z; resSize := r |} ++ [s])%list.
Proof. unfold header_calls. cbn. now rewrite omap_app. Qed.






Lemma run_app (ops1 ops2 : list Op) (w : writer) :
  run (ops1 ++ ops2) w = run ops2 (run ops1 w).
Proof. unfold AccessLog.run. apply fold_left_app. Qed.

Lemma step_size (op : Op) (w : writer) :
  match op with OpWrite _ => False | _ => True end ->
  resSize (step op w) = resSize w.
Proof.
  destruct op as [status|body|]; cbn; [|tauto|]; intros _.
  - unfold WriteHeader. now destruct (resStatus w =? 0).
  - unfold AccessLog.Flush, WriteHeader. destruct is_Flusher; [|reflexivity].
    now destruct (resStatus w =? 0).
Qed.

(** X17.  The size kept for the log line is what the last [Write]
    returned, not the sum over the writes: with a wrapped writer that
    takes every body whole, a response written in several pieces is logged
    with the length of its last piece. *)
Theorem size_is_the_last_write (ops : list Op) (w : writer) :
  (forall calls body,
      ResponseWriter_Write calls body = (Z.of_nat (String.length body), None)) ->
  resSize (run ops w)
  = match last_write ops with
    | Some body => Z.of_nat (String.length body)
    | None => resSize w
    end.
Proof.
  intros W. induction ops as [|op ops IH] using rev_ind; [reflexivity|].
  rewrite run_app. unfold last_write. rewrite omap_app. cbn [AccessLog.run fold_left].
  destruct op as [status|body|].
  - cbn [omap]. rewrite app_nil_r. rewrite step_size by exact I. exact IH.
  - cbn. rewrite last_snoc. unfold AccessLog.Write. cbn. now rewrite W.
  - cbn [omap]. rewrite app_nil_r. rewrite step_size by exact I. exact IH.
Qed.

End AccessLogProperties.

(** * toLowerIfASCII *)


(** * More properties *)

Section MoreProperties.
Context `{Collaborators}.

(** ** The credential cache, once more *)

Lemma string_app_assoc (a b c : string) : (a +:+ b) +:+ c = a +:+ b +:+ c.
Proof.
  induction a as [|x a IH]; [reflexivity|].
  change (String x ((a +:+ b) +:+ c) = String x (a +:+ b +:+ c)). now rewrite IH.
Qed.

Lemma bcryptCompairHandler_hit (h p : string) (b : bool) (w : World) :
  cache w !! (h +:+ ":" +:+ p) = Some b ->
  bcryptCompairHandler (inr {| Password := p; HashedPassword := h |}) w
  = ((if b then inr (NoContent 200)
      else inl (HTTPError 401 "invalid username or password")) : error + Response,
     log (EvCredLoad (h +:+ ":" +:+ p)) w).
Proof.
  intros E.
  unfold bcryptCompairHandler, bind, Bind, ret, cache_Load, Map_Load; cbn.
  rewrite E. now destruct b.
Qed.

Lemma bcryptCompairHandler_miss_match (h p : string) (w : World) :
  cache w !! (h +:+ ":" +:+ p) = None ->
  CompareHashAndPassword h p = None ->
  bcryptCompairHandler (inr {| Password := p; HashedPassword := h |}) w
  = (inr (NoContent 200),
     set_cache (Map_Store (h +:+ "-" +:+ p) true)
       (log (EvCredStore (h +:+ "-" +:+ p) true)
          (log (EvCompareHashAndPassword h p) (log (EvCredLoad (h +:+ ":" +:+ p)) w)))).
Proof.
  intros E C.
  unfold bcryptCompairHandler, bind, Bind, ret, cache_Load, Map_Load,
    bcrypt_CompareHashAndPassword; cbn.
  rewrite E. cbn. now rewrite C.
Qed.

Lemma bcryptCompairHandler_miss_mismatch (h p : string) (w : World) :
  cache w !! (h +:+ ":" +:+ p) = None ->
  CompareHashAndPassword h p = Some ErrMismatchedHashAndPassword ->
  bcryptCompairHandler (inr {| Password := p; HashedPassword := h |}) w
  = (inl (HTTPError 401 "invalid username or password"),
     set_cache (Map_Store (h +:+ "-" +:+ p) false)
       (log (EvCredStore (h +:+ "-" +:+ p) false)
          (log (EvCompareHashAndPassword h p) (log (EvCredLoad (h +:+ ":" +:+ p)) w)))).
Proof.
  intros E C.
  unfold bcryptCompairHandler, bind, Bind, ret, cache_Load, Map_Load,
    bcrypt_CompareHashAndPassword; cbn.
  rewrite E. cbn. rewrite C. now rewrite bool_decide_eq_true_2 by reflexivity.
Qed.

(** X1.  The outcome recorded for the pair (h, q:p) sits under the key that
    is looked up for the pair (h-q, p): once the first pair has been
    compared, a request for the second is answered from the cache, 200 after
    a match and 401 after a mismatch, and its own comparison is never run. *)
Theorem recorded_outcome_answers_another_pair (h q p : string) (w : World) :
  cache w !! (h +:+ ":" +:+ q +:+ ":" +:+ p) = None ->
  let first := inr {| Password := q +:+ ":" +:+ p; HashedPassword := h |} in
  let second := inr {| Password := p; HashedPassword := h +:+ "-" +:+ q |} in
  let w1 := snd (bcryptCompairHandler first w) in
  (CompareHashAndPassword h (q +:+ ":" +:+ p) = None ->
   bcryptCompairHandler second w1
   = (inr (NoContent 200), log (EvCredLoad ((h +:+ "-" +:+ q) +:+ ":" +:+ p)) w1))
  /\ (CompareHashAndPassword h (q +:+ ":" +:+ p) = Some ErrMismatchedHashAndPassword ->
      bcryptCompairHandler second w1
      = (inl (HTTPError 401 "invalid username or password"),
         log (EvCredLoad ((h +:+ "-" +:+ q) +:+ ":" +:+ p)) w1)).
Proof.
  intros E first second w1.
  assert (K : (h +:+ "-" +:+ q) +:+ ":" +:+ p = h +:+ "-" +:+ q +:+ ":" +:+ p)
    by now rewrite !string_app_assoc.
  split; intros C; subst w1 first second.
  - rewrite (bcryptCompairHandler_miss_match _ _ _ E C).
    rewrite (bcryptCompairHandler_hit _ _ true); [reflexivity|].
    cbn. unfold Map_Store. rewrite K. apply lookup_insert_eq.
  - rewrite (bcryptCompairHandler_miss_mismatch _ _ _ E C).
    rewrite (bcryptCompairHandler_hit _ _ false); [reflexivity|].
    cbn. unfold Map_Store. rewrite K. apply lookup_insert_eq.
Qed.

Lemma separator_free_cons a h :
  separator_free (String a h) = true ->
  String a EmptyString <> "-" /\ String a EmptyString <> ":" /\ separator_free h = true.
Proof.
  intros E.
  change (negb (String.eqb (String a EmptyString) "-")
          && negb (String.eqb (String a EmptyString) ":")
          && separator_free h = true) in E.
  rewrite !andb_true_iff, !negb_true_iff, !String.eqb_neq in E. tauto.
Qed.

(** With hashes free of separators, a stored key is never a looked-up one,
    whatever the two pairs. *)
Lemma stored_key_is_no_lookup_key (h p h' p' : string) :
  separator_free h = true -> separator_free h' = true ->
  h +:+ "-" +:+ p <> h' +:+ ":" +:+ p'.
Proof.
  revert h'. induction h as [|a h IH]; intros [|a' h'] F F'; cbn; intros E.
  - discriminate E.
  - apply separator_free_cons in F' as (N & _ & _). injection E as E _. congruence.
  - apply separator_free_cons in F as (_ & N & _). injection E as E _. congruence.
  - apply separator_free_cons in F as (_ & _ & F).
    apply separator_free_cons in F' as (_ & _ & F').
    injection E as _ E. now apply (IH h').
Qed.

Lemma stored_keys_only_miss m h p :
  stored_keys_only m -> separator_free h = true -> m !! (h +:+ ":" +:+ p) = None.
Proof.
  intros I F. destruct (m !! (h +:+ ":" +:+ p)) eqn:E; [|reflexivity].
  destruct (I (h +:+ ":" +:+ p)) as (h0 & p0 & F0 & K); [now rewrite E|].
  symmetry in K. now apply stored_key_is_no_lookup_key in K.
Qed.

Lemma stored_keys_only_insert m h p b :
  stored_keys_only m -> separator_free h = true ->
  stored_keys_only (<[h +:+ "-" +:+ p := b]> m).
Proof.
  intros I F k [v E]. destruct (decide (h +:+ "-" +:+ p = k)) as [<-|N].
  - now exists h, p.
  - rewrite lookup_insert_ne in E by exact N. apply I. now rewrite E.
Qed.

(** One request for a separator-free hash: the cache misses, the comparison
    runs, the answer is that of the handler without a cache. *)
Lemma bcryptCompairHandler_miss_step (c : error + PostBcryptCompairHandler) w w0 :
  stored_keys_only (cache w) ->
  match c with
  | inr req => separator_free (HashedPassword req) = true
  | inl _ => True
  end ->
  fst (bcryptCompairHandler c w) = fst (bcryptCompairHandler_uncached c w0)
  /\ stored_keys_only (cache (snd (bcryptCompairHandler c w)))
  /\ comparisons (trace (snd (bcryptCompairHandler c w)))
     = (comparisons (trace w) + match c with inr _ => 1 | inl _ => 0 end)%nat.
Proof.
  intros I F. destruct c as [e|[p h]]; cbn in F.
  { cbn. repeat split; [exact I|lia]. }
  unfold bcryptCompairHandler, bcryptCompairHandler_uncached, bind, Bind, ret,
    cache_Load, Map_Load, bcrypt_CompareHashAndPassword; cbn.
  rewrite (stored_keys_only_miss _ h p I F). cbn.
  assert (T : forall w1 : World,
             comparisons (trace (log (EvCompareHashAndPassword h p) (log (EvCredLoad (h +:+ ":" +:+ p)) w)))
             = (comparisons (trace w) + 1)%nat).
  { intros _. unfold comparisons. cbn. rewrite !List.filter_app, !length_app. cbn. lia. }
  destruct (CompareHashAndPassword h p) as [e|]; cbn.
  - case_bool_decide; cbn.
    + split; [reflexivity|]. split; [now apply stored_keys_only_insert|].
      unfold comparisons in *. cbn in *.
      rewrite !List.filter_app, !length_app in *. cbn in *. lia.
    + split; [reflexivity|]. split; [exact I|]. now apply T.
  - split; [reflexivity|]. split; [now apply stored_keys_only_insert|].
    unfold comparisons in *. cbn in *.
    rewrite !List.filter_app, !length_app in *. cbn in *. lia.
Qed.

Lemma serve_cons {Req R} (handler : Req -> M R) req rest w :
  serve handler (req :: rest) w
  = match serve handler rest (snd (handler req w)) with
    | (inr outcomes, w') => (inr (fst (handler req w) :: outcomes), w')
    | (inl e, w') => (inl e, w')
    end.
Proof.
  cbn [serve]. unfold bind, try. now destruct (handler req w).
Qed.

Lemma serve_bcrypt_agree (reqs : list (error + PostBcryptCompairHandler)) :
  Forall (fun c => match c with
                   | inr req => separator_free (HashedPassword req) = true
                   | inl _ => True
                   end) reqs ->
  forall w w0, stored_keys_only (cache w) ->
  exists outcomes w1 w2,
    serve bcryptCompairHandler reqs w = (inr outcomes, w1)
    /\ serve bcryptCompairHandler_uncached reqs w0 = (inr outcomes, w2)
    /\ comparisons (trace w1)
       = (comparisons (trace w)
          + length (List.filter (fun c => match c with inr _ => true | inl _ => false end)
                                reqs))%nat.
Proof.
  induction 1 as [|c reqs Fc F IH]; intros w w0 I.
  - exists [], w, w0. cbn. repeat split. lia.
  - destruct (bcryptCompairHandler_miss_step c w w0 I Fc) as (R & I1 & T1).
    destruct (IH (snd (bcryptCompairHandler c w)) (snd (bcryptCompairHandler_uncached c w0)) I1)
      as (outcomes & w1 & w2 & S1 & S2 & T).
    exists (fst (bcryptCompairHandler c w) :: outcomes), w1, w2.
    rewrite !serve_cons, S1, S2, R. repeat split.
    rewrite T, T1. destruct c; cbn; lia.
Qed.

(** X2.  Started on an empty cache and asked about hashes that have no "-"
    and no ":" in them, as the hashes bcrypt writes, the caching handler
    never finds an entry: it answers every request as the handler without a
    cache does, and runs the comparison for every request it can bind. *)
Theorem cache_is_never_hit_on_bcrypt_hashes
    (reqs : list (error + PostBcryptCompairHandler)) (w : World) :
  cache w = ∅ ->
  Forall (fun c => match c with
                   | inr req => separator_free (HashedPassword req) = true
                   | inl _ => True
                   end) reqs ->
  fst (serve bcryptCompairHandler reqs w) = fst (serve bcryptCompairHandler_uncached reqs w)
  /\ comparisons (trace (snd (serve bcryptCompairHandler reqs w)))
     = (comparisons (trace w)
        + length (List.filter (fun c => match c with inr _ => true | inl _ => false end) reqs))%nat.
Proof.
  intros E F.
  assert (I : stored_keys_only (cache w)).
  { rewrite E. intros k [v K]. now rewrite lookup_empty in K. }
  destruct (serve_bcrypt_agree reqs F w w I) as (outcomes & w1 & w2 & S1 & S2 & T).
  rewrite S1, S2. now split.
Qed.

(** ** The profile cache, once more *)

Lemma profile_of_source_id tx fs id u :
  profile_of_source tx fs id = Some u -> User_ID u = id.
Proof.
  unfold profile_of_source.
  destruct (List.find _ (users tx)) as [row|] eqn:R; [|discriminate].
  apply found_user_id in R.
  destruct (List.find _ (themes tx)); [|discriminate].
  destruct (match um_IconHash row with Some h => _ | None => _ end); [|discriminate].
  now intros [= <-].
Qed.

(** What a call that finds no fresh entry does: it fails and leaves the
    world as it was but for the trace, or it succeeds and stores the
    profile of the source under the id, stamped with the instant. *)
Lemma getUserResponse_miss_cases tx id w :
  (forall c, ~ fresh_entry w id c) ->
  (exists e w', getUserResponse tx id w = (inl e, w') /\ only_logs w w')
  \/ (exists u w1,
        getUserResponse tx id w
        = (inr u, set_userCache (Map_Store id {| user := u; fetchedAt := clock w |})
                    (log (EvUserStore id {| user := u; fetchedAt := clock w |}) w1))
        /\ only_logs w w1
        /\ profile_of_source tx (files w) id = Some u).
Proof.
  intros N. rewrite (getUserResponse_miss _ _ _ N).
  destruct (GetContext_users tx id (log (EvUserLoad id) w)) as [[e|row] w1] eqn:G.
  { left. exists e, w1. split; [now apply rebuild_row_error|].
    apply GetContext_users_logs in G as ->.
    eapply only_logs_trans; apply only_logs_log. }
  destruct (fillUserResponse tx row w1) as [[e|u] w2] eqn:F.
  { left. exists e, w2. split; [eapply rebuild_fill_error; eassumption|].
    pose proof (GetContext_users_logs _ _ _ _ _ G) as ->.
    eapply only_logs_trans; [apply only_logs_log|].
    eapply only_logs_trans; [apply only_logs_log|].
    eapply fillUserResponse_only_logs, F. }
  right. exists u, w2. split; [now apply (rebuild_ok _ _ _ _ row w1)|].
  pose proof (GetContext_users_logs _ _ _ _ _ G) as ->.
  split.
  - eapply only_logs_trans; [apply only_logs_log|].
    eapply only_logs_trans; [apply only_logs_log|].
    eapply fillUserResponse_only_logs, F.
  - apply GetContext_users_found in G.
    exact (fillUserResponse_sound _ _ _ _ _ _ G F).
Qed.

(** X3.  [getUserResponse] touches one thing besides the trace: the entry
    of the user it is asked about.  The other entries of the profile cache,
    the other two caches, the database, the files and the clock are as they
    were. *)
Theorem getUserResponse_touches_one_entry (tx : DB) (id : Z) (w : World) :
  let w' := snd (getUserResponse tx id w) in
  cache w' = cache w /\ ngWordsCache w' = ngWordsCache w /\ dbConn w' = dbConn w
  /\ files w' = files w /\ clock w' = clock w
  /\ (forall j, j <> id -> userCache w' !! j = userCache w !! j)
  /\ exists evs, trace w' = (trace w ++ evs)%list.
Proof.
  cbv zeta.
  destruct (fresh_or_not w id) as [[c F]|N].
  { rewrite (getUserResponse_hit _ _ _ _ F). cbn. repeat split. now exists [EvUserLoad id]. }
  destruct (getUserResponse_miss_cases tx id w N)
    as [(e & w' & -> & L)|(u & w1 & -> & L & _)]; cbn [snd];
    destruct L as (L1 & L2 & L3 & L4 & L5 & L6 & evs & L7).
  - repeat split; try assumption; [intros; now rewrite L2|now exists evs].
  - cbn. repeat split; try assumption.
    + intros j J. unfold Map_Store. rewrite lookup_insert_ne by congruence. now rewrite L2.
    + exists (evs ++ [EvUserStore id {| user := u; fetchedAt := clock w |}])%list.
      now rewrite L7, app_assoc.
Qed.

(** X4.  When every entry of the profile cache sits under the id of its
    user, it is so after [getUserResponse] too, and the profile returned is
    the one of the id asked for. *)
Theorem getUserResponse_keeps_keys (tx : DB) (id : Z) (w : World) :
  userCache_keyed w ->
  userCache_keyed (snd (getUserResponse tx id w))
  /\ forall u, fst (getUserResponse tx id w) = inr u -> User_ID u = id.
Proof.
  intros K.
  destruct (fresh_or_not w id) as [[c F]|N].
  { rewrite (getUserResponse_hit _ _ _ _ F). cbn. split; [exact K|].
    intros u [= <-]. destruct F as [E _]. now apply (K id c). }
  destruct (getUserResponse_miss_cases tx id w N)
    as [(e & w' & -> & L)|(u & w1 & -> & L & P)]; cbn [fst snd].
  - destruct L as (_ & L2 & _). split; [|discriminate].
    intros k c. rewrite L2. apply K.
  - destruct L as (_ & L2 & _). apply profile_of_source_id in P. split.
    + intros k c. cbn. unfold Map_Store. rewrite L2.
      destruct (decide (id = k)) as [<-|J].
      * rewrite lookup_insert_eq. now intros [= <-].
      * rewrite lookup_insert_ne by exact J. apply K.
    + now intros u' [= <-].
Qed.

(** X5.  A profile that [getUserResponse] has just rebuilt at instant [t] is
    what it returns, with no query, at every instant before [t] + 1.3 s,
    whatever the database has become; from [t] + 1.3 s on it queries the
    source again. *)
Theorem rebuilt_profile_is_served_for_ttl (tx : DB) (id : Z) (w : World) (u : User) :
  (forall c, userCache w !! id = Some c -> 1300 * Millisecond <= clock w - fetchedAt c) ->
  fst (getUserResponse tx id w) = inr u ->
  forall tx2 w2,
    userCache w2 !! id = userCache (snd (getUserResponse tx id w)) !! id ->
    (clock w2 - clock w < 1300 * Millisecond ->
     getUserResponse tx2 id w2 = (inr u, log (EvUserLoad id) w2))
    /\ (1300 * Millisecond <= clock w2 - clock w ->
        exists rest,
          trace (snd (getUserResponse tx2 id w2))
          = (trace w2 ++ EvUserLoad id :: EvSQL (SelectUserByID id) :: rest)%list).
Proof.
  intros S R tx2 w2 E.
  pose proof (stale_is_not_fresh _ _ S) as N.
  destruct (getUserResponse_miss_cases tx id w N)
    as [(e & w' & Q & _)|(u' & w1 & Q & _ & _)]; rewrite Q in R, E; cbn in R, E;
    [discriminate|].
  injection R as ->. unfold Map_Store in E. rewrite lookup_insert_eq in E.
  split.
  - intros T.
    now rewrite (getUserResponse_hit tx2 id w2 {| user := u; fetchedAt := clock w |}).
  - intros T.
    assert (N2 : forall c, ~ fresh_entry w2 id c).
    { intros c [E2 F]. rewrite E in E2. injection E2 as <-. unfold TTL in F. cbn in F. lia. }
    rewrite (getUserResponse_miss _ _ _ N2).
    destruct (rebuild_consults_source tx2 id (clock w2) (log (EvUserLoad id) w2)) as [rest T2].
    exists rest. rewrite T2. cbn. now rewrite <- app_assoc.
Qed.

(** X6.  A user with no stored icon hash and no icon file gets the
    fingerprint of the fallback image, and when the fallback image cannot
    be read either, the assembly still succeeds: the read error is dropped
    and the fingerprint is that of the empty image. *)
Theorem fillUserResponse_unreadable_fallback
    (tx : DB) (model : UserModel) (theme : ThemeModel) (w : World) :
  driver_fault (SelectThemeByUserID (um_ID model)) = None ->
  List.find (fun t => tm_UserID t =? um_ID model) (themes tx) = Some theme ->
  um_IconHash model = None ->
  files w (IconFile (um_ID model)) = Absent ->
  (forall image, files w fallbackImage <> File image) ->
  fst (fillUserResponse tx model w)
  = inr {| User_ID := um_ID model;
           User_Name := um_Name model;
           User_DisplayName := um_DisplayName model;
           User_Description := um_Description model;
           User_Theme := {| Theme_ID := tm_ID theme; Theme_DarkMode := tm_DarkMode theme |};
           User_IconHash := sha256_hex "" |}.
Proof.
  intros D T I A F.
  unfold fillUserResponse, GetContext_themes.
  erewrite bind_ok
    by (erewrite bind_ok by (apply exec_ok, D); rewrite T; reflexivity).
  rewrite I.
  unfold bind, try, os_Stat, os_ReadFile, emit, get; cbn.
  rewrite A. cbn. rewrite IsNotExist_ErrNotExist. cbn.
  destruct (files w fallbackImage) as [|image|msg|msg] eqn:Q; cbn; try reflexivity.
  now destruct (F image).
Qed.

(** X7.  For a user whose icon hash is stored in the row, the assembly
    never looks at the icon directory: its one effect is the theme query,
    and the hash of the profile is the stored one. *)
Theorem fillUserResponse_stored_hash (tx : DB) (model : UserModel) (h : string) (w : World) :
  um_IconHash model = Some h ->
  snd (fillUserResponse tx model w) = log (EvSQL (SelectThemeByUserID (um_ID model))) w
  /\ forall u, fst (fillUserResponse tx model w) = inr u -> User_IconHash u = h.
Proof.
  intros I. unfold fillUserResponse.
  destruct (GetContext_themes tx (um_ID model) w) as [[e|theme] w1] eqn:G;
    pose proof (GetContext_themes_logs _ _ _ _ _ G) as ->.
  { erewrite bind_err by exact G. split; [reflexivity|discriminate]. }
  erewrite bind_ok by exact G.
  rewrite I. cbn. split; [reflexivity|]. now intros u [= <-].
Qed.

(** ** Sessions, once more *)

Lemma verifyUserSession_world {B} (c : Context B) w :
  snd (verifyUserSession c w) = w.
Proof.
  unfold verifyUserSession.
  destruct (session_Get c) as [e|[[expires|] [userID|]]]; try reflexivity.
  unfold bind, Now; cbn. now destruct (Unix (clock w) >? expires).
Qed.

Lemma verifyUserSession_ok_inv {B} (c : Context B) w :
  fst (verifyUserSession c w) = inr tt -> exists userID, session_of c w userID.
Proof.
  unfold verifyUserSession.
  destruct (session_Get c) as [e|[[expires|] [userID|]]] eqn:E; try discriminate.
  unfold bind, Now; cbn. destruct (Unix (clock w) >? expires) eqn:X; [discriminate|].
  intros _. exists userID, expires. split; [exact E|].
  rewrite Z.gtb_ltb in X. now apply Z.ltb_ge in X.
Qed.


(** X9.  What the handlers note as "existence already checked": once
    [verifyUserSession] has passed, reading the user id off the session
    does not panic, in whatever state it is read. *)
Theorem session_userID_after_verification {B} (c : Context B) (w : World) :
  fst (verifyUserSession c w) = inr tt ->
  exists userID, forall w2, session_userID c w2 = (inr userID, w2).
Proof.
  intros V. apply verifyUserSession_ok_inv in V as (userID & expires & E & _).
  exists userID. intros w2. unfold session_userID. now rewrite E.
Qed.

(** X10.  [getMeHandler] answers 404, "not found user", for a user whose
    row is there and whose theme row is missing: the [sql.ErrNoRows] of the
    theme query is taken for that of the user query. *)
Theorem getMeHandler_missing_theme {B} (c : Context B) (w : World) (userID : Z)
    (row : UserModel) :
  session_of c w userID ->
  driver_fault BeginTxx = None ->
  driver_fault (SelectUserByID userID) = None ->
  driver_fault (SelectThemeByUserID userID) = None ->
  (forall c0, userCache w !! userID = Some c0 -> 1300 * Millisecond <= clock w - fetchedAt c0) ->
  List.find (fun u => um_ID u =? userID) (users (dbConn w)) = Some row ->
  List.find (fun t => tm_UserID t =? userID) (themes (dbConn w)) = None ->
  fst (getMeHandler c w)
  = inl (HTTPError 404 "not found user that has the userid in session")
  /\ userCache (snd (getMeHandler c w)) = userCache w.
Proof.
  intros S D0 D1 D2 St R T.
  pose proof (found_user_id _ _ _ R) as Hid.
  unfold getMeHandler.
  erewrite bind_ok by (eapply verifyUserSession_ok, S).
  erewrite bind_ok by (eapply session_userID_ok, S).
  erewrite bind_ok by (erewrite orReturn_ok by (eapply dbConn_BeginTxx_ok, D0); reflexivity).
  assert (N : forall c0, ~ fresh_entry (log (EvSQL BeginTxx) w) userID c0).
  { intros c0 [E F]. cbn in E, F. specialize (St c0 E). unfold TTL in F. lia. }
  set (w0 := log (EvSQL BeginTxx) w) in *.
  assert (G : GetContext_users (dbConn w) userID (log (EvUserLoad userID) w0)
              = (inr row, log (EvSQL (SelectUserByID userID)) (log (EvUserLoad userID) w0))).
  { unfold GetContext_users. erewrite bind_ok by (apply exec_ok, D1). now rewrite R. }
  assert (F : fillUserResponse (dbConn w) row
                (log (EvSQL (SelectUserByID userID)) (log (EvUserLoad userID) w0))
              = (inl ErrNoRows,
                 log (EvSQL (SelectThemeByUserID userID))
                   (log (EvSQL (SelectUserByID userID)) (log (EvUserLoad userID) w0)))).
  { unfold fillUserResponse, GetContext_themes. rewrite Hid.
    erewrite bind_err; [reflexivity|].
    erewrite bind_ok by (apply exec_ok, D2). now rewrite T. }
  erewrite bind_ok
    by (unfold try; rewrite (getUserResponse_miss _ _ _ N);
        erewrite rebuild_fill_error by eassumption; reflexivity).
  now split.
Qed.

(** ** Moderation, once more *)

Lemma always_logs_ret {A} (a : A) : always_logs (ret a).
Proof. intros w. apply only_logs_refl. Qed.

Lemma always_logs_fail {A} (e : error) : always_logs (@fail A e).
Proof. intros w. apply only_logs_refl. Qed.

Lemma always_logs_bind {A B} (m : M A) (k : A -> M B) :
  always_logs m -> (forall a, always_logs (k a)) -> always_logs (bind m k).
Proof.
  intros Hm Hk w. unfold bind. specialize (Hm w).
  destruct (m w) as [[e|a] w1]; cbn in *; [exact Hm|].
  eapply only_logs_trans; [exact Hm|apply Hk].
Qed.

Lemma always_logs_orReturn {A} (m : M A) h : always_logs m -> always_logs (orReturn m h).
Proof.
  intros Hm w. unfold orReturn. specialize (Hm w). now destruct (m w) as [[e|a] w1].
Qed.

Lemma always_logs_exec s : always_logs (exec s).
Proof.
  intros w. destruct (exec s w) as [r w1] eqn:E.
  apply exec_only_logs in E as ->. apply only_logs_log.
Qed.

Lemma always_logs_verifyUserSession {B} (c : Context B) : always_logs (verifyUserSession c).
Proof. intros w. rewrite verifyUserSession_world. apply only_logs_refl. Qed.

Lemma always_logs_session_userID {B} (c : Context B) : always_logs (session_userID c).
Proof.
  intros w. unfold session_userID.
  destruct (session_Get c) as [e|[x [y|]]]; apply only_logs_refl.
Qed.

Lemma always_logs_livestream_id_param {B} (c : Context B) :
  always_logs (livestream_id_param c).
Proof.
  intros w. unfold livestream_id_param.
  destruct (Param_livestream_id c); apply only_logs_refl.
Qed.

Lemma always_logs_BeginTxx : always_logs dbConn_BeginTxx.
Proof.
  apply always_logs_bind; [apply always_logs_exec|]. intros [].
  apply always_logs_bind; [intros w; apply only_logs_refl|]. intros w0.
  apply always_logs_ret.
Qed.

Lemma always_logs_getLivestream tx id : always_logs (getLivestream tx id).
Proof.
  intros w. unfold getLivestream, bind, emit. cbn.
  destruct (getLivestream_query tx id); apply only_logs_log.
Qed.

Lemma logs_when_failing_bind {A B} (m : M A) (k : A -> M B) :
  always_logs m -> (forall a, logs_when_failing (k a)) -> logs_when_failing (bind m k).
Proof.
  intros Hm Hk w e. unfold bind. specialize (Hm w).
  destruct (m w) as [[e0|a] w1]; cbn in *; [intros _; exact Hm|].
  intros F. eapply only_logs_trans; [exact Hm|now apply (Hk a w1 e)].
Qed.

Lemma logs_when_failing_always {A} (m : M A) : always_logs m -> logs_when_failing m.
Proof. intros Hm w e _. apply Hm. Qed.

(** X11.  [moderateHandler] is all or nothing: whenever it returns an
    error, whichever step failed, the database, the word cache and the
    clock are as they were, so no word is kept, no comment lost, no entry
    removed and no delay taken. *)
Theorem moderateHandler_all_or_nothing
    (c : Context ModerateRequest) (w : World) (e : error) :
  fst (moderateHandler c w) = inl e ->
  dbConn (snd (moderateHandler c w)) = dbConn w
  /\ ngWordsCache (snd (moderateHandler c w)) = ngWordsCache w
  /\ clock (snd (moderateHandler c w)) = clock w.
Proof.
  assert (P : logs_when_failing (moderateHandler c)).
  { unfold moderateHandler.
    apply logs_when_failing_bind; [apply always_logs_verifyUserSession|intros []].
    apply logs_when_failing_bind; [apply always_logs_livestream_id_param|intros livestreamID].
    apply logs_when_failing_bind; [apply always_logs_session_userID|intros userID].
    apply logs_when_failing_bind.
    { destruct (Decode c); [apply always_logs_fail|apply always_logs_ret]. }
    intros body.
    apply logs_when_failing_bind;
      [apply always_logs_orReturn, always_logs_BeginTxx|intros tx].
    apply logs_when_failing_bind;
      [apply always_logs_orReturn, always_logs_getLivestream|intros livestreamModel].
    destruct (negb _); [apply logs_when_failing_always, always_logs_fail|].
    apply logs_when_failing_bind.
    { destruct body; [apply always_logs_ret|apply always_logs_fail]. }
    intros req.
    apply logs_when_failing_bind; [intros w0; apply only_logs_refl|intros now].
    apply logs_when_failing_bind.
    { apply always_logs_orReturn, always_logs_bind; [apply always_logs_exec|].
      intros []. apply always_logs_ret. }
    intros rs.
    apply logs_when_failing_bind.
    { apply always_logs_orReturn, always_logs_bind; [apply always_logs_exec|].
      intros []. apply always_logs_ret. }
    intros wordID.
    apply logs_when_failing_bind.
    { apply always_logs_orReturn, always_logs_bind; [apply always_logs_exec|].
      intros []. apply always_logs_ret. }
    intros tx2.
    (* the commit: past it nothing fails *)
    intros w0 e0.
    destruct (driver_fault Commit) as [e1|] eqn:X.
    - erewrite bind_err
        by (erewrite orReturn_err
              by (unfold tx_Commit; erewrite bind_err by (apply exec_err, X); reflexivity);
            reflexivity).
      intros _. apply only_logs_log.
    - erewrite bind_ok by (erewrite orReturn_ok by (apply tx_Commit_ok, X); reflexivity).
      cbn. discriminate. }
  intros F. destruct (P w e F) as (_ & _ & A & B & _ & C & _). now repeat split.
Qed.

(** X12.  Nothing keeps the empty string out of the word list, and the
    empty string is inside every comment: once the list consulted for a
    stream has an empty word, every comment on the stream is rejected as
    spam, the empty comment too. *)
Theorem empty_ng_word_rejects_every_comment
    (c : Context PostLivecommentRequest) (w : World) (userID L : Z)
    (req : PostLivecommentRequest) (liveStream : LivestreamModel)
    (ws : list NGWord) (n : NGWord) :
  Decode c = inr (Some req) ->
  session_of c w userID ->
  Param_livestream_id c = Some L ->
  driver_fault BeginTxx = None ->
  getLivestream_query (dbConn w) L = inr liveStream ->
  consulted (dbConn w) liveStream w ws ->
  In n ws ->
  ng_Word n = "" ->
  fst (postLivecommentHandler c w) = inl (HTTPError 400 spam_message)
  /\ dbConn (snd (postLivecommentHandler c w)) = dbConn w.
Proof.
  intros B S P D G Q I E.
  rewrite (postLivecommentHandler_prelude c w userID L req liveStream B S P D G).
  destruct (consult_ok (dbConn w) liveStream
              (log (EvGetLivestream L) (log (EvSQL BeginTxx) w)) ws Q)
    as (w1 & C & K & _).
  erewrite bind_ok by exact C.
  erewrite bind_err; [split; [reflexivity|exact K]|].
  apply spam_check_rejects. exists n, "", (Comment req). split; [exact I|].
  now rewrite E.
Qed.

(** X13.  When the cache has no entry for the owner's stream and the
    SELECT fails, [getNgwords] stores nothing: it answers 200 with the empty
    list if the error is [sql.ErrNoRows] and 500 otherwise, and the next
    listing asks the database again. *)
Theorem getNgwords_failed_select_is_not_cached
    (c : Context unit) (w : World) (userID L : Z) (liveStream : LivestreamModel)
    (e : error) :
  session_of c w userID ->
  Param_livestream_id c = Some L ->
  getLivestream_query (dbConn w) L = inr liveStream ->
  lsm_UserID liveStream = userID ->
  ngWordsCache w !! L = None ->
  driver_fault (SelectNGWords L) = Some e ->
  fst (getNgwords c w)
  = (if errors_Is e ErrNoRows then inr (JSON_NGWords 200 [])
     else inl (HTTPError 500 ("failed to get NG words: " +:+ Error e)))
  /\ ngWordsCache (snd (getNgwords c w)) = ngWordsCache w
  /\ trace (snd (getNgwords c w))
     = (trace w ++ [EvGetLivestream L; EvNgLoad L; EvSQL (SelectNGWords L)])%list.
Proof.
  intros S P G O E D.
  rewrite (getNgwords_prelude c w userID L S P), G.
  replace (lsm_UserID liveStream =? userID) with true by (symmetry; now apply Z.eqb_eq).
  cbn [negb]. rewrite E.
  erewrite bind_ok
    by (unfold try, SelectContext_ng_words;
        erewrite bind_err by (apply exec_err, D); reflexivity).
  cbn. destruct (errors_Is e ErrNoRows); cbn; rewrite <- !app_assoc; now repeat split.
Qed.

End MoreProperties.

(** ** Listing the comments of a stream *)

Section ListingProperties.
Context `{Collaborators} `{QueryDriver}.

Lemma insert_newest_perm {A} (created_at : A -> Z) x l :
  Permutation (x :: l) (insert_newest created_at x l).
Proof.
  induction l as [|y l IH]; cbn; [reflexivity|].
  destruct (created_at y <=? created_at x); [reflexivity|].
  rewrite <- IH. apply perm_swap.
Qed.

Lemma insert_newest_sorted {A} (created_at : A -> Z) x l :
  StronglySorted (fun a b => created_at b <= created_at a) l ->
  StronglySorted (fun a b => created_at b <= created_at a) (insert_newest created_at x l).
Proof.
  induction 1 as [|y l S IH F]; cbn.
  - repeat constructor.
  - destruct (created_at y <=? created_at x) eqn:E.
    + apply Z.leb_le in E. constructor; [now constructor|].
      constructor; [exact E|].
      eapply Forall_impl; [exact F|]. cbn. intros z Hz. lia.
    + apply Z.leb_gt in E. constructor; [exact IH|].
      rewrite <- insert_newest_perm. constructor; [lia|exact F].
Qed.

Lemma newest_first_perm {A} (created_at : A -> Z) l :
  Permutation l (newest_first created_at l).
Proof.
  induction l as [|x l IH]; cbn; [reflexivity|].
  rewrite <- insert_newest_perm. now constructor.
Qed.

Lemma newest_first_sorted {A} (created_at : A -> Z) l :
  StronglySorted (fun a b => created_at b <= created_at a) (newest_first created_at l).
Proof.
  induction l as [|x l IH]; cbn; [constructor|]. now apply insert_newest_sorted.
Qed.

Lemma firstn_subset {A} (x : A) n l : In x (firstn n l) -> In x l.
Proof.
  revert n. induction l as [|y l IH]; intros [|n]; cbn; try tauto.
  intros [->|I]; [now left|right; now apply (IH n)].
Qed.

Lemma StronglySorted_firstn {A} (R : A -> A -> Prop) n l :
  StronglySorted R l -> StronglySorted R (firstn n l).
Proof.
  intros S. revert n. induction S as [|x l S IH F]; intros [|n]; cbn; try constructor.
  - apply IH.
  - apply List.Forall_forall. intros y I. apply firstn_subset in I.
    revert y I. now apply List.Forall_forall.
Qed.

(** The rows the listing reads: comments of the stream, newest first, and
    no more of them than the limit allows. *)
Lemma livecomments_of_spec tx L limit :
  StronglySorted (fun a b => lcm_CreatedAt b <= lcm_CreatedAt a) (livecomments_of tx L limit)
  /\ (forall m, In m (livecomments_of tx L limit) ->
               In m (livecomments tx) /\ lcm_LivestreamID m = L)
  /\ (forall n, limit = Some n -> 0 <= n -> Z.of_nat (length (livecomments_of tx L limit)) <= n)
  /\ (limit = None ->
      Permutation (List.filter (fun m => lcm_LivestreamID m =? L) (livecomments tx))
                  (livecomments_of tx L limit)).
Proof.
  unfold livecomments_of.
  set (rows := newest_first lcm_CreatedAt _).
  assert (S : StronglySorted (fun a b => lcm_CreatedAt b <= lcm_CreatedAt a) rows)
    by apply newest_first_sorted.
  assert (I : forall m, In m rows -> In m (livecomments tx) /\ lcm_LivestreamID m = L).
  { intros m. subst rows. rewrite <- !list_elem_of_In.
    rewrite <- (newest_first_perm _ _).
    rewrite !list_elem_of_In, filter_In, Z.eqb_eq. tauto. }
  split; [|split; [|split]].
  - destruct limit; [now apply StronglySorted_firstn|exact S].
  - intros m. destruct limit; [|apply I]. intros Q. apply firstn_subset in Q. now apply I.
  - intros n -> N. rewrite length_firstn. lia.
  - intros ->. apply newest_first_perm.
Qed.

Lemma fill_livecomments_shape tx ms ls w lcs w' :
  fill_livecomments tx ms ls w = (inr lcs, w') ->
  List.map lc_ID lcs = List.map lcm_ID ms
  /\ List.map lc_Comment lcs = List.map lcm_Comment ms
  /\ List.map lc_Tip lcs = List.map lcm_Tip ms.
Proof.
  revert w lcs w'. induction ms as [|m ms IH]; intros w lcs w'; cbn [fill_livecomments].
  - intros [= <- _]. now repeat split.
  - apply bind_orReturn_cases; [discriminate|]. intros lc w1 F.
    apply fillLivecommentResponse_fields in F as (F1 & F2 & F3).
    unfold bind.
    destruct (fill_livecomments tx ms ls w1) as [[e|rest] w2] eqn:R; [discriminate|].
    destruct (IH _ _ _ R) as (I1 & I2 & I3).
    cbn. intros [= <- _]. cbn. now rewrite F1, F2, F3, I1, I2, I3.
Qed.

(** The handler up to its query, for a session that passes and a limit
    that is absent or an integer. *)
Lemma getLivecommentsHandler_prelude (c : Context unit) w userID L limit :
  session_of c w userID ->
  Param_livestream_id c = Some L ->
  getLivecommentsHandler c (option_map Some limit) w
  = bind (try (SelectContext_livecomments (dbConn w) L limit))
      (fun r =>
         match r with
         | inl err =>
             if errors_Is err ErrNoRows then ret (JSON_Livecomments StatusOK [])
             else NewHTTPError StatusInternalServerError
                               ("failed to get livecomments: " +:+ Error err)
         | inr livecommentModels =>
             let* livestreamModel :=
               orReturn (getLivestream (dbConn w) L)
                 (fun err => HTTPError StatusInternalServerError
                                       ("failed to get livestream: " +:+ Error err)) in
             let* livecomments :=
               fill_livecomments (dbConn w) livecommentModels livestreamModel in
             ret (JSON_Livecomments StatusOK livecomments)
         end) w.
Proof.
  intros S P. unfold getLivecommentsHandler.
  erewrite bind_ok by (eapply verifyUserSession_ok, S).
  erewrite bind_ok by (eapply livestream_id_param_ok, P).
  erewrite bind_ok by reflexivity.
  erewrite bind_ok by (destruct limit; reflexivity).
  reflexivity.
Qed.

Lemma SelectContext_livecomments_ok tx L limit w :
  query_fault (SelectLivecomments L limit) = None ->
  (forall n, limit = Some n -> 0 <= n) ->
  SelectContext_livecomments tx L limit w = (inr (livecomments_of tx L limit), w).
Proof.
  intros Q N. unfold SelectContext_livecomments. rewrite Q.
  destruct limit as [n|]; [|reflexivity].
  specialize (N n eq_refl). destruct (n <? 0) eqn:X; [|reflexivity].
  apply Z.ltb_lt in X. lia.
Qed.

(** X14.  For a livestream that [getLivestream] does not find, each handler
    has an answer of its own: the word listing 200 with the empty list, the
    comment post 404, the moderation 500 and the comment listing 500, the
    last even though the stream has no comment to list. *)
Theorem missing_livestream_four_answers
    (w : World) (userID L : Z)
    (cn : Context unit) (cp : Context PostLivecommentRequest) (cm : Context ModerateRequest)
    (req : PostLivecommentRequest) (body : option ModerateRequest) :
  session_of cn w userID -> session_of cp w userID -> session_of cm w userID ->
  Param_livestream_id cn = Some L ->
  Param_livestream_id cp = Some L ->
  Param_livestream_id cm = Some L ->
  Decode cp = inr (Some req) ->
  Decode cm = inr body ->
  driver_fault BeginTxx = None ->
  query_fault (SelectLivecomments L None) = None ->
  getLivestream_query (dbConn w) L = inl ErrNoRows ->
  fst (getNgwords cn w) = inr (JSON_NGWords 200 [])
  /\ fst (postLivecommentHandler cp w) = inl (HTTPError 404 "livestream not found")
  /\ fst (moderateHandler cm w)
     = inl (HTTPError 500 "failed to get livestreams: sql: no rows in result set")
  /\ fst (getLivecommentsHandler cn None w)
     = inl (HTTPError 500 "failed to get livestream: sql: no rows in result set").
Proof.
  intros Sn Sp Sm Pn Pp Pm Dp Dm B Q G.
  split; [|split; [|split]].
  - rewrite (getNgwords_prelude cn w userID L Sn Pn), G. reflexivity.
  - unfold postLivecommentHandler. rewrite Dp.
    erewrite bind_ok by reflexivity.
    erewrite bind_ok by reflexivity.
    erewrite bind_ok by (eapply verifyUserSession_ok, Sp).
    erewrite bind_ok by (eapply livestream_id_param_ok, Pp).
    erewrite bind_ok by (eapply session_userID_ok, Sp).
    erewrite bind_ok by (erewrite orReturn_ok by (eapply dbConn_BeginTxx_ok, B); reflexivity).
    erewrite bind_err by (erewrite orReturn_err by (eapply getLivestream_err, G); reflexivity).
    reflexivity.
  - unfold moderateHandler.
    erewrite bind_ok by (eapply verifyUserSession_ok, Sm).
    erewrite bind_ok by (eapply livestream_id_param_ok, Pm).
    erewrite bind_ok by (eapply session_userID_ok, Sm).
    rewrite Dm.
    erewrite bind_ok by reflexivity.
    erewrite bind_ok by (erewrite orReturn_ok by (eapply dbConn_BeginTxx_ok, B); reflexivity).
    erewrite bind_err by (erewrite orReturn_err by (eapply getLivestream_err, G); reflexivity).
    reflexivity.
  - change (@None (option Z)) with (option_map (@Some Z) None).
    rewrite (getLivecommentsHandler_prelude cn w userID L None Sn Pn).
    erewrite bind_ok
      by (unfold try; rewrite SelectContext_livecomments_ok by (exact Q || discriminate);
          reflexivity).
    cbn iota.
    erewrite bind_err by (erewrite orReturn_err by (eapply getLivestream_err, G); reflexivity).
    reflexivity.
Qed.

(** X15.  When [getLivecommentsHandler] answers 200 for a session that
    passes, the comments of the reply are, one for one and in order, the
    rows it read (or the reply is empty because the driver reported
    [sql.ErrNoRows]): comments of that stream only, the newest first, at
    most [limit] of them, each with the id, the text and the tip of its
    row. *)
Theorem getLivecommentsHandler_lists_the_rows
    (c : Context unit) (w : World) (userID L : Z) (limit : option Z)
    (reply : list Livecomment) :
  session_of c w userID ->
  Param_livestream_id c = Some L ->
  fst (getLivecommentsHandler c (option_map Some limit) w)
  = inr (JSON_Livecomments 200 reply) ->
  let rows := livecomments_of (dbConn w) L limit in
  ((List.map lc_ID reply = List.map lcm_ID rows
    /\ List.map lc_Comment reply = List.map lcm_Comment rows
    /\ List.map lc_Tip reply = List.map lcm_Tip rows)
   \/ (reply = [] /\ query_fault (SelectLivecomments L limit) = Some ErrNoRows))
  /\ StronglySorted (fun a b => lcm_CreatedAt b <= lcm_CreatedAt a) rows
  /\ (forall m, In m rows -> In m (livecomments (dbConn w)) /\ lcm_LivestreamID m = L)
  /\ (forall n, limit = Some n -> 0 <= n -> Z.of_nat (length rows) <= n).
Proof.
  intros S P R rows.
  split; [|destruct (livecomments_of_spec (dbConn w) L limit) as (A1 & A2 & A3 & _);
           exact (conj A1 (conj A2 A3))].
  rewrite (getLivecommentsHandler_prelude c w userID L limit S P) in R.
  unfold bind at 1, try at 1 in R.
  destruct (SelectContext_livecomments (dbConn w) L limit w) as [[e|ms] w1] eqn:Q.
  - right. unfold errors_Is in R. case_bool_decide; [subst e|discriminate R].
    cbn in R. injection R as <-. split; [reflexivity|].
    unfold SelectContext_livecomments in Q.
    destruct (query_fault _) as [e|]; [now injection Q as ->|].
    destruct limit as [n|]; [destruct (n <? 0)|]; discriminate Q.
  - left.
    assert (ms = rows) as ->.
    { unfold SelectContext_livecomments in Q.
      destruct (query_fault _); [discriminate Q|].
      destruct limit as [n|]; [destruct (n <? 0); [discriminate Q|]|];
        now injection Q as <- _. }
    revert R. apply bind_orReturn_cases; [discriminate|]. intros ls w2 _.
    unfold bind.
    destruct (fill_livecomments (dbConn w) rows ls w2) as [[e|lcs] w3] eqn:F; [discriminate|].
    cbn. intros [= <-]. eapply fill_livecomments_shape, F.
Qed.

End ListingProperties.

(** ** Looking a user up by name *)

Section LookupProperties.
Context `{Collaborators} `{QueryDriver}.

Lemma dbConn_BeginTxx_err w e :
  driver_fault BeginTxx = Some e ->
  dbConn_BeginTxx w = (inl e, log (EvSQL BeginTxx) w).
Proof.
  intros D. unfold dbConn_BeginTxx. erewrite bind_err by (apply exec_err, D). reflexivity.
Qed.

Lemma dbConn_BeginTxx_inv w tx w0 :
  dbConn_BeginTxx w = (inr tx, w0) -> tx = dbConn w /\ w0 = log (EvSQL BeginTxx) w.
Proof.
  unfold dbConn_BeginTxx, bind, get.
  destruct (exec BeginTxx w) as [[e|[]] w2] eqn:X; [discriminate|].
  apply exec_only_logs in X. subst w2. cbn. now intros [= <- <-].
Qed.

Lemma GetContext_users_by_name_run tx username w :
  GetContext_users_by_name tx username w
  = (match query_fault (SelectUserByName username) with
     | Some e => inl e
     | None =>
         match List.find (fun u => String.eqb (um_Name u) username) (users tx) with
         | Some u => inr u
         | None => inl ErrNoRows
         end
     end, w).
Proof.
  unfold GetContext_users_by_name.
  destruct (query_fault _); [reflexivity|]. now destruct (List.find _ _).
Qed.

(** X19.  [getIconHandler] answers 304 exactly when the transaction
    begins, the row of the name is read, the row stores an icon hash and
    the If-None-Match header is that hash in double quotes; a user whose
    row stores no hash never gets 304, whatever the header.  Whatever it
    answers, the handler adds to the trace only. *)
Theorem getIconHandler_not_modified (username If_None_Match : string) (w : World) :
  (fst (getIconHandler username If_None_Match w) = inr NotModified
   <-> driver_fault BeginTxx = None
       /\ query_fault (SelectUserByName username) = None
       /\ exists row h,
            List.find (fun u => String.eqb (um_Name u) username) (users (dbConn w)) = Some row
            /\ um_IconHash row = Some h
            /\ If_None_Match = quoted h)
  /\ only_logs w (snd (getIconHandler username If_None_Match w)).
Proof.
  destruct (getIconHandler username If_None_Match w) as [r w'] eqn:G. cbn [fst snd].
  revert G. unfold getIconHandler.
  destruct (driver_fault BeginTxx) as [e0|] eqn:D0.
  { erewrite bind_err
      by (erewrite orReturn_err by (apply dbConn_BeginTxx_err, D0); reflexivity).
    intros [= <- <-]. split; [|apply only_logs_log].
    split; [discriminate|]. intros (X & _). discriminate X. }
  erewrite bind_ok
    by (erewrite orReturn_ok by (apply dbConn_BeginTxx_ok, D0); reflexivity).
  unfold bind at 1, try at 1. rewrite GetContext_users_by_name_run.
  destruct (query_fault _) as [e1|] eqn:Q.
  { destruct (errors_Is e1 ErrNoRows); intros [= <- <-];
      (split; [|apply only_logs_log]);
      (split; [discriminate|]); intros (_ & X & _); discriminate X. }
  cbn [dbConn log].
  destruct (List.find _ _) as [row|] eqn:R.
  2: { cbn. intros [= <- <-]. split; [|apply only_logs_log].
       split; [discriminate|]. intros (_ & _ & row & h & X & _). discriminate X. }
  assert (Stat : forall w0 r0 w0',
             bind (try (os_Stat (IconFile (um_ID row))))
               (fun st =>
                  match st with
                  | inl err =>
                      if os_IsNotExist err then ret (ServeFile None fallbackImage)
                      else NewHTTPError StatusInternalServerError
                             ("failed to get user icon: " +:+ Error err)
                  | inr _ =>
                      ret (ServeFile (Some "image/jpeg") (IconFile (um_ID row)))
                  end) w0 = (r0, w0') ->
             r0 <> inr NotModified /\ only_logs w0 w0').
  { intros w0 r0 w0'. unfold bind, try, os_Stat, emit, get. cbn.
    destruct (files w0 (IconFile (um_ID row))); cbn; intros [= <- <-];
      (split; [discriminate|apply only_logs_log]). }
  destruct (um_IconHash row) as [h|] eqn:I.
  - destruct (String.eqb (quoted h) If_None_Match) eqn:E.
    + apply String.eqb_eq in E. intros [= <- <-]. split; [|apply only_logs_log].
      split; [|reflexivity]. intros _. repeat split. now exists row, h.
    + intros G. apply Stat in G as [N L].
      split; [|eapply only_logs_trans; [apply only_logs_log|exact L]].
      split; [intros X; now apply N in X|].
      intros (_ & _ & row' & h' & [= <-] & I' & ->).
      rewrite I in I'. injection I' as <-. now rewrite String.eqb_refl in E.
  - intros G. apply Stat in G as [N L].
    split; [|eapply only_logs_trans; [apply only_logs_log|exact L]].
    split; [intros X; now apply N in X|].
    intros (_ & _ & row' & h' & [= <-] & I' & _). congruence.
Qed.

(** X20.  The icon that [getIconHandler] serves is the icon whose
    fingerprint the profile carries: for a user with no stored hash, when
    [fillUserResponse] assembles the profile and [getIconHandler] hands a
    file to [c.File], on the same files, the hash of the profile is the
    SHA-256 of that file's bytes. *)
Theorem served_icon_has_the_advertised_hash
    (tx : DB) (username If_None_Match : string) (w w1 : World) (row : UserModel)
    (u : User) (content_type : option string) (file : Path) (image : string) :
  List.find (fun u => String.eqb (um_Name u) username) (users (dbConn w)) = Some row ->
  um_IconHash row = None ->
  files w1 = files w ->
  fst (fillUserResponse tx row w1) = inr u ->
  fst (getIconHandler username If_None_Match w) = inr (ServeFile content_type file) ->
  files w file = File image ->
  User_IconHash u = sha256_hex image.
Proof.
  intros R I Fs Fill Serve Img.
  (* the file that the handler picks *)
  assert (P : match files w (IconFile (um_ID row)) with
              | Absent => file = fallbackImage
              | StatFails _ => False
              | _ => file = IconFile (um_ID row)
              end).
  { revert Serve. unfold getIconHandler.
    apply bind_orReturn_cases; [discriminate|]. intros tx0 w0 B.
    apply dbConn_BeginTxx_inv in B as [-> ->].
    unfold bind at 1, try at 1. rewrite GetContext_users_by_name_run.
    destruct (query_fault _) as [e1|]; [destruct (errors_Is e1 ErrNoRows); discriminate|].
    rewrite R, I. unfold bind, try, os_Stat, emit, get. cbn.
    destruct (files w (IconFile (um_ID row))); cbn; try discriminate;
      now intros [= _ <-]. }
  (* the bytes that the assembly hashes *)
  revert Fill. unfold fillUserResponse. unfold bind at 1.
  destruct (GetContext_themes tx (um_ID row) w1) as [[e|theme] w2] eqn:T; [discriminate|].
  apply GetContext_themes_logs in T. subst w2.
  rewrite I. unfold bind, try, os_Stat, os_ReadFile, emit, get. cbn. rewrite Fs.
  destruct (files w (IconFile (um_ID row))) as [|img|msg|msg] eqn:F; cbn.
  - subst file. rewrite IsNotExist_ErrNotExist. cbn. rewrite Fs, Img. cbn.
    now intros [= <-].
  - subst file. rewrite F in Img. injection Img as ->. rewrite Fs, F. cbn.
    now intros [= <-].
  - destruct P.
  - subst file. rewrite F in Img. discriminate Img.
Qed.

(** X21.  [getUserHandler] asked for the name of the session's own user
    and [getMeHandler] leave the same state behind and give the same
    profile whenever one of them gives one; where [getMeHandler] answers
    404, because the theme row is missing, [getUserHandler] answers 500. *)
Theorem getUserHandler_agrees_with_getMeHandler {B}
    (c : Context B) (w : World) (userID : Z) (username : string) (row : UserModel) :
  session_of c w userID ->
  query_fault (SelectUserByName username) = None ->
  List.find (fun u => String.eqb (um_Name u) username) (users (dbConn w)) = Some row ->
  um_ID row = userID ->
  snd (getUserHandler c username w) = snd (getMeHandler c w)
  /\ (forall r, fst (getUserHandler c username w) = inr r
                <-> fst (getMeHandler c w) = inr r)
  /\ (fst (getMeHandler c w)
      = inl (HTTPError 404 "not found user that has the userid in session")
      -> fst (getUserHandler c username w)
         = inl (HTTPError 500 "failed to fill user: sql: no rows in result set")).
Proof.
  intros S Q R Id.
  destruct (getUserHandler c username w) as [ru wu] eqn:GU.
  destruct (getMeHandler c w) as [rm wm] eqn:GM. cbn [fst snd].
  unfold getUserHandler in GU. unfold getMeHandler in GM.
  erewrite bind_ok in GU by (eapply verifyUserSession_ok, S).
  erewrite bind_ok in GM by (eapply verifyUserSession_ok, S).
  erewrite bind_ok in GM by (eapply session_userID_ok, S).
  destruct (driver_fault BeginTxx) as [e0|] eqn:D0.
  { erewrite bind_err in GU
      by (erewrite orReturn_err by (apply dbConn_BeginTxx_err, D0); reflexivity).
    erewrite bind_err in GM
      by (erewrite orReturn_err by (apply dbConn_BeginTxx_err, D0); reflexivity).
    injection GU as <- <-. injection GM as <- <-.
    split; [reflexivity|]. split; [tauto|discriminate]. }
  erewrite bind_ok in GU
    by (erewrite orReturn_ok by (apply dbConn_BeginTxx_ok, D0); reflexivity).
  erewrite bind_ok in GM
    by (erewrite orReturn_ok by (apply dbConn_BeginTxx_ok, D0); reflexivity).
  unfold bind at 1, try at 1 in GU. rewrite GetContext_users_by_name_run, Q in GU.
  cbn [dbConn log] in GU. rewrite R, Id in GU.
  unfold bind at 1, orReturn at 1 in GU.
  unfold bind at 1, try at 1 in GM.
  destruct (getUserResponse (dbConn w) userID (log (EvSQL BeginTxx) w)) as [[e|u] w1].
  - injection GU as <- <-.
    unfold errors_Is in GM. case_bool_decide as E; injection GM as <- <-.
    + subst e. split; [reflexivity|]. split; [split; discriminate|reflexivity].
    + split; [reflexivity|]. split; [split; discriminate|discriminate].
  - unfold bind, orReturn in GU, GM.
    destruct (tx_Commit (dbConn w) w1) as [[e|[]] w2];
      injection GU as <- <-; injection GM as <- <-;
      (split; [reflexivity|]); (split; [tauto|discriminate]).
Qed.

End LookupProperties.

(** ** Logging in *)

Section LoginProperties.
Context `{Collaborators} `{QueryDriver} `{BcryptAPI}.

Lemma Unix_add_seconds (t n : Z) : Unix (t + n * Second) = Unix t + n.
Proof. unfold Unix. apply Z.div_add. unfold Second, Millisecond. lia. Qed.

(** X23.  A login that succeeds answers 200 and saves a session of a user
    of the table who has the name of the request, with an expiry one hour
    after the second at which the handler read the clock: a later request
    that carries the session passes [verifyUserSession] up to and
    including the 3600th second after that one, and never later; and the
    bcrypt service had answered 200. *)
Theorem loginHandler_session_lifetime
    (c : Context LoginRequest) (w w' : World) (code : Z) (saved : Session) :
  loginHandler c w = (inr (LoggedIn code saved), w') ->
  code = 200
  /\ (exists row,
        In row (users (dbConn w))
        /\ Values_USERID saved = Some (um_ID row)
        /\ (forall req, Decode c = inr (Some req) -> um_Name row = lr_Username req)
        /\ exists w0 w1 body,
             http_Post_compair {| Password := match Decode c with
                                              | inr (Some req) => lr_Password req
                                              | _ => ""
                                              end;
                                  HashedPassword := um_HashedPassword row |} w0
             = (inr (200, inr body), w1))
  /\ Values_EXPIRES saved = Some (Unix (clock w') + 3600)
  /\ forall B (c2 : Context B) (w2 : World),
       session_Get c2 = inr saved ->
       (fst (verifyUserSession c2 w2) = inr tt <-> Unix (clock w2) <= Unix (clock w') + 3600).
Proof.
  unfold loginHandler.
  set (req := match Decode c with
              | inr (Some req) => req
              | _ => {| lr_Username := ""; lr_Password := "" |}
              end).
  assert (P : match Decode c with inr (Some r) => lr_Password r | _ => "" end
              = lr_Password req).
  { subst req. now destruct (Decode c) as [e|[r|]]. }
  assert (U : forall r, Decode c = inr (Some r) -> lr_Username req = lr_Username r).
  { subst req. intros r ->. reflexivity. }
  rewrite P. clear P.
  assert (D : forall k : LoginRequest -> M LoginResponse,
             forall r0 w0,
               bind match Decode c with
                    | inl _ =>
                        NewHTTPError StatusBadRequest
                          "failed to decode the request body as json"
                    | inr None => ret {| lr_Username := ""; lr_Password := "" |}
                    | inr (Some req) => ret req
                    end k w = (inr r0, w0) ->
               k req w = (inr r0, w0)).
  { intros k r0 w0. subst req. destruct (Decode c) as [e|[r|]]; cbn; trivial; discriminate. }
  intros G. apply D in G. clear D. revert G.
  apply bind_orReturn_cases; [discriminate|]. intros tx w0 B.
  apply dbConn_BeginTxx_inv in B as [-> ->].
  unfold bind at 1, try at 1. rewrite GetContext_users_by_name_run.
  destruct (query_fault _) as [e1|]; [destruct (errors_Is e1 ErrNoRows); discriminate|].
  destruct (List.find _ _) as [row|] eqn:R; [|discriminate].
  apply bind_orReturn_cases; [discriminate|]. intros [] w1 _.
  apply bind_orReturn_cases; [discriminate|]. intros [status rd] w2 Post.
  cbn [fst snd].
  destruct rd as [e|body]; [discriminate|].
  unfold bind at 1. cbn [ret].
  destruct (status =? StatusOK) eqn:S; [|discriminate].
  apply Z.eqb_eq in S. subst status. cbn [negb].
  unfold bind, Now. cbn.
  destruct (session_Get c) as [e|_]; [discriminate|].
  destruct sess_Save_fault; [discriminate|].
  intros [= <- <- <-]. unfold Time_Add, Hour. rewrite Z.mul_1_l, Unix_add_seconds.
  split; [reflexivity|]. split; [|split; [reflexivity|]].
  - apply find_some in R as [I N]. apply String.eqb_eq in N.
    exists row. split; [exact I|]. split; [reflexivity|].
    split; [intros r E; rewrite N; now apply U|]. eauto.
  - intros B0 c2 w3 E. unfold verifyUserSession. rewrite E. cbn.
    unfold bind, Now. cbn.
    destruct (Unix (clock w3) >? Unix (clock w2) + 3600) eqn:X; cbn.
    + apply Z.gtb_lt in X. split; [discriminate|lia].
    + rewrite Z.gtb_ltb in X. apply Z.ltb_ge in X. now split.
Qed.

End LoginProperties.

(** ** Uploading an icon *)

Section UploadProperties.
Context `{Collaborators} `{QueryDriver} `{FileDriver}.

Lemma bind_ret {A B} (a : A) (k : A -> M B) w : bind (ret a) k w = k a w.
Proof. reflexivity. Qed.

Lemma query_inv q w w' : query q w = (inr tt, w') -> query_fault q = None /\ w' = w.
Proof.
  unfold query. destruct (query_fault q); [discriminate|]. now intros [= <-].
Qed.

Lemma Path_eqb_refl p : Path_eqb p p = true.
Proof. destruct p; cbn; [apply Z.eqb_refl|reflexivity]. Qed.



(** X25.  The file is written before the transaction ends and is not
    taken back: when the image has been written and the update of the
    hash, the read of the insert id or the commit fails, the handler
    answers 500, the database is as it was, and the file of the user holds
    the new image. *)
Theorem uploaded_file_outlives_the_rollback
    (c : Context PostIconRequest) (icons : Icons) (w : World) (userID : Z)
    (req : PostIconRequest) (e : error) :
  session_of c w userID ->
  Decode c = inr (Some req) ->
  driver_fault BeginTxx = None ->
  query_fault (InsertIcon userID) = None ->
  WriteFile_fault (IconFile userID) (Image req) = None ->
  query_fault (UpdateIconHash (sha256_hex (Image req)) userID) = Some e
  \/ driver_fault LastInsertId = Some e
  \/ driver_fault Commit = Some e ->
  (exists msg, fst (postIconHandler c icons w) = inl (HTTPError 500 msg))
  /\ dbConn (snd (postIconHandler c icons w)) = dbConn w
  /\ files (snd (postIconHandler c icons w)) (IconFile userID) = File (Image req).
Proof.
  intros S D B Q W F.
  destruct (postIconHandler c icons w) as [r w'] eqn:G. cbn [fst snd].
  unfold postIconHandler in G.
  erewrite bind_ok in G by (eapply verifyUserSession_ok, S).
  erewrite bind_ok in G by (eapply session_userID_ok, S).
  rewrite D, bind_ret in G.
  erewrite bind_ok in G
    by (erewrite orReturn_ok by (apply dbConn_BeginTxx_ok, B); reflexivity).
  erewrite bind_ok in G
    by (erewrite orReturn_ok by (unfold query; rewrite Q; reflexivity); reflexivity).
  rewrite bind_ret in G.
  erewrite bind_ok in G
    by (erewrite orReturn_ok by (unfold os_WriteFile; rewrite W; reflexivity); reflexivity).
  set (w2 := set_file (IconFile userID) (File (Image req)) (log (EvSQL BeginTxx) w)) in G.
  assert (F2 : files w2 (IconFile userID) = File (Image req)).
  { cbn. now rewrite Z.eqb_refl. }
  destruct (query_fault (UpdateIconHash (sha256_hex (Image req)) userID)) as [e1|] eqn:Q2.
  { erewrite bind_err in G
      by (erewrite orReturn_err by (unfold query; rewrite Q2; reflexivity); reflexivity).
    injection G as <- <-. split; [eexists; reflexivity|]. now split. }
  erewrite bind_ok in G
    by (erewrite orReturn_ok by (unfold query; rewrite Q2; reflexivity); reflexivity).
  destruct (driver_fault LastInsertId) as [e2|] eqn:L.
  { erewrite bind_err in G
      by (erewrite orReturn_err
            by (unfold rs_LastInsertId; erewrite bind_err by (apply exec_err, L); reflexivity);
          reflexivity).
    injection G as <- <-. split; [eexists; reflexivity|]. now split. }
  erewrite bind_ok in G
    by (erewrite orReturn_ok
          by (unfold rs_LastInsertId; erewrite bind_ok by (apply exec_ok, L); reflexivity);
        reflexivity).
  destruct (driver_fault Commit) as [e3|] eqn:C.
  { erewrite bind_err in G
      by (erewrite orReturn_err
            by (unfold tx_Commit; erewrite bind_err by (apply exec_err, C); reflexivity);
          reflexivity).
    injection G as <- <-. split; [eexists; reflexivity|]. now split. }
  destruct F as [F|[F|F]]; discriminate F.
Qed.

End UploadProperties.

(** ** Reporting a comment *)

Section ReportProperties.
Context `{Collaborators} `{QueryDriver}.

Lemma GetContext_livecomments_inv tx id w m w' :
  GetContext_livecomments tx id w = (inr m, w') ->
  List.find (fun m => lcm_ID m =? id) (livecomments tx) = Some m /\ w' = w.
Proof.
  unfold GetContext_livecomments.
  destruct (query_fault _); [discriminate|].
  destruct (List.find _ _); [|discriminate]. now intros [= <- <-].
Qed.

Lemma getLivestream_inv tx id w m w' :
  getLivestream tx id w = (inr m, w') ->
  getLivestream_query tx id = inr m /\ w' = log (EvGetLivestream id) w.
Proof.
  unfold getLivestream, bind, emit.
  destruct (getLivestream_query tx id); [discriminate|]. now intros [= <- <-].
Qed.

(** A comment assembled without a livestream at hand carries the
    livestream of its own row. *)
Lemma fillLivecommentResponse_own_livestream tx m w lc w' :
  fillLivecommentResponse tx m None w = (inr lc, w') ->
  exists lsm w1 w2,
    getLivestream_query tx (lcm_LivestreamID m) = inr lsm
    /\ fillLivestreamResponse tx lsm w1 = (inr (lc_Livestream lc), w2).
Proof.
  unfold fillLivecommentResponse. unfold bind at 1.
  destruct (getUserResponse _ _ _) as [[e|owner] w1]; [discriminate|].
  unfold bind at 1.
  destruct (getLivestream _ _ _) as [[e|lsm] w2] eqn:G; [discriminate|].
  apply getLivestream_inv in G as [G ->].
  unfold bind at 1.
  destruct (fillLivestreamResponse _ _ _) as [[e|ls] w3] eqn:F; [discriminate|].
  intros [= <- _]. exists lsm. eauto.
Qed.

(** X26.  A report that succeeds answers 201 and files a row under the
    livestream of the path, for the comment of the path, by the user of
    the session, at the second of the clock; the comment it shows is that
    comment, with the livestream of the comment's own row.  Nothing links
    the two livestreams: the handler reads the one of the path only to see
    that it exists.  The tables of the database are as they were. *)
Theorem report_is_filed_under_the_livestream_of_the_path
    (c : Context unit) (Param_livecomment_id : option Z) (reports reports' : Reports)
    (w w' : World) (userID L code : Z) (report : LivecommentReport) :
  session_of c w userID ->
  Param_livestream_id c = Some L ->
  reportLivecommentHandler c Param_livecomment_id reports w
  = (inr (JSON_Report code report, reports'), w') ->
  exists K m lsm,
    Param_livecomment_id = Some K
    /\ code = 201
    /\ List.find (fun m => lcm_ID m =? K) (livecomments (dbConn w)) = Some m
    /\ report_rows reports'
       = (report_rows reports
          ++ [{| rpm_ID := rp_ID report;
                 rpm_UserID := userID;
                 rpm_LivestreamID := L;
                 rpm_LivecommentID := K;
                 rpm_CreatedAt := Unix (clock w) |}])%list
    /\ (exists lsmL, getLivestream_query (dbConn w) L = inr lsmL)
    /\ lc_ID (rp_Livecomment report) = K
    /\ lc_Comment (rp_Livecomment report) = lcm_Comment m
    /\ getLivestream_query (dbConn w) (lcm_LivestreamID m) = inr lsm
    /\ (exists w1 w2,
          fillLivestreamResponse (dbConn w) lsm w1
          = (inr (lc_Livestream (rp_Livecomment report)), w2))
    /\ dbConn w' = dbConn w.
Proof.
  intros S P G. unfold reportLivecommentHandler in G.
  erewrite bind_ok in G by (eapply verifyUserSession_ok, S).
  erewrite bind_ok in G by (eapply livestream_id_param_ok, P).
  destruct Param_livecomment_id as [K|]; [|discriminate G]. rewrite bind_ret in G.
  erewrite bind_ok in G by (eapply session_userID_ok, S).
  revert G.
  apply bind_orReturn_cases; [discriminate|]. intros tx w0 B.
  apply dbConn_BeginTxx_inv in B as [-> ->].
  apply bind_orReturn_cases; [discriminate|]. intros lsmL w1 GL.
  apply getLivestream_inv in GL as [GL ->].
  apply bind_orReturn_cases; [discriminate|]. intros m w2 GC.
  apply GetContext_livecomments_inv in GC as [GC ->].
  unfold bind at 1, Now at 1. cbn [clock log].
  apply bind_orReturn_cases; [discriminate|]. intros [] w3 Q.
  apply query_inv in Q as [_ ->].
  apply bind_orReturn_cases; [discriminate|]. intros id0 w4 LI.
  assert (id0 = reports_auto_increment reports) as ->.
  { unfold rs_LastInsertId, bind in LI.
    destruct (exec LastInsertId _) as [[e|[]] w5]; [discriminate|].
    cbn in LI. now injection LI as <- _. }
  apply bind_orReturn_cases; [discriminate|]. intros rp w5 F.
  apply bind_orReturn_cases; [discriminate|]. intros [] w6 C.
  assert (dbConn w6 = dbConn w) as DB.
  { unfold tx_Commit, bind in C.
    destruct (exec Commit _) as [[e|[]] w7]; [discriminate|]. now injection C as <-. }
  intros [= <- <- <- <-].
  (* the assembly of the report *)
  unfold fillLivecommentReportResponse in F. unfold bind at 1 in F.
  destruct (getUserResponse _ _ _) as [[e|reporter] w7]; [discriminate|].
  revert F. apply bind_orReturn_cases; [discriminate|]. intros m' w8 GC'.
  apply GetContext_livecomments_inv in GC' as [GC' ->]. cbn in GC'.
  rewrite GC in GC'. injection GC' as <-.
  unfold bind.
  destruct (fillLivecommentResponse _ _ _ _) as [[e|lc] w9] eqn:FL; [discriminate|].
  intros [= <- _]. cbn.
  destruct (fillLivecommentResponse_fields _ _ _ _ _ _ FL) as (F1 & F2 & _).
  destruct (fillLivecommentResponse_own_livestream _ _ _ _ _ FL) as (lsm & wa & wb & O1 & O2).
  apply find_some in GC as GC2. destruct GC2 as [_ GC2]. apply Z.eqb_eq in GC2.
  exists K, m, lsm. repeat split; eauto; congruence.
Qed.

End ReportProperties.

(** * The icon dump: icons of the database written to the directory *)

Section DumpProperties.
Import DumpIcons.
Variable WriteFile_fault : Z -> string -> Dir -> option (error * Dir).

Local Abbreviation dump := (DumpIcons.dump WriteFile_fault).

Lemma last_icon_of_cons user_id icon icons :
  last_icon_of user_id (icon :: icons)
  = match last_icon_of user_id icons with
    | Some i => Some i
    | None => if UserID icon =? user_id then Some icon else None
    end.
Proof.
  unfold last_icon_of. cbn [List.filter].
  destruct (UserID icon =? user_id); [|now destruct (last _)].
  rewrite last_cons. now destruct (last _).
Qed.

(** X22.  After a dump that ran to its end, the file of a user is the
    image of the last of the user's rows, in the order the rows were
    read: an earlier icon of the same user is overwritten.  The file of a
    user who has no row is as it was. *)
Theorem last_icon_wins (icons : list Icon) (d d' : Dir) :
  dump icons d = (None, d') ->
  forall user_id,
    d' !! user_id
    = match last_icon_of user_id icons with
      | Some icon => Some (Image icon)
      | None => d !! user_id
      end.
Proof.
  revert d. induction icons as [|icon rest IH]; intros d; cbn [DumpIcons.dump].
  - now intros [= <-] user_id.
  - unfold dumpImage, DumpIcons.os_WriteFile.
    destruct (WriteFile_fault _ _ d) as [[e d1]|]; [discriminate|].
    intros D user_id. rewrite (IH _ D user_id), last_icon_of_cons.
    destruct (last_icon_of user_id rest); [reflexivity|].
    destruct (UserID icon =? user_id) eqn:E.
    + apply Z.eqb_eq in E. subst user_id. apply lookup_insert_eq.
    + apply Z.eqb_neq in E. now apply lookup_insert_ne.
Qed.

End DumpProperties.

#[local] Existing Instance demo_declared.
#[local] Existing Instance demo_collaborators.


(** C6 at the example: user 99 has no row and no cache entry. *)
Lemma getUserResponse_failure_is_not_cached_witness :
  getUserResponse demo_db 99 demo_world
  = (inl ErrNoRows, log (EvSQL (SelectUserByID 99)) (log (EvUserLoad 99) demo_world))
  /\ userCache (log (EvSQL (SelectUserByID 99)) (log (EvUserLoad 99) demo_world))
     = userCache demo_world
  /\ forall tx2 w2,
       userCache w2 = userCache (log (EvSQL (SelectUserByID 99)) (log (EvUserLoad 99) demo_world)) ->
       clock (log (EvSQL (SelectUserByID 99)) (log (EvUserLoad 99) demo_world)) <= clock w2 ->
       exists rest, trace (snd (getUserResponse tx2 99 w2))
                    = (trace w2 ++ EvUserLoad 99 :: EvSQL (SelectUserByID 99) :: rest)%list.
Proof.
  apply (getUserResponse_failure_is_not_cached demo_db 99 demo_world).
  - intros c E. vm_compute in E. discriminate E.
  - left. reflexivity.
Defined.

(** C9 at the example: the profile of user 99 is stale and the row is gone. *)
Lemma stale_entry_is_not_served_on_failure_witness :
  getUserResponse demo_db 99 demo_stale_world
  = (inl ErrNoRows, log (EvSQL (SelectUserByID 99)) (log (EvUserLoad 99) demo_stale_world))
  /\ userCache (log (EvSQL (SelectUserByID 99)) (log (EvUserLoad 99) demo_stale_world))
     = userCache demo_stale_world
  /\ userCache (log (EvSQL (SelectUserByID 99)) (log (EvUserLoad 99) demo_stale_world)) !! 99
     = Some {| user := demo_ghost; fetchedAt := 0 |}.
Proof.
  apply (stale_entry_is_not_served_on_failure demo_db 99 demo_stale_world).
  - reflexivity.
  - vm_compute. discriminate.
  - left. reflexivity.
Defined.


Lemma demo_session_of {B} (user_id livestream_id : Z) (body : B) (w : World) :
  clock w <= 4600 * Second ->
  session_of (demo_request user_id livestream_id body) w user_id.
Proof.
  intros L. exists 4600. split; [reflexivity|].
  unfold Unix. apply Z.div_le_upper_bound; unfold Second, Millisecond in *; lia.
Qed.

(** C7 at the example: the owner lists the words of stream 42 with a cold
    cache, then again with the entry in place. *)
Lemma getNgwords_cached_or_fetched_witness :
  fst (getNgwords (demo_request 7 42 tt) demo_world) = inr (JSON_NGWords 200 [demo_spam])
  /\ ngWordsCache (snd (getNgwords (demo_request 7 42 tt) demo_world)) !! 42
     = Some [demo_spam]
  /\ getNgwords (demo_request 7 42 tt) demo_warm_world
     = (inr (JSON_NGWords 200 [demo_spam]),
        log (EvNgLoad 42) (log (EvGetLivestream 42) demo_warm_world)).
Proof.
  destruct (getNgwords_cached_or_fetched (demo_request 7 42 tt) demo_world 7 42
              {| lsm_ID := 42; lsm_UserID := 7 |}) as (_ & M & _).
  { apply demo_session_of. vm_compute. discriminate. }
  { reflexivity. }
  { reflexivity. }
  { reflexivity. }
  destruct (getNgwords_cached_or_fetched (demo_request 7 42 tt) demo_warm_world 7 42
              {| lsm_ID := 42; lsm_UserID := 7 |}) as (Hit & _).
  { apply demo_session_of. vm_compute. discriminate. }
  { reflexivity. }
  { reflexivity. }
  { reflexivity. }
  destruct M as (A & B & _); [reflexivity|reflexivity|].
  split; [exact A|]. split; [now rewrite B|].
  apply Hit. reflexivity.
Defined.

(** C10 at the example: the viewer tries to ban a word on stream 42. *)
Lemma moderateHandler_not_owner_witness :
  fst (moderateHandler (demo_request 8 42 {| mr_NGWord := "eggs" |}) demo_warm_world)
  = inl (HTTPError 400 "A streamer can't moderate livestreams that other streamers own")
  /\ dbConn (snd (moderateHandler (demo_request 8 42 {| mr_NGWord := "eggs" |})
                                  demo_warm_world)) = demo_db
  /\ ngWordsCache (snd (moderateHandler (demo_request 8 42 {| mr_NGWord := "eggs" |})
                                        demo_warm_world)) !! 42 = Some [demo_spam].
Proof.
  destruct (moderateHandler_not_owner
              (demo_request 8 42 {| mr_NGWord := "eggs" |}) demo_warm_world 8 42
              (Some {| mr_NGWord := "eggs" |}) {| lsm_ID := 42; lsm_UserID := 7 |})
    as (R & D & C & _).
  { apply demo_session_of. vm_compute. discriminate. }
  { reflexivity. }
  { reflexivity. }
  { reflexivity. }
  { reflexivity. }
  { discriminate. }
  split; [now rewrite R|]. split; [now rewrite D|]. now rewrite C.
Defined.



(** C2 (the code departs from the claim).  A comment of user 8 on stream 42,
    which user 7 owns: the handler looks the word list up under key 7, the
    owner's user id, and stores what it reads under key 42, the stream id.
    That holds of every stream: on a miss the load key is the owner's user
    id and the store key the stream id.  The entry the owner's listing left
    under 42 is not found, and an entry under 7 is taken for the list of
    stream 42: with the empty list of stream 7 there, "this is spam" is
    accepted on stream 42. *)
Theorem comment_lookup_key_is_not_store_key :
  (forall (D : Declared) (C : @Collaborators D) tx livestreamModel w,
      ngWordsCache w !! lsm_UserID livestreamModel = None ->
      @driver_fault D C (SelectNGWords (lsm_ID livestreamModel)) = None ->
      trace (snd (@consult D C tx livestreamModel w))
      = (trace w ++ [ EvNgLoad (lsm_UserID livestreamModel);
                      EvSQL (SelectNGWords (lsm_ID livestreamModel));
                      EvNgStore (lsm_ID livestreamModel)
                                (ng_words_of tx (lsm_ID livestreamModel)) ])%list)
  /\
  let post comment := demo_request 8 42 {| Comment := comment; Tip := 0 |} in
  let ng_events :=
    List.filter (fun e => match e with
                          | EvNgLoad _ | EvNgStore _ _ | EvNgDelete _ => true
                          | _ => false
                          end) in
  ng_events (trace (snd (postLivecommentHandler (post "hi") demo_world)))
  = [EvNgLoad 7; EvNgStore 42 [demo_spam]]
  /\ ng_events (trace (snd (postLivecommentHandler (post "hi") demo_warm_world)))
     = [EvNgLoad 7; EvNgStore 42 [demo_spam]]
  /\ fst (postLivecommentHandler (post "this is spam") demo_world)
     = inl (HTTPError 400 spam_message)
  /\ List.map lcm_Comment
       (livecomments
          (dbConn (snd (postLivecommentHandler (post "this is spam") demo_other_world))))
     = ["hello"; "buy eggs"; "this is spam"].
Proof.
  split.
  - intros D C tx livestreamModel w E F. now apply consult_keys.
  - vm_compute. repeat split.
Qed.

(** C8 at the example: the viewer asks for the words of stream 42, and
    somebody asks for those of a stream that does not exist. *)
Example getNgwords_not_for_the_viewer :
  getNgwords (demo_request 8 42 tt) demo_warm_world
  = (inr (JSON_NGWords 200 []), log (EvGetLivestream 42) demo_warm_world)
  /\ getNgwords (demo_request 7 43 tt) demo_warm_world
     = (inr (JSON_NGWords 200 []), log (EvGetLivestream 43) demo_warm_world).
Proof. split; reflexivity. Qed.

(** The staleness scenario of the spec: a profile cached at second 1000 is
    returned as cached one second later, whatever the row has become, and
    is rebuilt after 1.4 s. *)
Example bounded_profile_staleness :
  let cached := {| User_ID := 8; User_Name := "viewer"; User_DisplayName := "Old name";
                   User_Description := "";
                   User_Theme := {| Theme_ID := 2; Theme_DarkMode := false |};
                   User_IconHash := "bb" |} in
  let at_time t :=
    set_clock t (set_userCache (Map_Store 8 {| user := cached; fetchedAt := 1000 * Second |})
                               demo_world) in
  fst (getUserResponse demo_db 8 (at_time (1000 * Second + 1000 * Millisecond)))
  = inr cached
  /\ fst (getUserResponse demo_db 8 (at_time (1000 * Second + 1400 * Millisecond)))
     = inr {| User_ID := 8; User_Name := "viewer"; User_DisplayName := "Viewer";
              User_Description := "";
              User_Theme := {| Theme_ID := 2; Theme_DarkMode := false |};
              User_IconHash := "bb" |}
  /\ fetchedAt <$> userCache (snd (getUserResponse demo_db 8
                                     (at_time (1000 * Second + 1400 * Millisecond)))) !! 8
     = Some (1000 * Second + 1400 * Millisecond).
Proof. vm_compute. repeat split. Qed.

(** ** The further properties at the example *)

(** X1 at the example: after the pair ("$2a$04$x:y", "x:y") has matched,
    the pair ("$2a$04$x:y-x", "y"), which does not match, is answered 200;
    after the pair ("$2a$04$secret", "x:y") has failed, the pair
    ("$2a$04$secret-x", "y") is answered 401 from the cache. *)
Lemma recorded_outcome_answers_another_pair_witness :
  fst (bcryptCompairHandler
         (inr {| Password := "y"; HashedPassword := "$2a$04$x:y-x" |})
         (snd (bcryptCompairHandler
                 (inr {| Password := "x:y"; HashedPassword := "$2a$04$x:y" |}) demo_world)))
  = inr (NoContent 200)
  /\ CompareHashAndPassword "$2a$04$x:y-x" "y" = Some ErrMismatchedHashAndPassword.
Proof.
  pose proof (@recorded_outcome_answers_another_pair demo_declared demo_collaborators
                "$2a$04$x:y" "x" "y" demo_world eq_refl) as T.
  cbv zeta in T. destruct T as [A _].
  split; [|reflexivity].
  exact (f_equal fst (A eq_refl)).
Defined.

(** X2 at the example: four logins in a row on the empty cache, the
    first and the last for the same pair, one of them undecodable: the
    answers are those of the handler without a cache, and the comparison
    runs three times. *)
Lemma cache_is_never_hit_on_bcrypt_hashes_witness :
  fst (serve bcryptCompairHandler
         [demo_login "secret"; demo_login "wrong"; inl (ErrOther "unexpected EOF");
          demo_login "secret"] demo_world)
  = fst (serve bcryptCompairHandler_uncached
           [demo_login "secret"; demo_login "wrong"; inl (ErrOther "unexpected EOF");
            demo_login "secret"] demo_world)
  /\ comparisons
       (trace (snd (serve bcryptCompairHandler
                      [demo_login "secret"; demo_login "wrong";
                       inl (ErrOther "unexpected EOF"); demo_login "secret"] demo_world)))
     = 3%nat.
Proof.
  apply (@cache_is_never_hit_on_bcrypt_hashes demo_declared demo_collaborators
           [demo_login "secret"; demo_login "wrong"; inl (ErrOther "unexpected EOF");
            demo_login "secret"] demo_world).
  - reflexivity.
  - repeat constructor.
Defined.

(** X4 at the example: the cache holds the profile of user 99 under 99,
    and the profile of user 8 is asked for. *)
Lemma getUserResponse_keeps_keys_witness :
  userCache_keyed (snd (getUserResponse demo_db 8 demo_stale_world))
  /\ forall u, fst (getUserResponse demo_db 8 demo_stale_world) = inr u -> User_ID u = 8.
Proof.
  apply (@getUserResponse_keeps_keys demo_declared demo_collaborators demo_db 8
           demo_stale_world).
  intros k c0 E. unfold demo_stale_world, set_userCache, Map_Store in E. cbn in E.
  apply lookup_insert_Some in E as [[<- <-]|[_ E]]; [reflexivity|].
  now rewrite lookup_empty in E.
Defined.

(** X5 at the example: the profile of user 8 is rebuilt at second 1000;
    a second later, with every row gone from the database, it is still
    what [getUserResponse] returns. *)
Lemma rebuilt_profile_is_served_for_ttl_witness :
  fst (getUserResponse demo_db_no_user 8
         (set_clock (1001 * Second) (snd (getUserResponse demo_db 8 demo_world))))
  = inr demo_viewer.
Proof.
  destruct (@rebuilt_profile_is_served_for_ttl demo_declared demo_collaborators
              demo_db 8 demo_world demo_viewer) with
    (tx2 := demo_db_no_user)
    (w2 := set_clock (1001 * Second) (snd (getUserResponse demo_db 8 demo_world)))
    as [Fresh _].
  - intros c0 E. cbn in E. now rewrite lookup_empty in E.
  - vm_compute. reflexivity.
  - reflexivity.
  - rewrite Fresh; [reflexivity|]. vm_compute. reflexivity.
Defined.

(** X6 at the example: no icon is on disk, the fallback image included. *)
Lemma fillUserResponse_unreadable_fallback_witness :
  fst (fillUserResponse demo_db demo_row_no_hash demo_world)
  = inr {| User_ID := 7; User_Name := "streamer"; User_DisplayName := "Streamer";
           User_Description := "";
           User_Theme := {| Theme_ID := 1; Theme_DarkMode := true |};
           User_IconHash := "sha256:" |}.
Proof.
  apply (@fillUserResponse_unreadable_fallback demo_declared demo_collaborators
           demo_db demo_row_no_hash {| tm_ID := 1; tm_UserID := 7; tm_DarkMode := true |}
           demo_world).
  - reflexivity.
  - reflexivity.
  - reflexivity.
  - reflexivity.
  - intros image. discriminate.
Defined.

(** X7 at the example: the row of user 7 carries the hash "aa". *)
Lemma fillUserResponse_stored_hash_witness :
  snd (fillUserResponse demo_db
         {| um_ID := 7; um_Name := "streamer"; um_DisplayName := "Streamer";
            um_Description := ""; um_HashedPassword := "$2a$04$secret";
            um_IconHash := Some "aa" |} demo_world)
  = log (EvSQL (SelectThemeByUserID 7)) demo_world.
Proof.
  apply (@fillUserResponse_stored_hash demo_declared demo_collaborators demo_db
           {| um_ID := 7; um_Name := "streamer"; um_DisplayName := "Streamer";
              um_Description := ""; um_HashedPassword := "$2a$04$secret";
              um_IconHash := Some "aa" |} "aa" demo_world).
  reflexivity.
Defined.

(** X9 at the example: the session of user 8. *)
Lemma session_userID_after_verification_witness :
  exists userID, forall w2, session_userID (demo_request 8 42 tt) w2 = (inr userID, w2).
Proof.
  apply (@session_userID_after_verification unit (demo_request 8 42 tt) demo_world).
  vm_compute. reflexivity.
Defined.

(** X10 at the example: user 8 asks for their own profile once the theme
    rows are gone. *)
Lemma getMeHandler_missing_theme_witness :
  fst (getMeHandler (demo_request 8 42 tt) (set_dbConn demo_db_no_theme demo_world))
  = inl (HTTPError 404 "not found user that has the userid in session").
Proof.
  apply (@getMeHandler_missing_theme demo_declared demo_collaborators unit
           (demo_request 8 42 tt) (set_dbConn demo_db_no_theme demo_world) 8
           {| um_ID := 8; um_Name := "viewer"; um_DisplayName := "Viewer";
              um_Description := ""; um_HashedPassword := "$2a$04$hunter2";
              um_IconHash := Some "bb" |}).
  - apply demo_session_of. vm_compute. discriminate.
  - reflexivity.
  - reflexivity.
  - reflexivity.
  - intros c0 E. cbn in E. now rewrite lookup_empty in E.
  - reflexivity.
  - reflexivity.
Defined.

(** X11 at the example: the owner bans "eggs" on stream 42 and the commit
    fails: the comment "buy eggs" is still there, the cached list too, and
    no time has passed. *)
Lemma moderateHandler_all_or_nothing_witness :
  dbConn (snd (@moderateHandler demo_declared (demo_collaborators_with demo_commit_fails)
                 (demo_request 7 42 {| mr_NGWord := "eggs" |}) demo_warm_world))
  = demo_db
  /\ ngWordsCache
       (snd (@moderateHandler demo_declared (demo_collaborators_with demo_commit_fails)
               (demo_request 7 42 {| mr_NGWord := "eggs" |}) demo_warm_world))
     = ngWordsCache demo_warm_world
  /\ clock (snd (@moderateHandler demo_declared (demo_collaborators_with demo_commit_fails)
                   (demo_request 7 42 {| mr_NGWord := "eggs" |}) demo_warm_world))
     = 1000 * Second.
Proof.
  apply (@moderateHandler_all_or_nothing demo_declared
           (demo_collaborators_with demo_commit_fails)
           (demo_request 7 42 {| mr_NGWord := "eggs" |}) demo_warm_world
           (HTTPError 500 "failed to commit: driver: bad connection")).
  vm_compute. reflexivity.
Defined.

(** X12 at the example: with the empty word in the list looked up for
    stream 42, the comment "hello" is rejected as spam. *)
Lemma empty_ng_word_rejects_every_comment_witness :
  fst (postLivecommentHandler (demo_request 8 42 {| Comment := "hello"; Tip := 0 |})
         demo_empty_word_world)
  = inl (HTTPError 400 spam_message)
  /\ dbConn (snd (postLivecommentHandler
                    (demo_request 8 42 {| Comment := "hello"; Tip := 0 |})
                    demo_empty_word_world)) = dbConn demo_empty_word_world.
Proof.
  apply (@empty_ng_word_rejects_every_comment demo_declared demo_collaborators
           (demo_request 8 42 {| Comment := "hello"; Tip := 0 |}) demo_empty_word_world
           8 42 {| Comment := "hello"; Tip := 0 |} {| lsm_ID := 42; lsm_UserID := 7 |}
           [demo_empty_word; demo_spam] demo_empty_word).
  - reflexivity.
  - apply demo_session_of. vm_compute. discriminate.
  - reflexivity.
  - reflexivity.
  - reflexivity.
  - left. reflexivity.
  - now left.
  - reflexivity.
Defined.

(** X13 at the example: the owner lists the words of stream 42 on a cold
    cache while the SELECT fails with [sql.ErrNoRows]. *)
Lemma getNgwords_failed_select_is_not_cached_witness :
  fst (@getNgwords demo_declared
         (demo_collaborators_with (demo_select_words_fails ErrNoRows))
         (demo_request 7 42 tt) demo_world)
  = inr (JSON_NGWords 200 [])
  /\ ngWordsCache
       (snd (@getNgwords demo_declared
               (demo_collaborators_with (demo_select_words_fails ErrNoRows))
               (demo_request 7 42 tt) demo_world))
     = ngWordsCache demo_world
  /\ trace
       (snd (@getNgwords demo_declared
               (demo_collaborators_with (demo_select_words_fails ErrNoRows))
               (demo_request 7 42 tt) demo_world))
     = [EvGetLivestream 42; EvNgLoad 42; EvSQL (SelectNGWords 42)].
Proof.
  apply (@getNgwords_failed_select_is_not_cached demo_declared
           (demo_collaborators_with (demo_select_words_fails ErrNoRows))
           (demo_request 7 42 tt) demo_world 7 42 {| lsm_ID := 42; lsm_UserID := 7 |}
           ErrNoRows).
  - apply demo_session_of. vm_compute. discriminate.
  - reflexivity.
  - reflexivity.
  - reflexivity.
  - reflexivity.
  - reflexivity.
Defined.

(** X14 at the example: stream 41 does not exist. *)
Lemma missing_livestream_four_answers_witness :
  fst (getNgwords (demo_request 8 41 tt) demo_world) = inr (JSON_NGWords 200 [])
  /\ fst (postLivecommentHandler (demo_request 8 41 {| Comment := "hello"; Tip := 0 |})
            demo_world)
     = inl (HTTPError 404 "livestream not found")
  /\ fst (moderateHandler (demo_request 8 41 {| mr_NGWord := "eggs" |}) demo_world)
     = inl (HTTPError 500 "failed to get livestreams: sql: no rows in result set")
  /\ fst (@getLivecommentsHandler demo_declared demo_collaborators demo_query_driver
            (demo_request 8 41 tt) None demo_world)
     = inl (HTTPError 500 "failed to get livestream: sql: no rows in result set").
Proof.
  apply (@missing_livestream_four_answers demo_declared demo_collaborators
           demo_query_driver demo_world 8 41
           (demo_request 8 41 tt)
           (demo_request 8 41 {| Comment := "hello"; Tip := 0 |})
           (demo_request 8 41 {| mr_NGWord := "eggs" |})
           {| Comment := "hello"; Tip := 0 |} (Some {| mr_NGWord := "eggs" |})).
  - apply demo_session_of. vm_compute. discriminate.
  - apply demo_session_of. vm_compute. discriminate.
  - apply demo_session_of. vm_compute. discriminate.
  - reflexivity.
  - reflexivity.
  - reflexivity.
  - reflexivity.
  - reflexivity.
  - reflexivity.
  - reflexivity.
  - reflexivity.
Defined.

(** X15 at the example: user 8 lists the comments of stream 42 with
    [limit=1] and gets the newer of the two. *)
Lemma getLivecommentsHandler_lists_the_rows_witness :
  exists reply,
    fst (@getLivecommentsHandler demo_declared demo_collaborators demo_query_driver
           (demo_request 8 42 tt) (Some (Some 1)) demo_world)
    = inr (JSON_Livecomments 200 reply)
    /\ List.map lc_Comment reply = ["buy eggs"].
Proof.
  eexists. split; [vm_compute; reflexivity|].
  pose proof (@getLivecommentsHandler_lists_the_rows demo_declared demo_collaborators
                demo_query_driver (demo_request 8 42 tt) demo_world 8 42 (Some 1)) as T.
  cbv zeta in T.
  edestruct T as [[(_ & C & _)|[_ Q]] _].
  - apply demo_session_of. vm_compute. discriminate.
  - reflexivity.
  - vm_compute. reflexivity.
  - exact C.
  - discriminate Q.
Defined.


(** X17 at the example: "hello " and then "world" are written, and the
    size logged is 5, not 11. *)
Lemma size_is_the_last_write_witness :
  AccessLog.resSize
    (AccessLog.run (fun _ body => (Z.of_nat (String.length body), None)) true
       [AccessLog.OpWrite "hello "; AccessLog.OpWrite "world"] (AccessLog.newWriter []))
  = 5.
Proof.
  rewrite (size_is_the_last_write
             (fun _ body => (Z.of_nat (String.length body), None)) true
             [AccessLog.OpWrite "hello "; AccessLog.OpWrite "world"] (AccessLog.newWriter []));
    reflexivity.
Defined.

(** X20 at the example: the icon of user 7 is on disk and its row stores
    no hash: the file served is the one whose hash the profile carries. *)
Lemma served_icon_has_the_advertised_hash_witness :
  fst (@getIconHandler demo_declared demo_collaborators demo_query_driver
         "streamer" "" demo_icon_world)
  = inr (ServeFile (Some "image/jpeg") (IconFile 7))
  /\ exists u,
       fst (fillUserResponse demo_db_no_hash demo_row_no_hash demo_icon_world) = inr u
       /\ User_IconHash u = "sha256:JFIF".
Proof.
  split; [reflexivity|].
  eexists. split; [vm_compute; reflexivity|].
  apply (@served_icon_has_the_advertised_hash demo_declared demo_collaborators
           demo_query_driver demo_db_no_hash "streamer" "" demo_icon_world demo_icon_world
           demo_row_no_hash _ (Some "image/jpeg") (IconFile 7) "JFIF");
    reflexivity.
Defined.

(** X21 at the example: user 8 asks for the profile of "viewer", which is
    their own. *)
Lemma getUserHandler_agrees_with_getMeHandler_witness :
  fst (@getUserHandler demo_declared demo_collaborators demo_query_driver unit
         (demo_request 8 42 tt) "viewer" demo_world)
  = inr (JSON_User 200 demo_viewer)
  /\ snd (@getUserHandler demo_declared demo_collaborators demo_query_driver unit
            (demo_request 8 42 tt) "viewer" demo_world)
     = snd (getMeHandler (demo_request 8 42 tt) demo_world).
Proof.
  destruct (@getUserHandler_agrees_with_getMeHandler demo_declared demo_collaborators
              demo_query_driver unit (demo_request 8 42 tt) demo_world 8 "viewer"
              {| um_ID := 8; um_Name := "viewer"; um_DisplayName := "Viewer";
                 um_Description := ""; um_HashedPassword := "$2a$04$hunter2";
                 um_IconHash := Some "bb" |}) as (W & I & _).
  - apply demo_session_of. vm_compute. discriminate.
  - reflexivity.
  - reflexivity.
  - reflexivity.
  - split; [|exact W]. apply I. vm_compute. reflexivity.
Defined.

(** X22 at the example: user 7 has two rows, and the later one is on disk
    after the dump. *)
Lemma last_icon_wins_witness :
  snd (DumpIcons.dump (fun _ _ _ => None)
         [DumpIcons.mkIcon 1 7 "old"; DumpIcons.mkIcon 2 8 "other"; DumpIcons.mkIcon 3 7 "new"]
         ∅) !! 7
  = Some "new".
Proof.
  exact (last_icon_wins (fun _ _ _ => None)
           [DumpIcons.mkIcon 1 7 "old"; DumpIcons.mkIcon 2 8 "other";
            DumpIcons.mkIcon 3 7 "new"]
           ∅ _ eq_refl 7).
Defined.

(** X23 at the example: "viewer" logs in at second 1000 and gets a
    session of user 8 that expires at second 4600; the session still passes
    in the last millisecond of second 4600. *)
Lemma loginHandler_session_lifetime_witness :
  fst (@loginHandler demo_declared demo_collaborators demo_query_driver demo_bcrypt_api
         (demo_login_request "viewer" "hunter2") demo_world)
  = inr (LoggedIn 200 {| Values_EXPIRES := Some 4600; Values_USERID := Some 8 |})
  /\ fst (verifyUserSession (demo_request 8 42 tt)
            (set_clock (4600 * Second + 999 * Millisecond) demo_world)) = inr tt.
Proof.
  split; [vm_compute; reflexivity|].
  destruct (@loginHandler_session_lifetime demo_declared demo_collaborators
              demo_query_driver demo_bcrypt_api
              (demo_login_request "viewer" "hunter2") demo_world
              (snd (@loginHandler demo_declared demo_collaborators demo_query_driver
                      demo_bcrypt_api (demo_login_request "viewer" "hunter2") demo_world))
              200 {| Values_EXPIRES := Some 4600; Values_USERID := Some 8 |})
    as (_ & _ & _ & V).
  - vm_compute. reflexivity.
  - apply V; [reflexivity|]. vm_compute. discriminate.
Defined.


(** X25 at the example: the commit fails; the database is as it was and
    the file of user 8 holds "JFIF". *)
Lemma uploaded_file_outlives_the_rollback_witness :
  dbConn (snd (@postIconHandler demo_declared (demo_collaborators_with demo_commit_fails)
                 demo_query_driver demo_file_driver demo_upload demo_icons demo_world))
  = demo_db
  /\ files (snd (@postIconHandler demo_declared (demo_collaborators_with demo_commit_fails)
                   demo_query_driver demo_file_driver demo_upload demo_icons demo_world))
       (IconFile 8)
     = File "JFIF".
Proof.
  destruct (@uploaded_file_outlives_the_rollback demo_declared
              (demo_collaborators_with demo_commit_fails) demo_query_driver
              demo_file_driver demo_upload demo_icons demo_world 8 {| Image := "JFIF" |}
              (ErrOther "driver: bad connection")) as (_ & A & B).
  - apply demo_session_of. vm_compute. discriminate.
  - reflexivity.
  - reflexivity.
  - reflexivity.
  - reflexivity.
  - right. right. reflexivity.
  - split; [exact A|exact B].
Defined.

(** X26 at the example: user 7 reports comment 1, a comment of stream 42,
    under stream 43: the row is filed under 43 and the comment shown is of
    stream 42. *)
Lemma report_is_filed_under_the_livestream_of_the_path_witness :
  exists report reports' w',
    @reportLivecommentHandler demo_declared demo_collaborators_two_streams
      demo_query_driver (demo_request 7 43 tt) (Some 1) demo_reports demo_world
    = (inr (JSON_Report 201 report, reports'), w')
    /\ List.map rpm_LivestreamID (report_rows reports') = [43]
    /\ lsm_ID (lc_Livestream (rp_Livecomment report)) = 42.
Proof.
  eexists _, _, _. split; [vm_compute; reflexivity|].
  edestruct (@report_is_filed_under_the_livestream_of_the_path demo_declared
               demo_collaborators_two_streams demo_query_driver
               (demo_request 7 43 tt) (Some 1) demo_reports)
    as (K & m & lsm & _ & _ & _ & Rows & _).
  - apply demo_session_of with (w := demo_world). vm_compute. discriminate.
  - reflexivity.
  - vm_compute. reflexivity.
  - split; [|reflexivity]. rewrite Rows. reflexivity.
Defined.
